(** * Potato-Crop-AI: recommendation engine, task manager and alert system

    A shallow embedding of
    - [src/recommendation_engine/smart_recommendations.py] (module [Engine]),
    - [src/farmer_tasks/task_manager.py] (module [Tasks]),
    - [src/farmer_tasks/alert_system.py] (module [Alerts]),
    and the properties of the written specification that concern them.

    Conventions of the embedding.
    - Python numbers are exact rationals ([Q]); results are compared with
      [==].  Rounding of binary floating point is not modelled.
    - A [datetime] is a number of seconds ([Z]); a [timedelta] is a
      difference of such numbers.
    - A Python [dict] with string keys is a [gmap string _]; [d.get(k, v)]
      is [Py.get d k v], and [d[k]] is a lookup whose failure is a
      [KeyError].
    - The SQLite tables are the lists of their rows, in insertion order.
      The connection and locking protocol of the storage engine is not
      modelled. *)

From Stdlib Require Import QArith Qminmax Qround Lqa ZArith Ascii String List.
From stdpp Require Import gmap strings list pretty.

(** ** Python built-ins used by the sources *)

Module Py.
Local Open Scope Q_scope.

Definition Qlt_bool (x y : Q) : bool := negb (Qle_bool y x).

(** [max(a, b)]: the first argument unless the second is greater. *)
Definition max_ (a b : Q) : Q := if Qlt_bool a b then b else a.

(** [min(a, b)]: the first argument unless the second is smaller. *)
Definition min_ (a b : Q) : Q := if Qlt_bool b a then b else a.

(** [sub in s] on strings. *)
Definition contains (sub s : string) : bool :=
  match String.index 0 sub s with Some _ => true | None => false end.

(** [d.get(k, v)]. *)
Definition get {V} (d : gmap string V) (k : string) (v : V) : V :=
  default v (d !! k).

(** [sum(xs)], accumulating from the left as the interpreter does. *)
Definition sum (xs : list Q) : Q := fold_left Qplus xs 0.

(** [f"{x:.1f}"] on an exact rational: one decimal, ties to even. *)
Definition round_half_even (x : Q) : Z :=
  let f := Qfloor x in
  let r := x - inject_Z f in
  if Qlt_bool r 0.5 then f
  else if Qlt_bool 0.5 r then (f + 1)%Z
  else if Z.even f then f else (f + 1)%Z.

Definition format_1f (x : Q) : string :=
  let s := round_half_even (x * 10) in
  ((if (s <? 0)%Z then "-" else "") ++
   pretty (Z.abs s / 10)%Z ++ "." ++ pretty (Z.abs s mod 10)%Z)%string.

(** [str(x)] for a number held exactly: the digits of an integer, and the
    decimal expansion of a fraction, cut after sixteen places. *)
Fixpoint frac_digits (places : nat) (num den : Z) : string :=
  match places with
  | O => ""
  | S places' =>
      if (num =? 0)%Z then ""
      else pretty (num * 10 / den)%Z +:+ frac_digits places' (num * 10 mod den)%Z den
  end.

Definition str_num (x : Q) : string :=
  let y := Qred x in
  if (Qden y =? 1)%positive then pretty (Qnum y)
  else
    let n := Z.abs (Qnum y) in
    let d := Zpos (Qden y) in
    (if (Qnum y <? 0)%Z then "-" else "") +:+
    pretty (n / d)%Z +:+ "." +:+ frac_digits 16 (n mod d)%Z d.

(** [sorted(xs, key=...)] and SQL [ORDER BY]: a stable insertion sort,
    [le a b] telling that the key of [a] is at most the key of [b]. *)
Fixpoint insert_by {A} (le : A -> A -> bool) (x : A) (l : list A) : list A :=
  match l with
  | [] => [x]
  | y :: l' => if le x y then x :: l else y :: insert_by le x l'
  end.

Definition sort_by {A} (le : A -> A -> bool) (l : list A) : list A :=
  foldr (insert_by le) [] l.

(** [s.lower()] on ASCII letters. *)
Definition lower_ascii (c : ascii) : ascii :=
  let n := nat_of_ascii c in
  if (65 <=? n)%nat && (n <=? 90)%nat then ascii_of_nat (n + 32) else c.

Fixpoint lower (s : string) : string :=
  match s with
  | EmptyString => EmptyString
  | String c s' => String (lower_ascii c) (lower s')
  end.

End Py.

(** ** smart_recommendations.py *)

Module Engine.
Local Open Scope Q_scope.

Inductive GrowthStage :=
  | PLANTING | EMERGENCE | VEGETATIVE_GROWTH
  | TUBER_INITIATION | TUBER_BULKING | MATURATION.

Definition GrowthStage_value (g : GrowthStage) : string :=
  match g with
  | PLANTING => "Planting"
  | EMERGENCE => "Emergence"
  | VEGETATIVE_GROWTH => "Vegetative_Growth"
  | TUBER_INITIATION => "Tuber_Initiation"
  | TUBER_BULKING => "Tuber_Bulking"
  | MATURATION => "Maturation"
  end.

(** [GrowthStage(s)]; [None] is the [ValueError] of an unknown value. *)
Definition GrowthStage_of_value (s : string) : option GrowthStage :=
  find (fun g => String.eqb (GrowthStage_value g) s)
    [PLANTING; EMERGENCE; VEGETATIVE_GROWTH;
     TUBER_INITIATION; TUBER_BULKING; MATURATION].

Inductive RecommendationType :=
  | IRRIGATION | FERTILIZATION | PEST_MANAGEMENT | HARVESTING.

Record RecommendationAction := {
  action_type : RecommendationType;
  priority : string;
  description : string;
  timing : string;
  zone_ids : list Q;
  application_rate : option Q;
  application_unit : option string;
  estimated_cost : option Q;
  expected_benefit : option string
}.

Record ZoneRecommendation := {
  zone_id : Q;
  area_ha : Q;
  growth_stage : string;
  health_status : string;
  nutrient_status : gmap string string;
  stress_indicators : gmap string Q;
  actions : list RecommendationAction;
  estimated_yield_impact : Q;
  total_cost : Q
}.

(** *** CropManagementExpert: the static reference tables *)

Record StageRequirement := {
  water_requirement_mm : Q;
  critical_nutrients : list string;
  irrigation_frequency : string;
  fertilizer_focus : string
}.

Definition growth_stage_requirements (g : GrowthStage) : StageRequirement :=
  match g with
  | PLANTING => {| water_requirement_mm := 20;
                   critical_nutrients := ["phosphorus"];
                   irrigation_frequency := "daily";
                   fertilizer_focus := "starter" |}
  | EMERGENCE => {| water_requirement_mm := 25;
                    critical_nutrients := ["nitrogen"; "phosphorus"];
                    irrigation_frequency := "every_2_days";
                    fertilizer_focus := "balanced" |}
  | VEGETATIVE_GROWTH => {| water_requirement_mm := 35;
                            critical_nutrients := ["nitrogen"];
                            irrigation_frequency := "every_2_days";
                            fertilizer_focus := "nitrogen" |}
  | TUBER_INITIATION => {| water_requirement_mm := 45;
                           critical_nutrients := ["potassium"; "calcium"];
                           irrigation_frequency := "daily";
                           fertilizer_focus := "potassium" |}
  | TUBER_BULKING => {| water_requirement_mm := 50;
                        critical_nutrients := ["potassium"; "magnesium"];
                        irrigation_frequency := "daily";
                        fertilizer_focus := "potassium" |}
  | MATURATION => {| water_requirement_mm := 15;
                     critical_nutrients := [];
                     irrigation_frequency := "reduce";
                     fertilizer_focus := "none" |}
  end.

Record Thresholds := {
  severe_deficiency : Q;
  deficiency : Q;
  sufficient : Q;
  excess : Q
}.

Definition nutrient_thresholds : gmap string Thresholds :=
  list_to_map
    [("nitrogen", {| severe_deficiency := 25; deficiency := 35;
                     sufficient := 45; excess := 75 |});
     ("phosphorus", {| severe_deficiency := 12; deficiency := 18;
                       sufficient := 25; excess := 40 |});
     ("potassium", {| severe_deficiency := 120; deficiency := 160;
                      sufficient := 200; excess := 280 |});
     ("magnesium", {| severe_deficiency := 40; deficiency := 60;
                      sufficient := 80; excess := 140 |});
     ("calcium", {| severe_deficiency := 800; deficiency := 1200;
                    sufficient := 1500; excess := 2200 |})].

(** *** RecommendationEngine *)

(** The [if]/[elif] chain in the body of the loop of
    [_assess_nutrient_status]. *)
Definition status_of_level (level : Q) (thresholds : Thresholds) : string :=
  if Py.Qlt_bool level (severe_deficiency thresholds) then "severe_deficiency"
  else if Py.Qlt_bool level (deficiency thresholds) then "deficiency"
  else if Py.Qlt_bool level (sufficient thresholds) then "marginal"
  else if Py.Qlt_bool (excess thresholds) level then "excess"
  else "sufficient".

(** [None] is the [KeyError] of [nutrient_thresholds[nutrient]]. *)
Definition _assess_nutrient_status (zone_data : gmap string Q)
  : option (gmap string string) :=
  foldl (fun acc nutrient =>
           nutrient_status ← acc;
           let level := Py.get zone_data (nutrient +:+ "_level") 50 in
           thresholds ← nutrient_thresholds !! nutrient;
           Some (<[nutrient := status_of_level level thresholds]> nutrient_status))
        (Some ∅) ["nitrogen"; "phosphorus"; "potassium"]%string.

Definition _calculate_stress_indicators
    (zone_data weather_forecast : gmap string Q) : option (gmap string Q) :=
  let stress_indicators : gmap string Q := ∅ in
  (* Water stress *)
  let soil_moisture := Py.get zone_data "soil_moisture" 25 in
  let precipitation := Py.get weather_forecast "precipitation_7day" 10 in
  let water_stress :=
    Py.max_ 0 ((25 - soil_moisture) / 25) * Py.max_ 0 ((20 - precipitation) / 20) in
  let stress_indicators :=
    <["water_stress" := Py.min_ water_stress 1]> stress_indicators in
  (* Temperature stress *)
  let max_temp := Py.get weather_forecast "max_temperature_7day" 25 in
  let temp_stress :=
    if Py.Qlt_bool 30 max_temp then Py.max_ 0 ((max_temp - 30) / 10) else 0 in
  let stress_indicators :=
    <["temperature_stress" := Py.min_ temp_stress 1]> stress_indicators in
  (* Nutrient stress *)
  let nitrogen_level := Py.get zone_data "nitrogen_level" 50 in
  nitrogen ← nutrient_thresholds !! "nitrogen";
  let nitrogen_threshold := sufficient nitrogen in
  let nutrient_stress :=
    Py.max_ 0 ((nitrogen_threshold - nitrogen_level) / nitrogen_threshold) in
  Some (<["nutrient_stress" := Py.min_ nutrient_stress 1]> stress_indicators).

(** [None] is the [KeyError] of [zone_data['zone_id']]. *)
Definition _generate_irrigation_recommendations
    (zone_data : gmap string Q) (growth_stage : string)
    (weather_forecast stress_indicators : gmap string Q)
  : option (list RecommendationAction) :=
  let actions := [] in
  let stage_enum :=
    match GrowthStage_of_value growth_stage with
    | Some stage_enum => stage_enum
    | None => VEGETATIVE_GROWTH
    end in
  let stage_req := growth_stage_requirements stage_enum in
  let base_requirement := water_requirement_mm stage_req in
  let stress_multiplier := 1 + Py.get stress_indicators "water_stress" 0 * 0.3 in
  let precipitation := Py.get weather_forecast "precipitation_7day" 0 in
  let net_requirement :=
    Py.max_ 0 (base_requirement * stress_multiplier - precipitation) in
  if Py.Qlt_bool 5 net_requirement then
    let priority :=
      if Py.Qlt_bool 0.7 (Py.get stress_indicators "water_stress" 0)
      then "high" else "medium" in
    let timing :=
      if String.eqb priority "high" then "immediate" else "within_week" in
    let cost_per_ha := net_requirement * 830 in
    zone_id ← zone_data !! "zone_id";
    let action := {|
      action_type := IRRIGATION;
      priority := priority;
      description :=
        "Apply " +:+ Py.format_1f net_requirement +:+
        "mm irrigation based on growth stage requirements and stress indicators";
      timing := timing;
      zone_ids := [zone_id];
      application_rate := Some net_requirement;
      application_unit := Some "mm";
      estimated_cost := Some (cost_per_ha * Py.get zone_data "area_ha" 1);
      expected_benefit :=
        Some ("Reduce water stress, maintain optimal soil moisture for " +:+
              growth_stage +:+ " stage")
    |} in
    Some (actions ++ [action])
  else Some actions.

(** One iteration of the loop of [_estimate_yield_impact]. *)
Definition yield_impact_step (total_impact : Q) (action : RecommendationAction) : Q :=
  match action_type action with
  | IRRIGATION =>
      if String.eqb (priority action) "high"
      then total_impact + 0.12 else total_impact + 0.08
  | FERTILIZATION =>
      if Py.contains "severe_deficiency" (description action)
      then total_impact + 0.20
      else if Py.contains "deficiency" (description action)
      then total_impact + 0.10
      else total_impact + 0.05
  | PEST_MANAGEMENT =>
      if String.eqb (priority action) "high"
      then total_impact + 0.15 else total_impact + 0.05
  | HARVESTING => total_impact
  end.

Definition _estimate_yield_impact
    (actions : list RecommendationAction) (zone_data : gmap string Q) : Q :=
  let total_impact := fold_left yield_impact_step actions 0 in
  Py.min_ total_impact 0.40.

(** [np.mean(xs)]; [None] is the [nan] of an empty list. *)
Definition np_mean (xs : list Q) : option Q :=
  match xs with
  | [] => None
  | _ => Some (Py.sum xs / inject_Z (Z.of_nat (length xs)))
  end.

(** [None] is [nan]. *)
Definition _estimate_roi
    (zone_recommendations : list ZoneRecommendation) (total_cost : Q) : option Q :=
  if Qeq_bool total_cost 0 then Some 0
  else
    let total_area := Py.sum (map area_ha zone_recommendations) in
    avg_yield_impact ← np_mean (map estimated_yield_impact zone_recommendations);
    let base_yield_value := total_area * 25 * 300 in
    let yield_improvement_value := base_yield_value * avg_yield_impact in
    let roi := (yield_improvement_value - total_cost) / total_cost * 100 in
    Some (Py.max_ roi 0).

(** *** The other generators and the field level *)

Definition _assess_zone_health (zone_data : gmap string Q) : string :=
  let ndvi := Py.get zone_data "NDVI_mean" 0.5 in
  let ndre := Py.get zone_data "NDRE_mean" 0.3 in
  if Py.Qlt_bool 0.7 ndvi && Py.Qlt_bool 0.4 ndre then "excellent"
  else if Py.Qlt_bool 0.5 ndvi && Py.Qlt_bool 0.3 ndre then "good"
  else if Py.Qlt_bool 0.3 ndvi && Py.Qlt_bool 0.2 ndre then "fair"
  else "poor".

Definition fertilizer_prices : gmap string Q :=
  list_to_map
    [("nitrogen", 99.6); ("phosphorus", 124.5); ("potassium", 66.4);
     ("magnesium", 166.0); ("calcium", 24.9); ("sulfur", 49.8)].

Definition conversion_factors : gmap string Q :=
  list_to_map
    [("nitrogen", 2.5); ("phosphorus", 4.0); ("potassium", 1.8);
     ("magnesium", 3.0); ("calcium", 1.0)].

(** The items of the dictionary built by [_assess_nutrient_status], in the
    order of their insertion, which is the order a [for] loop visits them
    in. *)
Definition nutrient_status_items (nutrient_status : gmap string string)
  : list (string * string) :=
  omap (fun nutrient => pair nutrient <$> nutrient_status !! nutrient)
       ["nitrogen"; "phosphorus"; "potassium"]%string.

(** One iteration of the loop of [_generate_fertilizer_recommendations].
    [None] is a [KeyError]: of [nutrient_thresholds[nutrient]], of
    [fertilizer_prices[nutrient]] or of [zone_data['zone_id']]. *)
Definition fertilizer_step
    (zone_data : gmap string Q) (growth_stage : string)
    (critical_nutrients : list string) (actions : list RecommendationAction)
    (nutrient status : string) : option (list RecommendationAction) :=
  let current_level := Py.get zone_data (nutrient +:+ "_level") 50 in
  if bool_decide (status ∈ ["severe_deficiency"; "deficiency"]%string) then
    thresholds ← nutrient_thresholds !! nutrient;
    let target_level := sufficient thresholds in
    let deficit := target_level - current_level in
    let application_rate := deficit * Py.get conversion_factors nutrient 2.0 in
    let urgent :=
      bool_decide (status = "severe_deficiency"%string) ||
      bool_decide (nutrient ∈ critical_nutrients) in
    let priority := if urgent then "high" else "medium" in
    let timing := if urgent then "immediate" else "within_week" in
    price_per_kg ← fertilizer_prices !! nutrient;
    let total_cost :=
      application_rate * Py.get zone_data "area_ha" 1 * price_per_kg in
    zone_id ← zone_data !! "zone_id";
    let action := {|
      action_type := FERTILIZATION;
      priority := priority;
      description :=
        "Apply " +:+ nutrient +:+ " fertilizer to address " +:+ status +:+
        " (current: " +:+ Py.format_1f current_level +:+
        " ppm, target: " +:+ Py.str_num target_level +:+ " ppm)";
      timing := timing;
      zone_ids := [zone_id];
      application_rate := Some application_rate;
      application_unit := Some "kg/ha";
      estimated_cost := Some total_cost;
      expected_benefit :=
        Some ("Increase " +:+ nutrient +:+ " levels to support " +:+
              growth_stage +:+ " requirements")
    |} in
    Some (actions ++ [action])
  else Some actions.

(** [nutrient_status] is given as its items, in the order of the loop. *)
Definition _generate_fertilizer_recommendations
    (zone_data : gmap string Q) (growth_stage : string)
    (nutrient_status : list (string * string))
  : option (list RecommendationAction) :=
  let actions := [] in
  let stage_enum :=
    match GrowthStage_of_value growth_stage with
    | Some stage_enum => stage_enum
    | None => VEGETATIVE_GROWTH
    end in
  let stage_req := growth_stage_requirements stage_enum in
  let critical_nutrients := critical_nutrients stage_req in
  foldl (fun acc item =>
           actions ← acc;
           fertilizer_step zone_data growth_stage critical_nutrients actions
             (fst item) (snd item))
        (Some actions) nutrient_status.

(** [None] is the [KeyError] of [zone_data['zone_id']]. *)
Definition _generate_pest_management_recommendations
    (zone_data : gmap string Q) (growth_stage : string)
    (weather_forecast : gmap string Q) : option (list RecommendationAction) :=
  let actions := [] in
  let humidity := Py.get weather_forecast "avg_humidity_7day" 65 in
  let temperature := Py.get weather_forecast "avg_temperature_7day" 20 in
  (* Late blight risk assessment *)
  actions ←
    (if Py.Qlt_bool 80 humidity && Py.Qlt_bool 15 temperature &&
        Py.Qlt_bool temperature 25 then
       zone_id ← zone_data !! "zone_id";
       let action := {|
         action_type := PEST_MANAGEMENT;
         priority := "high";
         description :=
           "High late blight risk detected. Apply preventive fungicide treatment";
         timing := "immediate";
         zone_ids := [zone_id];
         application_rate := Some 2.5;
         application_unit := Some "L/ha";
         estimated_cost := Some (45.0 * Py.get zone_data "area_ha" 1);
         expected_benefit :=
           Some "Prevent late blight infection and potential yield loss"
       |} in
       Some (actions ++ [action])
     else Some actions);
  (* Colorado potato beetle monitoring *)
  if bool_decide (growth_stage ∈ ["Emergence"; "Vegetative_Growth"]%string) &&
     Py.Qlt_bool 15 temperature then
    zone_id ← zone_data !! "zone_id";
    let action := {|
      action_type := PEST_MANAGEMENT;
      priority := "medium";
      description :=
        "Monitor for Colorado potato beetle and apply treatment if threshold exceeded";
      timing := "within_week";
      zone_ids := [zone_id];
      application_rate := None;
      application_unit := None;
      estimated_cost := Some (25.0 * Py.get zone_data "area_ha" 1);
      expected_benefit :=
        Some "Early detection and control of Colorado potato beetle"
    |} in
    Some (actions ++ [action])
  else Some actions.

(** A row of the [zone_analysis] frame: its numeric columns, and its
    [growth_stage] column when the frame has one. *)
Record ZoneData := {
  columns : gmap string Q;
  growth_stage_column : option string
}.

(** [None] is a [KeyError]. *)
Definition _generate_zone_recommendations
    (zone_data : ZoneData) (weather_forecast : gmap string Q)
  : option ZoneRecommendation :=
  zone_id ← columns zone_data !! "zone_id";
  let area_ha := Py.get (columns zone_data) "area_ha" 1 in
  let growth_stage := default "Vegetative_Growth" (growth_stage_column zone_data) in
  let health_status := _assess_zone_health (columns zone_data) in
  nutrient_status ← _assess_nutrient_status (columns zone_data);
  stress_indicators ←
    _calculate_stress_indicators (columns zone_data) weather_forecast;
  let actions := [] in
  irrigation_actions ←
    _generate_irrigation_recommendations
      (columns zone_data) growth_stage weather_forecast stress_indicators;
  let actions := actions ++ irrigation_actions in
  fertilizer_actions ←
    _generate_fertilizer_recommendations
      (columns zone_data) growth_stage (nutrient_status_items nutrient_status);
  let actions := actions ++ fertilizer_actions in
  pest_actions ←
    _generate_pest_management_recommendations
      (columns zone_data) growth_stage weather_forecast;
  let actions := actions ++ pest_actions in
  let total_cost :=
    Py.sum (map (fun action => default 0 (estimated_cost action)) actions) in
  let yield_impact := _estimate_yield_impact actions (columns zone_data) in
  Some {|
    zone_id := zone_id;
    area_ha := area_ha;
    growth_stage := growth_stage;
    health_status := health_status;
    nutrient_status := nutrient_status;
    stress_indicators := stress_indicators;
    actions := actions;
    estimated_yield_impact := yield_impact;
    total_cost := total_cost
  |}.

(** The dictionary returned by [_calculate_field_summary], one field per
    key; [None] is the [nan] of the mean of no zone. *)
Record FieldSummary := {
  total_area_ha : Q;
  total_zones : nat;
  health_distribution : gmap string nat;
  high_priority_actions : nat;
  average_yield_impact : option Q;
  zones_needing_attention : nat
}.

Definition _calculate_field_summary
    (zone_recommendations : list ZoneRecommendation) : FieldSummary :=
  let total_area := Py.sum (map area_ha zone_recommendations) in
  let total_zones := length zone_recommendations in
  let health_counts :=
    foldl (fun (health_counts : gmap string nat) zone =>
             let health := health_status zone in
             <[health := (Py.get health_counts health 0 + 1)%nat]> health_counts)
          ∅ zone_recommendations in
  let high_priority_actions :=
    foldl Nat.add 0%nat
      (map (fun zone =>
              length (filter (fun a => priority a = "high"%string) (actions zone)))
           zone_recommendations) in
  let avg_yield_impact :=
    np_mean (map estimated_yield_impact zone_recommendations) in
  {| total_area_ha := total_area;
     total_zones := total_zones;
     health_distribution := health_counts;
     high_priority_actions := high_priority_actions;
     average_yield_impact := avg_yield_impact;
     zones_needing_attention :=
       length (filter (fun z => health_status z ∈ ["poor"; "fair"]%string)
                      zone_recommendations) |}.

End Engine.
(** ** Statements, exceptions and loops

    A Python statement that reads and writes a state [S] and may raise is a
    function from the state to a result; the state reached when an
    exception is raised is kept. *)

Module Run.

Inductive exn := IntegrityError | KeyError | OperationalError.

Inductive result (S A : Type) :=
  | Ok (a : A) (s : S)
  | Raise (e : exn) (s : S).
Arguments Ok {S A} a s.
Arguments Raise {S A} e s.

Definition M (S A : Type) : Type := S -> result S A.

#[export] Instance M_ret {S} : MRet (M S) := fun A a s => Ok a s.

#[export] Instance M_bind {S} : MBind (M S) := fun A B f m s =>
  match m s with
  | Ok a s' => f a s'
  | Raise e s' => Raise e s'
  end.

(** The state in which a call is left, by a return or by an exception. *)
Definition final {S A} (r : result S A) : S :=
  match r with
  | Ok _ s => s
  | Raise _ s => s
  end.

Definition raise {S A} (e : exn) : M S A := fun s => Raise e s.
Definition gets {S A} (f : S -> A) : M S A := fun s => Ok (f s) s.
Definition modify {S} (f : S -> S) : M S unit := fun s => Ok tt (f s).

(** A statement on a component [W] of the state [S] (a call of a method of
    an object held in a field). *)
Definition lift {S W A} (get : S -> W) (set : W -> S -> S) (m : M W A) : M S A :=
  fun s =>
    match m (get s) with
    | Ok a w => Ok a (set w s)
    | Raise e w => Raise e (set w s)
    end.

(** [b and m()]: the call is made only when [b] holds. *)
Definition and_then {S} (b : bool) (m : M S bool) : M S bool :=
  if b then m else mret false.

(** [for x in xs: acc = body(acc, x)], for a loop that updates local
    variables. *)
Fixpoint for_fold {S A B} (xs : list A) (acc : B) (body : B -> A -> M S B)
  : M S B :=
  match xs with
  | [] => mret acc
  | x :: xs' => body acc x ≫= λ acc', for_fold xs' acc' body
  end.

End Run.

(** ** task_manager.py *)

Module Tasks.
Import Run.

Inductive TaskPriority := LOW | MEDIUM | HIGH | URGENT.

Inductive TaskStatus := PENDING | IN_PROGRESS | COMPLETED | OVERDUE | CANCELLED.

Inductive TaskCategory :=
  | IRRIGATION | FERTILIZATION | PEST_CONTROL | HARVESTING | PLANTING
  | MONITORING | EQUIPMENT | WEATHER_ALERT | MARKET | COMPLIANCE.

#[export] Instance TaskPriority_eq_dec : EqDecision TaskPriority.
Proof. solve_decision. Defined.

#[export] Instance TaskStatus_eq_dec : EqDecision TaskStatus.
Proof. solve_decision. Defined.

#[export] Instance TaskCategory_eq_dec : EqDecision TaskCategory.
Proof. solve_decision. Defined.

Definition TaskPriority_value (p : TaskPriority) : string :=
  match p with
  | LOW => "low" | MEDIUM => "medium" | HIGH => "high" | URGENT => "urgent"
  end.

Definition TaskStatus_value (s : TaskStatus) : string :=
  match s with
  | PENDING => "pending" | IN_PROGRESS => "in_progress"
  | COMPLETED => "completed" | OVERDUE => "overdue" | CANCELLED => "cancelled"
  end.

Definition TaskCategory_value (c : TaskCategory) : string :=
  match c with
  | IRRIGATION => "irrigation" | FERTILIZATION => "fertilization"
  | PEST_CONTROL => "pest_control" | HARVESTING => "harvesting"
  | PLANTING => "planting" | MONITORING => "monitoring"
  | EQUIPMENT => "equipment" | WEATHER_ALERT => "weather_alert"
  | MARKET => "market" | COMPLIANCE => "compliance"
  end.

(** [timedelta(hours=h)] and [timedelta(days=d)], in seconds. *)
Definition hours (h : Z) : Z := (h * 3600)%Z.
Definition days (d : Z) : Z := (d * 86400)%Z.

(** The list-valued fields hold [[]] where the dataclass is given [None]
    ([__post_init__]). *)
Record FarmerTask := {
  id : string;
  title : string;
  description : string;
  category : TaskCategory;
  priority : TaskPriority;
  status : TaskStatus;
  field_id : string;
  created_at : Z;
  due_date : Z;
  estimated_duration : Z;
  cost_estimate : Q;
  auto_generated : bool;
  ai_confidence : Q;
  completion_notes : option string;
  completed_at : option Z;
  reminder_sent : bool;
  zone_id : option string;
  area_hectares : option Q;
  coordinates : option (gmap string Q);
  equipment_needed : list string;
  materials_needed : list string;
  labor_hours : option Q;
  weather_dependent : bool;
  optimal_conditions : option (gmap string Q);
  risk_factors : list string;
  depends_on : list string;
  blocks : list string
}.

(** The columns an [UPDATE farmer_tasks SET ...] of this module can write. *)
Definition set_columns (t : FarmerTask) (status' : TaskStatus)
    (completed_at' : option Z) (completion_notes' : option string) : FarmerTask :=
  {| id := id t; title := title t; description := description t;
     category := category t; priority := priority t; status := status';
     field_id := field_id t; created_at := created_at t;
     due_date := due_date t; estimated_duration := estimated_duration t;
     cost_estimate := cost_estimate t; auto_generated := auto_generated t;
     ai_confidence := ai_confidence t; completion_notes := completion_notes';
     completed_at := completed_at'; reminder_sent := reminder_sent t;
     zone_id := zone_id t; area_hectares := area_hectares t;
     coordinates := coordinates t; equipment_needed := equipment_needed t;
     materials_needed := materials_needed t; labor_hours := labor_hours t;
     weather_dependent := weather_dependent t;
     optimal_conditions := optimal_conditions t;
     risk_factors := risk_factors t; depends_on := depends_on t;
     blocks := blocks t |}.

(** [task.status = s] on a fetched object. *)
Definition set_status (s : TaskStatus) (t : FarmerTask) : FarmerTask :=
  set_columns t s (completed_at t) (completion_notes t).

(** *** The database file and the interpreter state *)

(** The [details] column of [task_history], before [json.dumps]. *)
Inductive HistoryDetails :=
  | Created (auto_generated : bool)
  | StatusChanged (new_status : string) (notes : option string).

Record HistoryRow := {
  h_id : string;
  h_task_id : string;
  h_action : string;
  h_timestamp : Z;
  h_details : HistoryDetails
}.

(** A row of [sent_alerts] (the table is created by alert_system.py in the
    same database file).  Its [id] is the text [alert_%Y%m%d_%H%M%S] of the
    time of logging, held here as that second. *)
Record SentAlert := {
  a_id : Z;
  a_task_id : string;
  a_alert_type : string;
  a_recipient : string;
  a_sent_at : Z;
  a_status : string
}.

(** [clock] is what [datetime.now()] returns: it is not advanced by a call,
    time passes between calls only.  [uuid_draws] counts the calls of
    [uuid.uuid4()], whose results are pairwise distinct. *)
Record World := {
  farmer_tasks : list FarmerTask;
  task_history : list HistoryRow;
  sent_alerts : list SentAlert;
  clock : Z;
  uuid_draws : nat
}.

Abbreviation M := (Run.M World).

Definition datetime_now : M Z := gets clock.

(** The text of the [n]-th identifier drawn. *)
Definition uuid_text (n : nat) : string := "uuid-" +:+ pretty n.

Definition uuid4 : M string := fun w =>
  Ok (uuid_text (uuid_draws w))
     {| farmer_tasks := farmer_tasks w; task_history := task_history w;
        sent_alerts := sent_alerts w; clock := clock w;
        uuid_draws := S (uuid_draws w) |}.

Definition set_farmer_tasks (rows : list FarmerTask) (w : World) : World :=
  {| farmer_tasks := rows; task_history := task_history w;
     sent_alerts := sent_alerts w; clock := clock w;
     uuid_draws := uuid_draws w |}.

Definition set_task_history (rows : list HistoryRow) (w : World) : World :=
  {| farmer_tasks := farmer_tasks w; task_history := rows;
     sent_alerts := sent_alerts w; clock := clock w;
     uuid_draws := uuid_draws w |}.

Definition set_sent_alerts (rows : list SentAlert) (w : World) : World :=
  {| farmer_tasks := farmer_tasks w; task_history := task_history w;
     sent_alerts := rows; clock := clock w;
     uuid_draws := uuid_draws w |}.

(** Time passing between two calls. *)
Definition set_clock (now : Z) (w : World) : World :=
  {| farmer_tasks := farmer_tasks w; task_history := task_history w;
     sent_alerts := sent_alerts w; clock := now;
     uuid_draws := uuid_draws w |}.

(** *** FarmerTaskManager *)

(** The write lock of the database file.  A connection takes it at its
    first INSERT or UPDATE and holds it until it commits or is closed; while
    it is held, a writing statement of another connection waits for the
    timeout and then raises [OperationalError] (database is locked).  Every
    method opens a connection of its own, which is closed when the method is
    left, so that the lock is free when a method is called from outside;
    [locked] tells a method that the connection of its caller holds the lock
    during the call. *)
Definition execute_write {A} (locked : bool) (statement : M A) : M A :=
  if locked then raise OperationalError else statement.

(** The arguments of the INSERT are evaluated before it is executed. *)
Definition _log_task_action (locked : bool) (task_id action : string)
    (details : HistoryDetails) : M unit :=
  h ← uuid4;
  now ← datetime_now;
  execute_write locked (
    rows ← gets task_history;
    if bool_decide (h ∈ map h_id rows) then raise IntegrityError
    else
      modify (set_task_history (rows ++ [{|
        h_id := h; h_task_id := task_id; h_action := action;
        h_timestamp := now; h_details := details |}]))).

(** [cursor.execute] checks the primary key and takes the write lock; the
    row would join the table at [conn.commit()], which comes after the call
    of [_log_task_action], made while the INSERT is not committed.  The
    connection is closed, and the INSERT undone, when the method is left by
    the exception. *)
Definition create_task (task : FarmerTask) : M string :=
  rows ← gets farmer_tasks;
  if bool_decide (id task ∈ map id rows) then raise IntegrityError
  else
    _log_task_action true (id task) "created"
      (Created (auto_generated task)) ≫= λ _,
    modify (λ w, set_farmer_tasks (farmer_tasks w ++ [task]) w) ≫= λ _,
    mret (id task).

(** [if filter: query += " AND column IN (...)"]: an absent or empty filter
    selects every row. *)
Definition in_filter {A} `{EqDecision A} (filter : option (list A)) (x : A) : Prop :=
  match filter with
  | None | Some [] => True
  | Some values => x ∈ values
  end.

#[export] Instance in_filter_dec {A} `{EqDecision A} (f : option (list A)) (x : A) :
  Decision (in_filter f x).
Proof. destruct f as [[|]|]; simpl; apply _. Defined.

(** [ORDER BY due_date ASC, priority DESC]: [due_date] holds ISO text, ordered
    as the times are, and [priority] is a TEXT column.  Rows with equal keys
    keep the order of the table. *)
Definition order_by_le (a b : FarmerTask) : bool :=
  (due_date a <? due_date b)%Z ||
  ((due_date a =? due_date b)%Z &&
   String.leb (TaskPriority_value (priority b)) (TaskPriority_value (priority a))).

Definition get_tasks_for_farmer (field_ids : list string)
    (status_filter : option (list TaskStatus))
    (category_filter : option (list TaskCategory))
    (priority_filter : option (list TaskPriority)) : M (list FarmerTask) :=
  rows ← gets farmer_tasks;
  let rows := filter (λ t, field_id t ∈ field_ids) rows in
  let rows := filter (λ t, in_filter status_filter (status t)) rows in
  let rows := filter (λ t, in_filter category_filter (category t)) rows in
  let rows := filter (λ t, in_filter priority_filter (priority t)) rows in
  mret (Py.sort_by order_by_le rows).

(** [if completion_notes:] holds for a non-empty string. *)
Definition truthy (s : option string) : bool :=
  match s with
  | None | Some EmptyString => false
  | Some _ => true
  end.

(** [cursor.execute] of the UPDATE takes the write lock, also when no row
    has the id; the UPDATE would take effect at [conn.commit()], which comes
    after the call of [_log_task_action], made while the UPDATE is not
    committed; [success] is [cursor.rowcount > 0]. *)
Definition update_task_status (task_id : string) (new_status : TaskStatus)
    (completion_notes : option string) : M bool :=
  now ← datetime_now;
  rows ← gets farmer_tasks;
  let update (t : FarmerTask) : FarmerTask :=
    if decide (id t = task_id) then
      set_columns t new_status
        (if decide (new_status = COMPLETED) then Some now else completed_at t)
        (if truthy completion_notes then completion_notes
         else Tasks.completion_notes t)
    else t in
  _log_task_action true task_id "status_changed"
    (StatusChanged (TaskStatus_value new_status) completion_notes) ≫= λ _,
  let success := bool_decide (Exists (λ t, id t = task_id) rows) in
  modify (set_farmer_tasks (map update rows)) ≫= λ _,
  mret success.

Definition get_overdue_tasks (field_ids : list string) : M (list FarmerTask) :=
  tasks ← get_tasks_for_farmer field_ids (Some [PENDING; IN_PROGRESS]) None None;
  current_time ← datetime_now;
  let overdue_tasks := [] in
  for_fold tasks overdue_tasks (λ overdue_tasks task,
    if (due_date task <? current_time)%Z then
      update_task_status (id task) OVERDUE None ≫= λ _,
      let task := set_status OVERDUE task in
      mret (overdue_tasks ++ [task])
    else mret overdue_tasks).

(** [key=lambda t: (t.due_date, t.priority.value)]. *)
Definition upcoming_key_le (a b : FarmerTask) : bool :=
  (due_date a <? due_date b)%Z ||
  ((due_date a =? due_date b)%Z &&
   String.leb (TaskPriority_value (priority a)) (TaskPriority_value (priority b))).

Definition get_upcoming_tasks (field_ids : list string) (days_ahead : Z)
  : M (list FarmerTask) :=
  tasks ← get_tasks_for_farmer field_ids (Some [PENDING; IN_PROGRESS]) None None;
  now ← datetime_now;
  let cutoff_date := (now + days days_ahead)%Z in
  let upcoming_tasks := filter (λ task, (due_date task <= cutoff_date)%Z) tasks in
  mret (Py.sort_by upcoming_key_le upcoming_tasks).

(** The dictionaries read by [generate_ai_tasks_from_recommendations]: the
    keys the code looks up ([type_] is the key 'type', and so on), each
    absent ([None]) or holding a value of the type the code uses it at. *)
Record ActionDict := {
  type_ : option string;
  priority_ : option string;
  description_ : option string;
  timing_ : option string;
  cost_ : option Q;
  rate_ : option string
}.

Record ZoneDict := {
  zone_id_ : option string;
  area_ha_ : option Q;
  actions_ : option (list ActionDict)
}.

Record RecommendationsDict := {
  zones_ : option (list ZoneDict)
}.

Definition _extract_equipment_from_action (action : ActionDict) : list string :=
  let action_type := default "" (type_ action) in
  let equipment_map : gmap string (list string) :=
    list_to_map
      [("irrigation", ["irrigation_system"; "water_pump"]);
       ("fertilization", ["spreader"; "tractor"]);
       ("pest_control", ["sprayer"; "protective_equipment"])] in
  Py.get equipment_map action_type [].

Definition _extract_materials_from_action (action : ActionDict) : list string :=
  let action_type := default "" (type_ action) in
  let rate := default "" (rate_ action) in
  let materials := [] in
  let materials :=
    if Py.contains "fertilizer" action_type || Py.contains "nitrogen" (Py.lower rate)
    then materials ++ ["nitrogen_fertilizer"] else materials in
  let materials :=
    if Py.contains "pesticide" action_type || Py.contains "spray" (Py.lower rate)
    then materials ++ ["pesticide"] else materials in
  materials.

Definition category_mapping : gmap string TaskCategory :=
  list_to_map
    [("irrigation", IRRIGATION); ("fertilization", FERTILIZATION);
     ("pest_control", PEST_CONTROL); ("monitoring", MONITORING)].

Definition priority_mapping : gmap string TaskPriority :=
  list_to_map
    [("low", LOW); ("medium", MEDIUM); ("high", HIGH); ("urgent", URGENT)].

Definition timing_days : gmap string Z :=
  list_to_map [("immediate", 1%Z); ("within_week", 3%Z); ("within_month", 14%Z)].

(** The [FarmerTask(...)] call of [_create_task_from_action]; [created_at]
    and [now] are its two readings of [datetime.now()], the first for the
    field created_at and the second for the due date. *)
Definition task_from_action (field_id zone_id : string)
    (zone_data : ZoneDict) (action : ActionDict) (task_id : string)
    (created_at now : Z) : FarmerTask :=
  let days_ahead := Py.get timing_days (default "within_week" (timing_ action)) 3%Z in
  {|
    id := task_id;
    title := "🤖 " +:+ default "AI Recommendation" (description_ action);
    description :=
      "AI-generated task for Zone " +:+ zone_id +:+ ": " +:+
      default "" (description_ action);
    category :=
      Py.get category_mapping (default "monitoring" (type_ action)) MONITORING;
    priority :=
      Py.get priority_mapping (default "medium" (priority_ action)) MEDIUM;
    status := PENDING;
    field_id := field_id;
    zone_id := Some zone_id;
    area_hectares := Some (default 0%Q (area_ha_ zone_data));
    created_at := created_at;
    due_date := (now + days days_ahead)%Z;
    estimated_duration := 90;
    cost_estimate := default 0%Q (cost_ action);
    auto_generated := true;
    ai_confidence := 0.88%Q;
    equipment_needed := _extract_equipment_from_action action;
    materials_needed := _extract_materials_from_action action;
    completion_notes := None; completed_at := None; reminder_sent := false;
    coordinates := None; labor_hours := None; weather_dependent := false;
    optimal_conditions := None; risk_factors := []; depends_on := [];
    blocks := []
  |}.

Definition _create_task_from_action (field_id zone_id : string)
    (zone_data : ZoneDict) (action : ActionDict) : M FarmerTask :=
  task_id ← uuid4;
  created_at ← datetime_now;
  now ← datetime_now;
  mret (task_from_action field_id zone_id zone_data action task_id created_at now).

Definition generate_ai_tasks_from_recommendations (field_id : string)
    (recommendations : RecommendationsDict) : M (list string) :=
  let created_task_ids := [] in
  match zones_ recommendations with
  | None => mret created_task_ids
  | Some zones =>
      for_fold zones created_task_ids (λ created_task_ids zone,
        match zone_id_ zone with
        | None => raise KeyError
        | Some zone_id =>
            for_fold (default [] (actions_ zone)) created_task_ids
              (λ created_task_ids action,
                 task ← _create_task_from_action field_id zone_id zone action;
                 task_id ← create_task task;
                 mret (created_task_ids ++ [task_id]))
        end)
  end.

(** [d[k]]. *)
Definition getitem {V} (d : gmap string V) (k : string) : M V :=
  match d !! k with
  | Some v => mret v
  | None => raise KeyError
  end.

(** The three [FarmerTask(...)] calls of [generate_weather_alerts];
    [created_at] and [now] are the two readings of [datetime.now()]. *)
Definition high_wind_alert_task (field_id task_id : string) (wind_speed : Q)
    (created_at now : Z) : FarmerTask :=
  {| id := task_id;
     title := "🌪️ High Wind Alert";
     description :=
       "High winds expected (" +:+ Py.str_num wind_speed +:+
       " km/h). Secure equipment and check irrigation systems.";
     category := WEATHER_ALERT;
     priority := HIGH;
     status := PENDING;
     field_id := field_id;
     created_at := created_at;
     due_date := (now + hours 6)%Z;
     estimated_duration := 30;
     cost_estimate := 0%Q;
     auto_generated := true;
     ai_confidence := 0.95%Q;
     weather_dependent := true;
     risk_factors := ["equipment_damage"; "irrigation_disruption"];
     completion_notes := None; completed_at := None;
     reminder_sent := false; zone_id := None; area_hectares := None;
     coordinates := None; equipment_needed := []; materials_needed := [];
     labor_hours := None; optimal_conditions := None; depends_on := [];
     blocks := [] |}.

Definition frost_warning_task (field_id task_id : string) (min_temperature : Q)
    (created_at now : Z) : FarmerTask :=
  {| id := task_id;
     title := "🧊 Frost Warning";
     description :=
       "Frost risk with temperature dropping to " +:+
       Py.str_num min_temperature +:+ "°C. Protect vulnerable crops.";
     category := WEATHER_ALERT;
     priority := URGENT;
     status := PENDING;
     field_id := field_id;
     created_at := created_at;
     due_date := (now + hours 12)%Z;
     estimated_duration := 60;
     cost_estimate := 500%Q;
     auto_generated := true;
     ai_confidence := 0.98%Q;
     weather_dependent := true;
     equipment_needed := ["frost_protection_covers"; "irrigation_system"];
     risk_factors := ["crop_damage"; "yield_loss"];
     completion_notes := None; completed_at := None;
     reminder_sent := false; zone_id := None; area_hectares := None;
     coordinates := None; materials_needed := [];
     labor_hours := None; optimal_conditions := None; depends_on := [];
     blocks := [] |}.

Definition heavy_rain_alert_task (field_id task_id : string) (precipitation : Q)
    (created_at now : Z) : FarmerTask :=
  {| id := task_id;
     title := "🌧️ Heavy Rain Alert";
     description :=
       "Heavy rainfall expected (" +:+ Py.str_num precipitation +:+
       "mm). Check drainage and postpone field operations.";
     category := WEATHER_ALERT;
     priority := MEDIUM;
     status := PENDING;
     field_id := field_id;
     created_at := created_at;
     due_date := (now + hours 8)%Z;
     estimated_duration := 45;
     cost_estimate := 0%Q;
     auto_generated := true;
     ai_confidence := 0.90%Q;
     weather_dependent := true;
     risk_factors := ["waterlogging"; "soil_compaction"];
     completion_notes := None; completed_at := None;
     reminder_sent := false; zone_id := None; area_hectares := None;
     coordinates := None; equipment_needed := []; materials_needed := [];
     labor_hours := None; optimal_conditions := None; depends_on := [];
     blocks := [] |}.

Definition generate_weather_alerts (field_id : string)
    (weather_forecast : gmap string Q) : M (list string) :=
  let created_task_ids := [] in
  (* High wind alert *)
  created_task_ids ←
    (if Py.Qlt_bool 40 (Py.get weather_forecast "wind_speed" 0%Q) then
       task_id ← uuid4;
       wind_speed ← getitem weather_forecast "wind_speed";
       created_at ← datetime_now;
       now ← datetime_now;
       created ← create_task
         (high_wind_alert_task field_id task_id wind_speed created_at now);
       mret (created_task_ids ++ [created])
     else mret created_task_ids);
  (* Frost alert *)
  created_task_ids ←
    (if Py.Qlt_bool (Py.get weather_forecast "min_temperature" 10%Q) 2 then
       task_id ← uuid4;
       min_temperature ← getitem weather_forecast "min_temperature";
       created_at ← datetime_now;
       now ← datetime_now;
       created ← create_task
         (frost_warning_task field_id task_id min_temperature created_at now);
       mret (created_task_ids ++ [created])
     else mret created_task_ids);
  (* Heavy rain alert *)
  created_task_ids ←
    (if Py.Qlt_bool 50 (Py.get weather_forecast "precipitation" 0%Q) then
       task_id ← uuid4;
       precipitation ← getitem weather_forecast "precipitation";
       created_at ← datetime_now;
       now ← datetime_now;
       created ← create_task
         (heavy_rain_alert_task field_id task_id precipitation created_at now);
       mret (created_task_ids ++ [created])
     else mret created_task_ids);
  mret created_task_ids.

Record CategoryCount := {
  count : nat;
  pending : nat;
  completed : nat
}.

Definition _get_category_breakdown (tasks : list FarmerTask)
  : gmap string CategoryCount :=
  foldl (λ (categories : gmap string CategoryCount) task,
           let category := TaskCategory_value (Tasks.category task) in
           let entry :=
             default {| count := 0; pending := 0; completed := 0 |}
                     (categories !! category) in
           let entry :=
             {| count := S (count entry); pending := pending entry;
                completed := completed entry |} in
           let entry :=
             if decide (status task = PENDING) then
               {| count := count entry; pending := S (pending entry);
                  completed := completed entry |}
             else if decide (status task = COMPLETED) then
               {| count := count entry; pending := pending entry;
                  completed := S (completed entry) |}
             else entry in
           <[category := entry]> categories)
        ∅ tasks.

(** The dictionary returned by [get_task_summary], one field per key. *)
Record Summary := {
  s_total_tasks : nat;
  s_pending : nat;
  s_in_progress : nat;
  s_completed : nat;
  s_overdue : nat;
  s_upcoming_3_days : nat;
  s_urgent_tasks : nat;
  s_auto_generated : nat;
  s_total_estimated_cost : Q;
  s_categories : gmap string CategoryCount
}.

Definition get_task_summary (field_ids : list string) : M Summary :=
  all_tasks ← get_tasks_for_farmer field_ids None None None;
  overdue_tasks ← get_overdue_tasks field_ids;
  upcoming_tasks ← get_upcoming_tasks field_ids 3;
  let summary := {|
    s_total_tasks := length all_tasks;
    s_pending := length (filter (λ t, status t = PENDING) all_tasks);
    s_in_progress := length (filter (λ t, status t = IN_PROGRESS) all_tasks);
    s_completed := length (filter (λ t, status t = COMPLETED) all_tasks);
    s_overdue := length overdue_tasks;
    s_upcoming_3_days := length upcoming_tasks;
    s_urgent_tasks :=
      length (filter (λ t, priority t = URGENT ∧
                           status t ∈ [PENDING; IN_PROGRESS]) all_tasks);
    s_auto_generated := length (filter (λ t, auto_generated t = true) all_tasks);
    s_total_estimated_cost :=
      Py.sum (map cost_estimate (filter (λ t, status t ≠ COMPLETED) all_tasks));
    s_categories := _get_category_breakdown all_tasks
  |} in
  mret summary.

(** An entry of the [stage_tasks] table of [generate_growth_stage_tasks]. *)
Record StageTask := {
  st_title : string;
  st_description : string;
  st_category : TaskCategory;
  st_priority : TaskPriority;
  st_duration : Z;
  st_cost : Q
}.

Definition stage_tasks : gmap string (list StageTask) :=
  list_to_map
    [("Emergence",
      [{| st_title := "🌱 Monitor Emergence Rate";
          st_description :=
            "Check plant emergence percentage and identify any gaps in planting.";
          st_category := MONITORING; st_priority := MEDIUM;
          st_duration := 60; st_cost := 0%Q |}]);
     ("Vegetative_Growth",
      [{| st_title := "💧 Optimize Irrigation Schedule";
          st_description :=
            "Adjust irrigation frequency for optimal vegetative growth.";
          st_category := IRRIGATION; st_priority := HIGH;
          st_duration := 90; st_cost := 200%Q |};
       {| st_title := "🌿 Apply Nitrogen Fertilizer";
          st_description :=
            "Apply nitrogen fertilizer to support leaf and stem growth.";
          st_category := FERTILIZATION; st_priority := HIGH;
          st_duration := 120; st_cost := 800%Q |}]);
     ("Tuber_Initiation",
      [{| st_title := "🥔 Reduce Nitrogen, Increase Potassium";
          st_description :=
            "Adjust fertilizer ratio to promote tuber development.";
          st_category := FERTILIZATION; st_priority := HIGH;
          st_duration := 90; st_cost := 600%Q |}]);
     ("Tuber_Bulking",
      [{| st_title := "💧 Maintain Consistent Moisture";
          st_description :=
            "Ensure consistent soil moisture for optimal tuber sizing.";
          st_category := IRRIGATION; st_priority := URGENT;
          st_duration := 45; st_cost := 150%Q |}]);
     ("Maturation",
      [{| st_title := "📋 Plan Harvest Schedule";
          st_description :=
            "Prepare harvest plan and check equipment readiness.";
          st_category := HARVESTING; st_priority := HIGH;
          st_duration := 120; st_cost := 0%Q |}])].

(** "Adjust priority based on field health". *)
Definition adjust_priority (field_health : Q) (priority : TaskPriority)
  : TaskPriority :=
  if Py.Qlt_bool field_health 70 then
    if decide (priority = MEDIUM) then HIGH
    else if decide (priority = HIGH) then URGENT
    else priority
  else priority.

(** The [FarmerTask(...)] call of [generate_growth_stage_tasks]. *)
Definition growth_stage_task (field_id task_id : string) (task_data : StageTask)
    (priority : TaskPriority) (created_at now : Z) : FarmerTask :=
  {| id := task_id;
     title := st_title task_data;
     description := st_description task_data;
     category := st_category task_data;
     priority := priority;
     status := PENDING;
     field_id := field_id;
     created_at := created_at;
     due_date := (now + days 2)%Z;
     estimated_duration := st_duration task_data;
     cost_estimate := st_cost task_data;
     auto_generated := true;
     ai_confidence := 0.85%Q;
     completion_notes := None; completed_at := None;
     reminder_sent := false; zone_id := None; area_hectares := None;
     coordinates := None; equipment_needed := []; materials_needed := [];
     labor_hours := None; weather_dependent := false;
     optimal_conditions := None; risk_factors := []; depends_on := [];
     blocks := [] |}.

Definition generate_growth_stage_tasks (field_id growth_stage : string)
    (field_health : Q) : M (list string) :=
  let created_task_ids := [] in
  match stage_tasks !! growth_stage with
  | Some tasks =>
      for_fold tasks created_task_ids (λ created_task_ids task_data,
        let priority := adjust_priority field_health (st_priority task_data) in
        task_id ← uuid4;
        created_at ← datetime_now;
        now ← datetime_now;
        created ← create_task
          (growth_stage_task field_id task_id task_data priority created_at now);
        mret (created_task_ids ++ [created]))
  | None => mret created_task_ids
  end.

End Tasks.

(** ** alert_system.py *)

Module Alerts.
Import Run Tasks.

(** [reminder_hours_before] holds [[24; 4; 1]] where the dataclass is given
    [None] ([__post_init__]). *)
Record AlertConfig := {
  email_enabled : bool;
  sms_enabled : bool;
  whatsapp_enabled : bool;
  push_notifications : bool;
  reminder_hours_before : list Z
}.

Definition AlertConfig_default : AlertConfig :=
  {| email_enabled := true; sms_enabled := false; whatsapp_enabled := true;
     push_notifications := true; reminder_hours_before := [24; 4; 1]%Z |}.

(** The [message] dictionary handed to the channels.  The texts of [body]
    and [actions], which no decision reads, are left out. *)
Record Message := {
  m_title : string;
  m_priority : string;
  m_task_id : string;
  m_field_id : string
}.

(** An entry of [active_alerts]. *)
Record Notification := {
  n_title : string;
  n_type : string;
  n_priority : string;
  n_task_id : string;
  n_field_id : string;
  n_timestamp : Z;
  n_read : bool
}.

(** A [FarmerAlertSystem] object together with what it has emitted.
    [active_alerts] is keyed by [alert_<second>_<task_id[:8]>], held as the
    pair of the second and the prefix.  [outbox] lists the messages handed
    to each channel and [dispatched] the calls of [_send_notification], as
    (task id, alert type), oldest first. *)
Record System := {
  task_manager : World;
  config : AlertConfig;
  active_alerts : gmap (Z * string) Notification;
  outbox : list (string * Message);
  dispatched : list (string * string)
}.

Abbreviation MA := (Run.M System).

Definition set_task_manager (w : World) (s : System) : System :=
  {| task_manager := w; config := config s; active_alerts := active_alerts s;
     outbox := outbox s; dispatched := dispatched s |}.

Definition set_active_alerts (a : gmap (Z * string) Notification) (s : System)
  : System :=
  {| task_manager := task_manager s; config := config s; active_alerts := a;
     outbox := outbox s; dispatched := dispatched s |}.

Definition set_outbox (o : list (string * Message)) (s : System) : System :=
  {| task_manager := task_manager s; config := config s;
     active_alerts := active_alerts s; outbox := o;
     dispatched := dispatched s |}.

Definition set_dispatched (d : list (string * string)) (s : System) : System :=
  {| task_manager := task_manager s; config := config s;
     active_alerts := active_alerts s; outbox := outbox s; dispatched := d |}.

(** A call through [self.task_manager]. *)
Definition on_task_manager {A} (m : M A) : MA A :=
  lift task_manager set_task_manager m.

Definition _send_email_notification (message : Message) : MA unit :=
  modify (λ s, set_outbox (outbox s ++ [("email", message)]) s).

Definition _send_whatsapp_notification (message : Message) : MA unit :=
  modify (λ s, set_outbox (outbox s ++ [("whatsapp", message)]) s).

Definition _send_push_notification (message : Message) : MA unit :=
  modify (λ s, set_outbox (outbox s ++ [("push", message)]) s).

Definition _store_notification_for_dashboard (message : Message)
    (alert_type : string) : MA unit :=
  now ← on_task_manager datetime_now;
  let notification_id := (now, String.substring 0 8 (m_task_id message)) in
  modify (λ s, set_active_alerts
    (<[notification_id := {|
        n_title := m_title message; n_type := alert_type;
        n_priority := m_priority message; n_task_id := m_task_id message;
        n_field_id := m_field_id message; n_timestamp := now;
        n_read := false |}]> (active_alerts s)) s).

Definition _send_notification (message : Message) (alert_type : string) : MA unit :=
  modify (λ s, set_dispatched
    (dispatched s ++ [(m_task_id message, alert_type)]) s) ≫= λ _,
  config ← gets config;
  (if email_enabled config then _send_email_notification message else mret tt) ≫= λ _,
  (if whatsapp_enabled config then _send_whatsapp_notification message
   else mret tt) ≫= λ _,
  (if push_notifications config then _send_push_notification message
   else mret tt) ≫= λ _,
  _store_notification_for_dashboard message alert_type.

Definition _alert_sent (task_id alert_type : string) : MA bool :=
  rows ← on_task_manager (gets sent_alerts);
  let count :=
    length (filter (λ r, a_task_id r = task_id ∧ a_alert_type r = alert_type ∧
                         a_status r = "sent") rows) in
  mret (bool_decide (0 < count)).

Definition _log_alert_sent (task_id alert_type recipient : string) : MA unit :=
  on_task_manager (
    now ← datetime_now;
    rows ← gets sent_alerts;
    if bool_decide (now ∈ map a_id rows) then raise IntegrityError
    else
      modify (set_sent_alerts (rows ++ [{|
        a_id := now; a_task_id := task_id; a_alert_type := alert_type;
        a_recipient := recipient; a_sent_at := now; a_status := "sent" |}]))).

Definition _send_overdue_alert (task : FarmerTask) : MA unit :=
  let message := {|
    m_title := "⚠️ Overdue Task: " +:+ title task;
    m_priority := "high";
    m_task_id := id task;
    m_field_id := field_id task |} in
  _send_notification message "overdue" ≫= λ _,
  _log_alert_sent (id task) "overdue" "farmer@example.com".

Definition _send_urgent_alert (task : FarmerTask) : MA unit :=
  let message := {|
    m_title := "🚨 Urgent Task: " +:+ title task;
    m_priority := "urgent";
    m_task_id := id task;
    m_field_id := field_id task |} in
  _send_notification message "urgent" ≫= λ _,
  _log_alert_sent (id task) "urgent" "farmer@example.com".

(** [f'reminder_{hours_before}h']. *)
Definition reminder_type (hours_before : Z) : string :=
  "reminder_" +:+ pretty hours_before +:+ "h".

Definition _send_reminder_alert (task : FarmerTask) (hours_before : Z) : MA unit :=
  let message := {|
    m_title := "⏰ Reminder: " +:+ title task;
    m_priority := "medium";
    m_task_id := id task;
    m_field_id := field_id task |} in
  _send_notification message (reminder_type hours_before) ≫= λ _,
  _log_alert_sent (id task) (reminder_type hours_before) "farmer@example.com".

Definition _check_reminder_alerts (task : FarmerTask) (current_time : Z) : MA nat :=
  let alerts_sent := 0%nat in
  config ← gets config;
  for_fold (reminder_hours_before config) alerts_sent (λ alerts_sent hours_before,
    let reminder_time := (due_date task - hours hours_before)%Z in
    if (reminder_time <=? current_time)%Z &&
       (current_time <? reminder_time + 30 * 60)%Z then
      logged ← _alert_sent (id task) (reminder_type hours_before);
      if negb logged then
        _send_reminder_alert task hours_before ≫= λ _,
        mret (alerts_sent + 1)%nat
      else mret alerts_sent
    else mret alerts_sent).

(** The weather and the predicates over it of [_check_weather_alerts]. *)
Record Weather := {
  temperature : Q;
  humidity : Q;
  wind_speed : Q;
  precipitation_probability : Q
}.

Definition simulated_weather : Weather :=
  {| temperature := 25; humidity := 70; wind_speed := 15;
     precipitation_probability := 20 |}.

Definition _is_weather_suitable (task : FarmerTask) (weather : Weather) : bool :=
  let suitable_conditions : gmap string bool :=
    list_to_map
      [("irrigation", Py.Qlt_bool (precipitation_probability weather) 30);
       ("fertilization",
          Py.Qlt_bool (wind_speed weather) 20 &&
          Py.Qlt_bool (precipitation_probability weather) 20);
       ("pest_control",
          Py.Qlt_bool (wind_speed weather) 15 &&
          Py.Qlt_bool (precipitation_probability weather) 10);
       ("harvesting", Py.Qlt_bool (precipitation_probability weather) 10)] in
  Py.get suitable_conditions (TaskCategory_value (category task)) true.

Definition _is_weather_unsuitable (task : FarmerTask) (weather : Weather) : bool :=
  let unsuitable_conditions : gmap string bool :=
    list_to_map
      [("irrigation", Py.Qlt_bool 70 (precipitation_probability weather));
       ("fertilization",
          Py.Qlt_bool 30 (wind_speed weather) ||
          Py.Qlt_bool 60 (precipitation_probability weather));
       ("pest_control",
          Py.Qlt_bool 25 (wind_speed weather) ||
          Py.Qlt_bool 50 (precipitation_probability weather));
       ("harvesting", Py.Qlt_bool 40 (precipitation_probability weather))] in
  Py.get unsuitable_conditions (TaskCategory_value (category task)) false.

Definition _send_weather_suitable_alert (task : FarmerTask) (weather : Weather)
  : MA unit :=
  let message := {|
    m_title := "☀️ Good Weather for: " +:+ title task;
    m_priority := "medium";
    m_task_id := id task;
    m_field_id := field_id task |} in
  _send_notification message "weather_suitable" ≫= λ _,
  _log_alert_sent (id task) "weather_suitable" "farmer@example.com".

Definition _send_weather_warning_alert (task : FarmerTask) (weather : Weather)
  : MA unit :=
  let message := {|
    m_title := "🌧️ Weather Warning: " +:+ title task;
    m_priority := "medium";
    m_task_id := id task;
    m_field_id := field_id task |} in
  _send_notification message "weather_warning" ≫= λ _,
  _log_alert_sent (id task) "weather_warning" "farmer@example.com".

Definition _check_weather_alerts (task : FarmerTask) : MA nat :=
  let alerts_sent := 0%nat in
  unsent ← (and_then (weather_dependent task)
              (logged ← _alert_sent (id task) "weather_suitable";
               mret (negb logged)) : MA bool);
  if (unsent : bool) then
    if _is_weather_suitable task simulated_weather then
      _send_weather_suitable_alert task simulated_weather ≫= λ _,
      mret (alerts_sent + 1)%nat
    else if _is_weather_unsuitable task simulated_weather then
      _send_weather_warning_alert task simulated_weather ≫= λ _,
      mret (alerts_sent + 1)%nat
    else mret alerts_sent
  else mret alerts_sent.

(** The dictionary returned by [check_and_send_alerts], one field per key. *)
Record AlertsSent := {
  overdue : nat;
  urgent : nat;
  reminders : nat;
  weather : nat;
  total : nat
}.

Definition check_and_send_alerts (field_ids : list string) : MA AlertsSent :=
  let alerts_sent :=
    {| overdue := 0; urgent := 0; reminders := 0; weather := 0; total := 0 |} in
  tasks ← on_task_manager
    (get_tasks_for_farmer field_ids (Some [PENDING; IN_PROGRESS]) None None);
  current_time ← on_task_manager datetime_now;
  alerts_sent ← for_fold tasks alerts_sent (λ alerts_sent task,
    alerts_sent ←
      (if (due_date task <? current_time)%Z &&
          bool_decide (status task ≠ OVERDUE) then
         _send_overdue_alert task ≫= λ _,
         mret {| overdue := overdue alerts_sent + 1; urgent := urgent alerts_sent;
                 reminders := reminders alerts_sent;
                 weather := weather alerts_sent; total := total alerts_sent |}
       else
         urgent_unsent ← (and_then (bool_decide (priority task = URGENT))
           (logged ← _alert_sent (id task) "urgent";
            mret (negb logged)) : MA bool);
         if (urgent_unsent : bool) then
           _send_urgent_alert task ≫= λ _,
           mret {| overdue := overdue alerts_sent;
                   urgent := urgent alerts_sent + 1;
                   reminders := reminders alerts_sent;
                   weather := weather alerts_sent; total := total alerts_sent |}
         else
           reminder_alerts ← _check_reminder_alerts task current_time;
           mret {| overdue := overdue alerts_sent; urgent := urgent alerts_sent;
                   reminders := reminders alerts_sent + reminder_alerts;
                   weather := weather alerts_sent; total := total alerts_sent |});
    if weather_dependent task then
      weather_alerts ← _check_weather_alerts task;
      mret {| overdue := overdue alerts_sent; urgent := urgent alerts_sent;
              reminders := reminders alerts_sent;
              weather := weather alerts_sent + weather_alerts;
              total := total alerts_sent |}
    else mret alerts_sent);
  let alerts_sent :=
    {| overdue := overdue alerts_sent; urgent := urgent alerts_sent;
       reminders := reminders alerts_sent; weather := weather alerts_sent;
       total := overdue alerts_sent + urgent alerts_sent +
                reminders alerts_sent + weather alerts_sent +
                total alerts_sent - total alerts_sent |} in
  mret alerts_sent.

(** [alert['read'] = True]. *)
Definition set_read (alert : Notification) : Notification :=
  {| n_title := n_title alert; n_type := n_type alert;
     n_priority := n_priority alert; n_task_id := n_task_id alert;
     n_field_id := n_field_id alert; n_timestamp := n_timestamp alert;
     n_read := true |}.

(** [alert_id] is given as the second and the prefix its text is made of;
    a text of another form is the key of no alert. *)
Definition mark_alert_read (alert_id : Z * string) : MA bool :=
  alerts ← gets active_alerts;
  match alerts !! alert_id with
  | Some alert =>
      modify (set_active_alerts (<[alert_id := set_read alert]> alerts)) ≫= λ _,
      mret true
  | None => mret false
  end.

Definition clear_old_alerts (hours_old : Z) : MA unit :=
  now ← on_task_manager datetime_now;
  let cutoff_time := (now - hours hours_old)%Z in
  alerts ← gets active_alerts;
  let alerts_to_remove :=
    (filter (λ item, (n_timestamp item.2 < cutoff_time)%Z)
            (map_to_list alerts)).*1 in
  modify (set_active_alerts
            (foldl (λ alerts alert_id, delete alert_id alerts)
                   alerts alerts_to_remove)).

End Alerts.

(** ** smart_recommendations.py: the engine object *)

Module EngineField.
Import Engine.
Local Open Scope Q_scope.

(** [expected_roi] is [None] for [nan]. *)
Record FieldRecommendation := {
  fr_field_id : string;
  analysis_date : Z;
  zones : list ZoneRecommendation;
  summary : FieldSummary;
  fr_total_cost : Q;
  expected_roi : option Q
}.

(** A [RecommendationEngine] object, and the clock it reads. *)
Record EngineState := {
  recommendation_history : list FieldRecommendation;
  now : Z
}.

(** The loop over the rows of [zone_analysis], in the order of the frame,
    from the recommendations and the cost so far; [None] is the [KeyError]
    of a zone. *)
Definition field_loop (weather_forecast : gmap string Q)
    (acc : option (list ZoneRecommendation * Q)) (zone_analysis : list ZoneData)
  : option (list ZoneRecommendation * Q) :=
  foldl (fun acc zone_data =>
           '(zone_recommendations, total_cost) ← acc;
           zone_rec ← _generate_zone_recommendations zone_data weather_forecast;
           Some (zone_recommendations ++ [zone_rec],
                 total_cost + Engine.total_cost zone_rec))
        acc zone_analysis.

(** The [KeyError] of a zone leaves the history as it was. *)
Definition generate_field_recommendations
    (zone_analysis : list ZoneData) (weather_forecast : gmap string Q)
    (field_id : string) : Run.M EngineState FieldRecommendation :=
  fun engine =>
    match field_loop weather_forecast (Some ([], 0)) zone_analysis with
    | None => Run.Raise Run.KeyError engine
    | Some (zone_recommendations, total_cost) =>
        let summary := _calculate_field_summary zone_recommendations in
        let expected_roi := _estimate_roi zone_recommendations total_cost in
        let field_recommendation := {|
          fr_field_id := field_id;
          analysis_date := now engine;
          zones := zone_recommendations;
          summary := summary;
          fr_total_cost := total_cost;
          expected_roi := expected_roi
        |} in
        Run.Ok field_recommendation
          {| recommendation_history :=
               recommendation_history engine ++ [field_recommendation];
             now := now engine |}
    end.

End EngineField.

(** ** The specification's wording, for comparison with the code *)

Module Spec.
Local Open Scope Q_scope.

(** "severe_deficiency < deficiency < marginal < sufficient < excess": the
    order of the five statuses along the level axis. *)
Definition status_rank (status : string) : nat :=
  if String.eqb status "severe_deficiency" then 0
  else if String.eqb status "deficiency" then 1
  else if String.eqb status "marginal" then 2
  else if String.eqb status "sufficient" then 3
  else 4.

(** "four ascending breakpoints: severe_deficiency < deficiency < sufficient
    < excess". *)
Definition ordered (t : Engine.Thresholds) : Prop :=
  Engine.severe_deficiency t < Engine.deficiency t /\
  Engine.deficiency t < Engine.sufficient t /\
  Engine.sufficient t < Engine.excess t.

(** "irrigation action contributes 0.12 if high priority else 0.08;
    fertilization contributes 0.20 if description mentions severe_deficiency,
    0.10 if mentions deficiency, else 0.05; pest management contributes 0.15
    if high priority else 0.05." *)
Definition contribution (a : Engine.RecommendationAction) : Q :=
  match Engine.action_type a with
  | Engine.IRRIGATION =>
      if String.eqb (Engine.priority a) "high" then 0.12 else 0.08
  | Engine.FERTILIZATION =>
      if Py.contains "severe_deficiency" (Engine.description a) then 0.20
      else if Py.contains "deficiency" (Engine.description a) then 0.10
      else 0.05
  | Engine.PEST_MANAGEMENT =>
      if String.eqb (Engine.priority a) "high" then 0.15 else 0.05
  | Engine.HARVESTING => 0
  end.

Definition total (xs : list Q) : Q := foldr Qplus 0 xs.

(** "roi_pct = ((base_yield_value × mean_yield_impact) − total_cost) /
    total_cost × 100, floored at 0", with "base_yield_value = total_area_ha ×
    25 tonnes/ha × 300 currency/tonne". *)
Definition roi_pct (zones : list Engine.ZoneRecommendation) (total_cost : Q) : Q :=
  let total_area_ha := total (map Engine.area_ha zones) in
  let mean_yield_impact :=
    total (map Engine.estimated_yield_impact zones) /
    inject_Z (Z.of_nat (length zones)) in
  Qmax 0 ((total_area_ha * 25 * 300 * mean_yield_impact - total_cost) /
          total_cost * 100).




(** "States: pending → in_progress → completed; pending|in_progress →
    overdue (time-triggered, not user action); pending|in_progress →
    cancelled; overdue is not terminal — a task can still be
    completed/cancelled from it.  Terminal: completed, cancelled." *)
Definition transition (s s' : Tasks.TaskStatus) : Prop :=
  (s, s') ∈ [(Tasks.PENDING, Tasks.IN_PROGRESS);
             (Tasks.IN_PROGRESS, Tasks.COMPLETED);
             (Tasks.PENDING, Tasks.OVERDUE);
             (Tasks.IN_PROGRESS, Tasks.OVERDUE);
             (Tasks.PENDING, Tasks.CANCELLED);
             (Tasks.IN_PROGRESS, Tasks.CANCELLED);
             (Tasks.OVERDUE, Tasks.COMPLETED);
             (Tasks.OVERDUE, Tasks.CANCELLED)].

Definition terminal (s : Tasks.TaskStatus) : Prop :=
  s ∈ [Tasks.COMPLETED; Tasks.CANCELLED].

(** The tables and the clock of [w'] are those of [w]. *)
Definition same_store (w w' : Tasks.World) : Prop :=
  Tasks.farmer_tasks w' = Tasks.farmer_tasks w /\
  Tasks.task_history w' = Tasks.task_history w /\
  Tasks.sent_alerts w' = Tasks.sent_alerts w /\
  Tasks.clock w' = Tasks.clock w.

(** A stored pending or in_progress task of the fields that is past due. *)
Definition late_active (field_ids : list string) (w : Tasks.World)
    (t : Tasks.FarmerTask) : Prop :=
  t ∈ Tasks.farmer_tasks w /\
  Tasks.field_id t ∈ field_ids /\
  Tasks.status t ∈ [Tasks.PENDING; Tasks.IN_PROGRESS] /\
  (Tasks.due_date t < Tasks.clock w)%Z.

(** [l] is in the order of [le]: every element is [le] each later one. *)
Fixpoint sorted_by {A} (le : A -> A -> bool) (l : list A) : Prop :=
  match l with
  | [] => True
  | x :: l' => Forall (fun y => le x y = true) l' /\ sorted_by le l'
  end.

#[local] Existing Instance Tasks.TaskStatus_eq_dec.

(** The entry of a category breakdown that starts from [e0] and counts the
    tasks [here]. *)
Definition tally (e0 : Tasks.CategoryCount) (here : list Tasks.FarmerTask)
  : Tasks.CategoryCount :=
  {| Tasks.count := (Tasks.count e0 + length here)%nat;
     Tasks.pending :=
       (Tasks.pending e0 +
        length (filter (fun t => Tasks.status t = Tasks.PENDING) here))%nat;
     Tasks.completed :=
       (Tasks.completed e0 +
        length (filter (fun t => Tasks.status t = Tasks.COMPLETED) here))%nat |}.

(** The order of the four health labels, from worst to best. *)
Definition health_rank (health : string) : nat :=
  if String.eqb health "excellent" then 3
  else if String.eqb health "good" then 2
  else if String.eqb health "fair" then 1
  else 0.

(** What every action a generator emits for a zone satisfies: it names
    that zone, it is to be done at once exactly when its priority is high,
    and it has a cost, which is not negative. *)
Definition action_for_zone (zone_id : Q) (a : Engine.RecommendationAction) : Prop :=
  Engine.zone_ids a = [zone_id] /\
  (Engine.timing a = "immediate"%string <-> Engine.priority a = "high"%string) /\
  exists cost, Engine.estimated_cost a = Some cost /\ 0 <= cost.

(** What the fertilizer loop adds for one nutrient of a zone: nothing unless
    the nutrient is deficient, and else one action with a positive rate,
    which is urgent when the deficiency is severe. *)
Definition fertilizer_action_for
    (zone_data : gmap string Q) (zone_id : Q) (nutrient status : string)
    (new : list Engine.RecommendationAction) : Prop :=
  length new =
    (if bool_decide (status ∈ ["severe_deficiency"; "deficiency"]%string)
     then 1 else 0)%nat /\
  Forall (fun a =>
            Engine.action_type a = Engine.FERTILIZATION /\
            Engine.zone_ids a = [zone_id] /\
            (0 <= Py.get zone_data "area_ha" 1 -> action_for_zone zone_id a) /\
            (exists rate, Engine.application_rate a = Some rate /\ 0 < rate) /\
            (status = "severe_deficiency"%string ->
             Engine.priority a = "high"%string /\
             Engine.timing a = "immediate"%string /\
             exists rest,
               Engine.description a =
                 "Apply " +:+ nutrient +:+ " fertilizer to address " +:+
                 "severe_deficiency" +:+ rest)) new.

(** The fields of an action that do not quote the growth stage. *)
Definition action_core (a : Engine.RecommendationAction) :=
  (Engine.action_type a, Engine.priority a, Engine.description a,
   Engine.timing a, Engine.zone_ids a, Engine.application_rate a,
   Engine.application_unit a, Engine.estimated_cost a).

End Spec.

(** ** What the alert system keeps *)

Module AlertSpec.
Import Tasks.
(** An alert of this type is logged as sent for this task. *)
Definition logged (rows : list Tasks.SentAlert) (task_id alert_type : string)
  : Prop :=
  exists r, r ∈ rows /\ Tasks.a_task_id r = task_id /\
            Tasks.a_alert_type r = alert_type /\ Tasks.a_status r = "sent"%string.
(** The row that [_log_alert_sent] writes. *)
Definition alert_row (now : Z) (task_id alert_type recipient : string)
  : Tasks.SentAlert :=
  {| a_id := now; a_task_id := task_id; a_alert_type := alert_type;
     a_recipient := recipient; a_sent_at := now; a_status := "sent" |}.

(** What a part of a scan that returns normally has done when it reports
    [n] alerts: it has kept the clock and the configuration, dispatched [n]
    alerts and logged them; [n] is 0 or 1, and an alert of another type than
    "overdue" had not been logged for its task before. *)
Definition scan_step (s : Alerts.System) (n : nat) (s' : Alerts.System) : Prop :=
  let w := Alerts.task_manager s in
  let w' := Alerts.task_manager s' in
  clock w' = clock w /\
  farmer_tasks w' = farmer_tasks w /\
  Alerts.config s' = Alerts.config s /\
  ((n = 0%nat /\
    Alerts.dispatched s' = Alerts.dispatched s /\
    sent_alerts w' = sent_alerts w) \/
   (n = 1%nat /\
    (clock w ∉ map a_id (sent_alerts w)) /\
    exists task_id alert_type recipient,
      Alerts.dispatched s' = Alerts.dispatched s ++ [(task_id, alert_type)] /\
      sent_alerts w' =
        sent_alerts w ++ [alert_row (clock w) task_id alert_type recipient] /\
      (alert_type = "overdue"%string \/
       ~ logged (sent_alerts w) task_id alert_type))).
(** The alerts a scan has counted so far. *)
Definition counted (a : Alerts.AlertsSent) : nat :=
  (Alerts.overdue a + Alerts.urgent a + Alerts.reminders a + Alerts.weather a)%nat.
End AlertSpec.

(** ** Concrete inputs used by the examples *)

Module EngineExamples.
Import Engine.
Local Open Scope Q_scope.

Definition zone_example : ZoneRecommendation :=
  {| zone_id := 1; area_ha := 2; growth_stage := "Vegetative_Growth";
     health_status := "good"; nutrient_status := ∅; stress_indicators := ∅;
     actions := []; estimated_yield_impact := 0.2; total_cost := 1000 |}.

Definition zone_dry : gmap string Q :=
  <["soil_moisture" := 10]> (<["zone_id" := 1]> ∅).

Definition forecast_no_rain : gmap string Q :=
  <["precipitation_7day" := 0]> ∅.

(** Two zones of the demonstration in smart_recommendations.py. *)
Definition zone_sparse : gmap string Q :=
  list_to_map [("zone_id", 5); ("NDVI_mean", 0.35); ("NDRE_mean", 0.20)].

Definition zone_lush : gmap string Q :=
  list_to_map [("zone_id", 4); ("NDVI_mean", 0.80); ("NDRE_mean", 0.55)].
(** The third zone of the demonstration. *)
Definition zone_poor : gmap string Q :=
  list_to_map
    [("zone_id", 3); ("area_ha", 1.8); ("NDVI_mean", 0.45); ("NDRE_mean", 0.25);
     ("nitrogen_level", 25); ("phosphorus_level", 15); ("potassium_level", 140);
     ("soil_moisture", 18)].

(** The frame and the forecast of [demo_recommendation_engine]. *)
Definition demo_zone_analysis : list ZoneData :=
  [ {| columns :=
         list_to_map
           [("zone_id", 1); ("area_ha", 2.5); ("NDVI_mean", 0.65);
            ("NDRE_mean", 0.40); ("nitrogen_level", 35); ("phosphorus_level", 22);
            ("potassium_level", 180); ("soil_moisture", 22)];
       growth_stage_column := Some "Vegetative_Growth" |};
    {| columns :=
         list_to_map
           [("zone_id", 2); ("area_ha", 3.0); ("NDVI_mean", 0.75);
            ("NDRE_mean", 0.50); ("nitrogen_level", 55); ("phosphorus_level", 28);
            ("potassium_level", 210); ("soil_moisture", 28)];
       growth_stage_column := Some "Tuber_Initiation" |};
    {| columns := zone_poor; growth_stage_column := Some "Vegetative_Growth" |};
    {| columns :=
         list_to_map
           [("zone_id", 4); ("area_ha", 2.2); ("NDVI_mean", 0.80);
            ("NDRE_mean", 0.55); ("nitrogen_level", 60); ("phosphorus_level", 30);
            ("potassium_level", 220); ("soil_moisture", 30)];
       growth_stage_column := Some "Tuber_Bulking" |};
    {| columns :=
         list_to_map
           [("zone_id", 5); ("area_ha", 2.8); ("NDVI_mean", 0.35);
            ("NDRE_mean", 0.20); ("nitrogen_level", 30); ("phosphorus_level", 18);
            ("potassium_level", 160); ("soil_moisture", 20)];
       growth_stage_column := Some "Emergence" |} ].

Definition demo_weather_forecast : gmap string Q :=
  list_to_map
    [("precipitation_7day", 15); ("max_temperature_7day", 28);
     ("avg_temperature_7day", 22); ("avg_humidity_7day", 75)].

(** A zone short of nitrogen, in a frame without a growth_stage column. *)
Definition zone_starved : ZoneData :=
  {| columns := list_to_map [("zone_id", 6); ("nitrogen_level", 20)];
     growth_stage_column := None |}.

(** A row without zone_id. *)
Definition zone_unnamed : ZoneData :=
  {| columns := list_to_map [("area_ha", 2); ("nitrogen_level", 40)];
     growth_stage_column := None |}.

(** A cold and humid week. *)
Definition forecast_cold : gmap string Q :=
  <["avg_temperature_7day" := 12]> (<["avg_humidity_7day" := 90]> ∅).

(** A week of heavy rain. *)
Definition forecast_wet : gmap string Q :=
  <["precipitation_7day" := 45]> ∅.

End EngineExamples.

Module TaskExamples.
Import Tasks.

(** A task of field "f1", due at second [due]. *)
Definition task_due (due : Z) (task_id : string) (status : TaskStatus)
    (priority : TaskPriority) : FarmerTask :=
  {| id := task_id; title := "Check drainage"; description := "";
     category := MONITORING; priority := priority; status := status;
     field_id := "f1"; created_at := 0; due_date := due;
     estimated_duration := 30; cost_estimate := 0%Q; auto_generated := false;
     ai_confidence := 1%Q; completion_notes := None; completed_at := None;
     reminder_sent := false; zone_id := None; area_hectares := None;
     coordinates := None; equipment_needed := []; materials_needed := [];
     labor_hours := None; weather_dependent := false;
     optimal_conditions := None; risk_factors := []; depends_on := [];
     blocks := [] |}.

(** A task of field "f1", due at second 100. *)
Definition task_of : string -> TaskStatus -> TaskPriority -> FarmerTask :=
  task_due 100.

(** A store holding one task, read at second 1000. *)
Definition world_of (task : FarmerTask) : World :=
  {| farmer_tasks := [task]; task_history := []; sent_alerts := [];
     clock := 1000; uuid_draws := 0 |}.

Definition world_empty : World :=
  {| farmer_tasks := []; task_history := []; sent_alerts := [];
     clock := 1000; uuid_draws := 0 |}.

Definition world_late : World := world_of (task_of "a" PENDING LOW).

(** A store whose only task is pending and due at second 1000000, after
    the clock. *)
Definition world_ahead : World := world_of (task_due 1000000 "b" PENDING URGENT).

(** The forecast of the demonstration in task_manager.py. *)
Definition forecast_storm : gmap string Q :=
  list_to_map
    [("wind_speed", 45%Q); ("min_temperature", 1%Q); ("precipitation", 60%Q)].

(** The recommendations of the demonstration in task_manager.py. *)
Definition recommendations_demo : RecommendationsDict :=
  {| zones_ := Some [
       {| zone_id_ := Some "1"; area_ha_ := Some 2.5%Q;
          actions_ := Some [
            {| type_ := Some "irrigation"; priority_ := Some "high";
               description_ := Some "Increase irrigation frequency";
               timing_ := Some "immediate"; cost_ := Some 200%Q;
               rate_ := Some "25mm daily" |};
            {| type_ := Some "fertilization"; priority_ := Some "medium";
               description_ := Some "Apply nitrogen fertilizer";
               timing_ := Some "within_week"; cost_ := Some 400%Q;
               rate_ := Some "50kg/ha" |} ] |} ] |}.

End TaskExamples.

Module AlertExamples.
Import Tasks TaskExamples Alerts.

(** An alert system over the store [world_late], before any alert. *)
Definition system_late : System :=
  {| task_manager := world_late; config := AlertConfig_default;
     active_alerts := ∅; outbox := []; dispatched := [] |}.

(** An alert system over a store whose only task is urgent and due at
    second 1000000, more than a day ahead. *)
Definition system_urgent : System :=
  {| task_manager := world_of (task_due 1000000 "b" PENDING URGENT);
     config := AlertConfig_default;
     active_alerts := ∅; outbox := []; dispatched := [] |}.

(** A later scan: the clock has moved to [now]. *)
Definition later (now : Z) (s : System) : System :=
  set_task_manager (set_clock now (task_manager s)) s.

(** An alert system over a store with two late tasks, before any alert. *)
Definition system_two_late : System :=
  {| task_manager :=
       {| farmer_tasks := [task_of "a" PENDING LOW; task_of "b" PENDING HIGH];
          task_history := []; sent_alerts := []; clock := 1000; uuid_draws := 0 |};
     config := AlertConfig_default;
     active_alerts := ∅; outbox := []; dispatched := [] |}.

End AlertExamples.

(** ** Facts about the built-ins *)

Module PyFacts.
Import Py.
Local Open Scope Q_scope.

Lemma Qlt_bool_iff (x y : Q) : Qlt_bool x y = true <-> x < y.
Proof.
  unfold Qlt_bool. rewrite negb_true_iff.
  destruct (Qle_bool y x) eqn:E.
  - apply Qle_bool_iff in E. split; [discriminate | intros H; lra].
  - split; [intros _ | reflexivity].
    apply Qnot_le_lt. intros H. apply Qle_bool_iff in H. congruence.
Qed.

Lemma Qlt_bool_false (x y : Q) : Qlt_bool x y = false <-> y <= x.
Proof.
  unfold Qlt_bool. rewrite negb_false_iff. apply Qle_bool_iff.
Qed.

Lemma Qlt_bool_spec (x y : Q) : reflect (x < y) (Qlt_bool x y).
Proof.
  destruct (Qlt_bool x y) eqn:E; constructor.
  - by apply Qlt_bool_iff.
  - apply Qlt_bool_false in E. lra.
Qed.

Lemma max_Qmax (a b : Q) : max_ a b == Qmax a b.
Proof.
  unfold max_. destruct (Qlt_bool_spec a b) as [H|H].
  - symmetry. apply Q.max_r. lra.
  - symmetry. apply Q.max_l. lra.
Qed.

Lemma min_Qmin (a b : Q) : min_ a b == Qmin a b.
Proof.
  unfold min_. destruct (Qlt_bool_spec b a) as [H|H].
  - symmetry. apply Q.min_r. lra.
  - symmetry. apply Q.min_l. lra.
Qed.

Lemma max_ge_l (a b : Q) : a <= max_ a b.
Proof. unfold max_. destruct (Qlt_bool_spec a b); lra. Qed.

Lemma min_le_r (a b : Q) : min_ a b <= b.
Proof. unfold min_. destruct (Qlt_bool_spec b a); lra. Qed.

Lemma max_comp (a a' b b' : Q) : a == a' -> b == b' -> max_ a b == max_ a' b'.
Proof. intros Ha Hb. rewrite !max_Qmax. by rewrite Ha, Hb. Qed.

Lemma min_comp (a a' b b' : Q) : a == a' -> b == b' -> min_ a b == min_ a' b'.
Proof. intros Ha Hb. rewrite !min_Qmin. by rewrite Ha, Hb. Qed.

Lemma Qlt_bool_comp (a a' b b' : Q) :
  a == a' -> b == b' -> Qlt_bool a b = Qlt_bool a' b'.
Proof.
  intros Ha Hb. unfold Qlt_bool. f_equal. by apply Qleb_comp.
Qed.

Lemma fold_left_Qplus_acc (xs : list Q) (a : Q) :
  fold_left Qplus xs a == a + fold_left Qplus xs 0.
Proof.
  revert a. induction xs as [|x xs IH]; intros a; simpl.
  - lra.
  - rewrite IH, (IH (0 + x)). lra.
Qed.

Lemma sum_cons (x : Q) (xs : list Q) : sum (x :: xs) == x + sum xs.
Proof. unfold sum. simpl. rewrite fold_left_Qplus_acc. lra. Qed.

#[export] Instance Qlt_bool_proper : Proper (Qeq ==> Qeq ==> eq) Qlt_bool.
Proof. intros a a' Ha b b' Hb. by apply Qlt_bool_comp. Qed.

#[export] Instance max_proper : Proper (Qeq ==> Qeq ==> Qeq) max_.
Proof. intros a a' Ha b b' Hb. by apply max_comp. Qed.

#[export] Instance min_proper : Proper (Qeq ==> Qeq ==> Qeq) min_.
Proof. intros a a' Ha b b' Hb. by apply min_comp. Qed.

Lemma sum_total (xs : list Q) : sum xs == Spec.total xs.
Proof.
  induction xs as [|x xs IH]; [reflexivity|].
  rewrite sum_cons. simpl. by rewrite IH.
Qed.

Lemma get_Some {V} (d : gmap string V) (k : string) (v x : V) :
  d !! k = Some x -> get d k v = x.
Proof. intros H. unfold get. by rewrite H. Qed.

Lemma get_None {V} (d : gmap string V) (k : string) (v : V) :
  d !! k = None -> get d k v = v.
Proof. intros H. unfold get. by rewrite H. Qed.

End PyFacts.

(** ** Properties of the recommendation engine *)

Module EngineFacts.
Import Py PyFacts Engine EngineExamples.
Import Spec (ordered).
Local Open Scope Q_scope.

(** *** Nutrient status *)

Lemma nutrient_thresholds_ordered (nutrient : string) (t : Thresholds) :
  nutrient_thresholds !! nutrient = Some t -> ordered t.
Proof.
  unfold nutrient_thresholds. intros H.
  apply elem_of_list_to_map_2 in H.
  repeat (apply elem_of_cons in H as [H|H];
          [inversion H; subst; unfold ordered; simpl; lra|]).
  by apply elem_of_nil in H.
Qed.

Lemma status_of_level_cases (level : Q) (t : Thresholds) :
  ordered t ->
  (level < severe_deficiency t /\ status_of_level level t = "severe_deficiency") \/
  (severe_deficiency t <= level < deficiency t /\
   status_of_level level t = "deficiency") \/
  (deficiency t <= level < sufficient t /\ status_of_level level t = "marginal") \/
  (sufficient t <= level <= excess t /\ status_of_level level t = "sufficient") \/
  (excess t < level /\ status_of_level level t = "excess").
Proof.
  intros (H1 & H2 & H3). unfold status_of_level.
  destruct (Qlt_bool_spec level (severe_deficiency t)); [by left|].
  destruct (Qlt_bool_spec level (deficiency t)); [right; left; split; [lra|done]|].
  destruct (Qlt_bool_spec level (sufficient t));
    [right; right; left; split; [lra|done]|].
  destruct (Qlt_bool_spec (excess t) level).
  - right; right; right; right. done.
  - right; right; right; left. split; [lra|done].
Qed.

Lemma status_of_level_mono (l1 l2 : Q) (t : Thresholds) :
  ordered t -> l1 <= l2 ->
  (Spec.status_rank (status_of_level l1 t) <=
   Spec.status_rank (status_of_level l2 t))%nat.
Proof.
  intros Ho Hl.
  destruct (status_of_level_cases l1 t Ho) as [[H1 ->]|[[H1 ->]|[[H1 ->]|[[H1 ->]|[H1 ->]]]]];
  destruct (status_of_level_cases l2 t Ho) as [[H2 ->]|[[H2 ->]|[[H2 ->]|[[H2 ->]|[H2 ->]]]]];
  destruct Ho as (? & ? & ?); try (vm_compute; lia); exfalso; lra.
Qed.

Lemma assess_lookup (zone_data : gmap string Q) (nutrient : string) :
  nutrient ∈ ["nitrogen"; "phosphorus"; "potassium"]%string ->
  exists t ns,
    nutrient_thresholds !! nutrient = Some t /\
    _assess_nutrient_status zone_data = Some ns /\
    ns !! nutrient =
      Some (status_of_level (Py.get zone_data (nutrient +:+ "_level") 50) t).
Proof.
  intros H. unfold _assess_nutrient_status.
  assert (Hn : nutrient_thresholds !! "nitrogen" =
    Some {| severe_deficiency := 25; deficiency := 35; sufficient := 45; excess := 75 |})
    by reflexivity.
  assert (Hp : nutrient_thresholds !! "phosphorus" =
    Some {| severe_deficiency := 12; deficiency := 18; sufficient := 25; excess := 40 |})
    by reflexivity.
  assert (Hk : nutrient_thresholds !! "potassium" =
    Some {| severe_deficiency := 120; deficiency := 160; sufficient := 200; excess := 280 |})
    by reflexivity.
  cbn [foldl mbind option_bind]. rewrite Hn. cbn [mbind option_bind].
  rewrite Hp. cbn [mbind option_bind]. rewrite Hk. cbn [mbind option_bind].
  repeat (apply elem_of_cons in H as [->|H]); [| | |by apply elem_of_nil in H];
    eexists _, _; (split; [eassumption|]); (split; [reflexivity|]).
  - rewrite !lookup_insert_ne by done. by rewrite lookup_insert_eq.
  - rewrite lookup_insert_ne by done. by rewrite lookup_insert_eq.
  - by rewrite lookup_insert_eq.
Qed.

(** C8. For each nutrient of nitrogen, phosphorus and potassium the static
    thresholds exist, and for every zone [_assess_nutrient_status] assigns the
    nutrient one status out of five, decided by the level (50 when the zone
    has none) through the half-open buckets
    level < severe_deficiency; severe_deficiency <= level < deficiency;
    deficiency <= level < sufficient; sufficient <= level <= excess;
    excess < level.  The classification is monotone in the level. *)
Theorem nutrient_status_buckets (nutrient : string) :
  nutrient ∈ ["nitrogen"; "phosphorus"; "potassium"]%string ->
  exists t,
    nutrient_thresholds !! nutrient = Some t /\
    (forall zone_data : gmap string Q,
       let level := Py.get zone_data (nutrient +:+ "_level") 50 in
       exists ns status,
         _assess_nutrient_status zone_data = Some ns /\
         ns !! nutrient = Some status /\
         status ∈ ["severe_deficiency"; "deficiency"; "marginal";
                   "sufficient"; "excess"]%string /\
         (status = "severe_deficiency"%string <-> level < severe_deficiency t) /\
         (status = "deficiency"%string <->
            severe_deficiency t <= level < deficiency t) /\
         (status = "marginal"%string <-> deficiency t <= level < sufficient t) /\
         (status = "sufficient"%string <-> sufficient t <= level <= excess t) /\
         (status = "excess"%string <-> excess t < level)) /\
    (forall zone_data1 zone_data2 : gmap string Q,
       Py.get zone_data1 (nutrient +:+ "_level") 50 <=
       Py.get zone_data2 (nutrient +:+ "_level") 50 ->
       exists ns1 ns2 status1 status2,
         _assess_nutrient_status zone_data1 = Some ns1 /\
         ns1 !! nutrient = Some status1 /\
         _assess_nutrient_status zone_data2 = Some ns2 /\
         ns2 !! nutrient = Some status2 /\
         (Spec.status_rank status1 <= Spec.status_rank status2)%nat).
Proof.
  intros Hin.
  destruct (assess_lookup ∅ nutrient Hin) as (t & _ & Ht & _).
  pose proof (nutrient_thresholds_ordered _ _ Ht) as Ho.
  exists t. split; [exact Ht|]. split.
  - intros zone_data level.
    destruct (assess_lookup zone_data nutrient Hin) as (t' & ns & Ht' & Hns & Hl).
    assert (t' = t) as -> by congruence.
    exists ns, (status_of_level level t). split; [exact Hns|]. split; [exact Hl|].
    destruct Ho as (Ho1 & Ho2 & Ho3).
    destruct (status_of_level_cases level t (conj Ho1 (conj Ho2 Ho3)))
      as [[H ->]|[[H ->]|[[H ->]|[[H ->]|[H ->]]]]];
      (split; [repeat constructor|]);
      repeat split; intros; try discriminate; try done; try lra.
  - intros zd1 zd2 Hle.
    destruct (assess_lookup zd1 nutrient Hin) as (t1 & ns1 & Ht1 & Hns1 & Hl1).
    destruct (assess_lookup zd2 nutrient Hin) as (t2 & ns2 & Ht2 & Hns2 & Hl2).
    assert (t1 = t) as -> by congruence. assert (t2 = t) as -> by congruence.
    eexists ns1, ns2, _, _. repeat (split; [eassumption|]).
    by apply status_of_level_mono.
Qed.

Lemma nutrient_status_buckets_witness :
  ("nitrogen" ∈ ["nitrogen"; "phosphorus"; "potassium"]%string) /\
  exists t,
    nutrient_thresholds !! "nitrogen" = Some t /\
    (forall zone_data : gmap string Q,
       let level := Py.get zone_data ("nitrogen" +:+ "_level") 50 in
       exists ns status,
         _assess_nutrient_status zone_data = Some ns /\
         ns !! "nitrogen" = Some status /\
         status ∈ ["severe_deficiency"; "deficiency"; "marginal";
                   "sufficient"; "excess"]%string /\
         (status = "severe_deficiency"%string <-> level < severe_deficiency t) /\
         (status = "deficiency"%string <->
            severe_deficiency t <= level < deficiency t) /\
         (status = "marginal"%string <-> deficiency t <= level < sufficient t) /\
         (status = "sufficient"%string <-> sufficient t <= level <= excess t) /\
         (status = "excess"%string <-> excess t < level)) /\
    (forall zone_data1 zone_data2 : gmap string Q,
       Py.get zone_data1 ("nitrogen" +:+ "_level") 50 <=
       Py.get zone_data2 ("nitrogen" +:+ "_level") 50 ->
       exists ns1 ns2 status1 status2,
         _assess_nutrient_status zone_data1 = Some ns1 /\
         ns1 !! "nitrogen" = Some status1 /\
         _assess_nutrient_status zone_data2 = Some ns2 /\
         ns2 !! "nitrogen" = Some status2 /\
         (Spec.status_rank status1 <= Spec.status_rank status2)%nat).
Proof.
  assert (H : "nitrogen" ∈ ["nitrogen"; "phosphorus"; "potassium"]%string)
    by (apply elem_of_cons; by left).
  split; [exact H|]. exact (nutrient_status_buckets "nitrogen" H).
Defined.

(** *** Yield impact *)

Lemma yield_impact_step_contribution (total_impact : Q) (a : RecommendationAction) :
  yield_impact_step total_impact a == total_impact + Spec.contribution a.
Proof.
  unfold yield_impact_step, Spec.contribution.
  destruct (action_type a);
    repeat match goal with |- context [if ?b then _ else _] => destruct b end;
    lra.
Qed.

Lemma contribution_nonneg (a : RecommendationAction) : 0 <= Spec.contribution a.
Proof.
  unfold Spec.contribution.
  destruct (action_type a);
    repeat match goal with |- context [if ?b then _ else _] => destruct b end;
    lra.
Qed.

Lemma total_contribution_nonneg (actions : list RecommendationAction) :
  0 <= Spec.total (map Spec.contribution actions).
Proof.
  induction actions as [|a actions IH]; simpl; [lra|].
  pose proof (contribution_nonneg a). lra.
Qed.

Lemma fold_yield_impact (actions : list RecommendationAction) (acc : Q) :
  fold_left yield_impact_step actions acc ==
  acc + Spec.total (map Spec.contribution actions).
Proof.
  revert acc. induction actions as [|a actions IH]; intros acc; simpl.
  - lra.
  - rewrite IH, yield_impact_step_contribution. lra.
Qed.

(** C7. For every list of actions the estimated yield impact is the sum of
    the per-action contributions capped at 0.40, and lies in [0, 0.40]. *)
Theorem yield_impact_saturates
    (actions : list RecommendationAction) (zone_data : gmap string Q) :
  _estimate_yield_impact actions zone_data ==
    Qmin (Spec.total (map Spec.contribution actions)) 0.40 /\
  0 <= _estimate_yield_impact actions zone_data <= 0.40.
Proof.
  unfold _estimate_yield_impact.
  pose proof (total_contribution_nonneg actions) as Hnn.
  pose proof (fold_yield_impact actions 0) as Hf.
  set (t := fold_left yield_impact_step actions 0) in *.
  assert (Ht : t == Spec.total (map Spec.contribution actions)) by (rewrite Hf; lra).
  split.
  - rewrite min_Qmin. by rewrite Ht.
  - split; [|apply min_le_r].
    unfold min_. destruct (Qlt_bool_spec 0.40 t); lra.
Qed.

(** *** Return on investment *)

Lemma np_mean_cons (x : Q) (xs : list Q) :
  np_mean (x :: xs) =
  Some (Py.sum (x :: xs) / inject_Z (Z.of_nat (length (x :: xs)))).
Proof. reflexivity. Qed.

(** C6. For a non-empty list of zone recommendations: with a positive total
    cost the expected ROI is the specified percentage floored at 0, hence
    non-negative; with a zero total cost it is 0. *)
Theorem estimate_roi_floored
    (zone_recommendations : list ZoneRecommendation) (total_cost : Q) :
  zone_recommendations <> [] ->
  (0 < total_cost ->
   exists roi,
     _estimate_roi zone_recommendations total_cost = Some roi /\
     roi == Spec.roi_pct zone_recommendations total_cost /\
     0 <= roi) /\
  (total_cost == 0 -> _estimate_roi zone_recommendations total_cost = Some 0).
Proof.
  intros Hne. unfold _estimate_roi. split.
  - intros Hpos.
    destruct (Qeq_bool total_cost 0) eqn:E.
    { apply Qeq_bool_iff in E. lra. }
    destruct zone_recommendations as [|z zs]; [done|].
    cbn [map]. rewrite np_mean_cons. cbn [mbind option_bind].
    eexists. split; [reflexivity|].
    split; [|rewrite max_Qmax; apply Q.le_max_r].
    unfold Spec.roi_pct. rewrite max_Qmax, Q.max_comm.
    cbn [map length]. rewrite !sum_total, !length_map. reflexivity.
  - intros Hz. apply Qeq_bool_iff in Hz. by rewrite Hz.
Qed.

Lemma estimate_roi_floored_witness :
  [zone_example] <> [] /\
  (exists roi,
     _estimate_roi [zone_example] 1000 = Some roi /\
     roi == Spec.roi_pct [zone_example] 1000 /\
     0 <= roi) /\
  _estimate_roi [zone_example] 0 = Some 0.
Proof.
  assert (H : [zone_example] <> []) by discriminate.
  split; [exact H|]. split.
  - apply (estimate_roi_floored [zone_example] 1000 H). reflexivity.
  - apply (estimate_roi_floored [zone_example] 0 H). reflexivity.
Defined.

(** *** Irrigation *)

Lemma stress_water_stress (zone_data weather_forecast : gmap string Q) :
  exists stress,
    _calculate_stress_indicators zone_data weather_forecast = Some stress /\
    stress !! "water_stress" =
      Some (Py.min_
              (Py.max_ 0 ((25 - Py.get zone_data "soil_moisture" 25) / 25) *
               Py.max_ 0 ((20 - Py.get weather_forecast "precipitation_7day" 10) / 20))
              1).
Proof.
  unfold _calculate_stress_indicators.
  assert (Hn : nutrient_thresholds !! "nitrogen" =
    Some {| severe_deficiency := 25; deficiency := 35; sufficient := 45; excess := 75 |})
    by reflexivity.
  rewrite Hn. cbn [mbind option_bind].
  eexists. split; [reflexivity|].
  rewrite !lookup_insert_ne by done. by rewrite lookup_insert_eq.
Qed.

Lemma irrigation_dry_vegetative
    (zone_data weather_forecast : gmap string Q) (soil_moisture precip zone_id : Q) :
  zone_data !! "soil_moisture" = Some soil_moisture ->
  soil_moisture == 10 ->
  zone_data !! "zone_id" = Some zone_id ->
  weather_forecast !! "precipitation_7day" = Some precip ->
  precip == 0 ->
  exists stress water_stress action rate,
    _calculate_stress_indicators zone_data weather_forecast = Some stress /\
    stress !! "water_stress" = Some water_stress /\
    water_stress == 0.6 /\
    _generate_irrigation_recommendations
      zone_data "Vegetative_Growth" weather_forecast stress = Some [action] /\
    action_type action = IRRIGATION /\
    priority action = "medium"%string /\
    timing action = "within_week"%string /\
    application_rate action = Some rate /\
    rate == 41.3.
Proof.
  intros Hsm Esm Hid Hp Ep.
  destruct (stress_water_stress zone_data weather_forecast) as (stress & Hs & Hw).
  rewrite (get_Some _ _ _ _ Hsm), (get_Some _ _ _ _ Hp) in Hw.
  set (ws := Py.min_ _ _) in Hw.
  assert (Ews : ws == 0.6).
  { unfold ws. rewrite Esm, Ep. reflexivity. }
  assert (Enet :
    Py.max_ 0 (water_requirement_mm (growth_stage_requirements VEGETATIVE_GROWTH) *
               (1 + ws * 0.3) - precip) == 41.3).
  { rewrite Ews, Ep. reflexivity. }
  assert (Hb1 :
    Py.Qlt_bool 5
      (Py.max_ 0 (water_requirement_mm (growth_stage_requirements VEGETATIVE_GROWTH) *
                  (1 + ws * 0.3) - precip)) = true)
    by (rewrite Enet; reflexivity).
  assert (Hb2 : Py.Qlt_bool 0.7 ws = false) by (rewrite Ews; reflexivity).
  eexists stress, ws, _, _.
  split; [exact Hs|]. split; [exact Hw|]. split; [exact Ews|].
  unfold _generate_irrigation_recommendations.
  change (GrowthStage_of_value "Vegetative_Growth") with (Some VEGETATIVE_GROWTH).
  cbv zeta.
  rewrite (get_Some _ _ _ _ Hw), (get_Some _ _ _ _ Hp), Hb1, Hb2, Hid.
  cbn [mbind option_bind app].
  split; [reflexivity|]. cbn.
  repeat (split; [reflexivity|]). exact Enet.
Qed.

(** C4, as stated, fails: on the zone [zone_dry] in "Vegetative_Growth" with
    the forecast [forecast_no_rain] there is no run in which water_stress is
    1.0, the action has priority "high" and the net requirement is 45.5. *)
Lemma irrigation_example_not_high :
  ~ exists stress water_stress action rate,
      _calculate_stress_indicators zone_dry forecast_no_rain = Some stress /\
      stress !! "water_stress" = Some water_stress /\
      water_stress == 1 /\
      _generate_irrigation_recommendations
        zone_dry "Vegetative_Growth" forecast_no_rain stress = Some [action] /\
      priority action = "high"%string /\
      application_rate action = Some rate /\
      rate == 45.5.
Proof.
  intros (stress & water_stress & action & rate & Hs & Hw & Hone & _).
  vm_compute in Hs. injection Hs as <-.
  vm_compute in Hw. injection Hw as <-.
  vm_compute in Hone. discriminate.
Qed.

(** C4, amended. For a zone in "Vegetative_Growth" with soil_moisture 10 and
    a forecast with precipitation_7day 0, water_stress is 0.6, which does
    not exceed 0.7; exactly one irrigation action is emitted, with priority
    "medium" and timing "within_week", and its net requirement is
    35 * (1 + 0.6 * 0.3) - 0 = 41.3 mm. *)
Theorem irrigation_example_medium
    (zone_data weather_forecast : gmap string Q) (soil_moisture precip zone_id : Q) :
  zone_data !! "soil_moisture" = Some soil_moisture ->
  soil_moisture == 10 ->
  zone_data !! "zone_id" = Some zone_id ->
  weather_forecast !! "precipitation_7day" = Some precip ->
  precip == 0 ->
  exists stress water_stress action rate,
    _calculate_stress_indicators zone_data weather_forecast = Some stress /\
    stress !! "water_stress" = Some water_stress /\
    water_stress == 0.6 /\
    ~ 0.7 < water_stress /\
    _generate_irrigation_recommendations
      zone_data "Vegetative_Growth" weather_forecast stress = Some [action] /\
    action_type action = IRRIGATION /\
    priority action = "medium"%string /\
    timing action = "within_week"%string /\
    application_rate action = Some rate /\
    rate == 41.3 /\
    rate == 35 * (1 + 0.6 * 0.3) - 0.
Proof.
  intros Hsm Esm Hid Hp Ep.
  destruct (irrigation_dry_vegetative _ _ _ _ _ Hsm Esm Hid Hp Ep)
    as (stress & ws & action & rate & H1 & H2 & H3 & H4 & H5 & H6 & H7 & H8 & H9).
  exists stress, ws, action, rate.
  repeat (split; [assumption|]).
  split; [rewrite H3; lra|].
  repeat (split; [assumption|]).
  rewrite H9. reflexivity.
Qed.

Lemma irrigation_example_medium_witness :
  exists stress water_stress action rate,
    _calculate_stress_indicators zone_dry forecast_no_rain = Some stress /\
    stress !! "water_stress" = Some water_stress /\
    water_stress == 0.6 /\
    ~ 0.7 < water_stress /\
    _generate_irrigation_recommendations
      zone_dry "Vegetative_Growth" forecast_no_rain stress = Some [action] /\
    action_type action = IRRIGATION /\
    priority action = "medium"%string /\
    timing action = "within_week"%string /\
    application_rate action = Some rate /\
    rate == 41.3 /\
    rate == 35 * (1 + 0.6 * 0.3) - 0.
Proof.
  apply (irrigation_example_medium zone_dry forecast_no_rain 10 0 1);
    reflexivity.
Defined.

End EngineFacts.

(** ** Properties of the task manager *)

Module TasksFacts.
Import Run Tasks Spec TaskExamples.

(** *** Sorting *)

Lemma insert_by_perm {A} (le : A -> A -> bool) (x : A) (l : list A) :
  Py.insert_by le x l ≡ₚ x :: l.
Proof.
  induction l as [|y l IH]; simpl; [done|].
  destruct (le x y); [done|]. rewrite IH. apply Permutation_swap.
Qed.

Lemma sort_by_perm {A} (le : A -> A -> bool) (l : list A) :
  Py.sort_by le l ≡ₚ l.
Proof.
  unfold Py.sort_by. induction l as [|x l IH]; simpl; [done|].
  by rewrite insert_by_perm, IH.
Qed.

(** *** Lists of rows *)

Lemma filter_all {A} (P : A -> Prop) `{!forall x, Decision (P x)} (l : list A) :
  (forall x, P x) -> filter P l = l.
Proof.
  intros HP. induction l as [|x l IH]; [done|].
  rewrite filter_cons_True by done. by rewrite IH.
Qed.

Lemma elem_of_map {A B} (f : A -> B) (l : list A) (y : B) :
  y ∈ map f l <-> exists x, y = f x /\ x ∈ l.
Proof.
  rewrite list_elem_of_In, in_map_iff. split.
  - intros (x & <- & H). exists x. by rewrite list_elem_of_In.
  - intros (x & -> & H). exists x. by rewrite <- list_elem_of_In.
Qed.

(** *** Runs of the statements on the store *)

Lemma get_tasks_for_farmer_run field_ids sf cf pf (w : World) :
  exists tasks,
    get_tasks_for_farmer field_ids sf cf pf w = Ok tasks w /\
    tasks ≡ₚ
      filter (λ t, in_filter pf (priority t))
        (filter (λ t, in_filter cf (category t))
           (filter (λ t, in_filter sf (status t))
              (filter (λ t, field_id t ∈ field_ids) (farmer_tasks w)))).
Proof.
  eexists. split; [reflexivity|]. apply sort_by_perm.
Qed.

Lemma bind_ok {S A B} (m : Run.M S A) (f : A -> Run.M S B) (s s' : S) (a : A) :
  m s = Ok a s' -> (m ≫= f) s = f a s'.
Proof. intros H. unfold mbind, M_bind. by rewrite H. Qed.

Lemma bind_raised {S A B} (m : Run.M S A) (f : A -> Run.M S B) (s s' : S)
    (e : exn) :
  m s = Raise e s' -> (m ≫= f) s = Raise e s'.
Proof. intros H. unfold mbind, M_bind. by rewrite H. Qed.

Lemma same_store_refl (w : World) : same_store w w.
Proof. by repeat split. Qed.

(** *** The write lock *)

(** The log cannot be written while the caller holds the write lock. *)
Lemma log_task_action_locked task_id action details (w : World) :
  exists w',
    _log_task_action true task_id action details w = Raise OperationalError w' /\
    same_store w w'.
Proof. eexists. split; [reflexivity|]. by repeat split. Qed.

Lemma create_task_raises (task : FarmerTask) (w : World) :
  exists w',
    create_task task w =
      Raise (if bool_decide (id task ∈ map id (farmer_tasks w))
             then IntegrityError else OperationalError) w' /\
    same_store w w'.
Proof.
  unfold create_task. unfold mbind at 1, M_bind at 1, gets.
  destruct (bool_decide (id task ∈ map id (farmer_tasks w))).
  - exists w. split; [reflexivity|]. apply same_store_refl.
  - destruct (log_task_action_locked (id task) "created"
                (Created (auto_generated task)) w) as (w' & Hlog & Hsame).
    exists w'. split; [|exact Hsame]. by apply bind_raised.
Qed.

Lemma update_task_status_raises task_id new_status notes (w : World) :
  exists w',
    update_task_status task_id new_status notes w = Raise OperationalError w' /\
    same_store w w'.
Proof.
  destruct (log_task_action_locked task_id "status_changed"
              (StatusChanged (TaskStatus_value new_status) notes) w)
    as (w' & Hlog & Hsame).
  exists w'. split; [|exact Hsame].
  unfold update_task_status.
  unfold mbind at 1, M_bind at 1, datetime_now, gets.
  unfold mbind at 1, M_bind at 1.
  by apply bind_raised.
Qed.

(** The loop of [get_overdue_tasks]: it is left at the first late task. *)
Lemma overdue_loop (tasks acc : list FarmerTask) (now : Z) (w : World) :
  (Forall (λ t, ~ (due_date t < now)%Z) tasks ->
   for_fold tasks acc (λ overdue_tasks task,
     if (due_date task <? now)%Z then
       update_task_status (id task) OVERDUE None ≫= λ _,
       let task := set_status OVERDUE task in
       mret (overdue_tasks ++ [task])
     else mret overdue_tasks) w = Ok acc w) /\
  (Exists (λ t, (due_date t < now)%Z) tasks ->
   exists w',
     for_fold tasks acc (λ overdue_tasks task,
       if (due_date task <? now)%Z then
         update_task_status (id task) OVERDUE None ≫= λ _,
         let task := set_status OVERDUE task in
         mret (overdue_tasks ++ [task])
       else mret overdue_tasks) w = Raise OperationalError w' /\
     same_store w w').
Proof.
  induction tasks as [|task tasks [IH1 IH2]]; split.
  - reflexivity.
  - intros H. by apply Exists_nil in H.
  - intros [Hnot Hall]%Forall_cons. cbn [for_fold].
    rewrite (bind_ok _ _ w w acc).
    + by apply IH1.
    + destruct (Z.ltb_spec (due_date task) now); [lia|reflexivity].
  - intros Hex. cbn [for_fold].
    destruct (Z.ltb_spec (due_date task) now) as [Hlate|Hnot].
    + destruct (update_task_status_raises (id task) OVERDUE None w)
        as (w' & Hrun & Hsame).
      exists w'. split; [|exact Hsame].
      apply bind_raised. by apply bind_raised.
    + apply Exists_cons in Hex as [Hlate|Hex]; [lia|].
      destruct (IH2 Hex) as (w' & Hrun & Hsame).
      exists w'. split; [|exact Hsame].
      by rewrite (bind_ok _ _ w w acc).
Qed.

Lemma get_overdue_tasks_none (field_ids : list string) (w : World) :
  (forall t, ~ late_active field_ids w t) ->
  get_overdue_tasks field_ids w = Ok [] w.
Proof.
  intros Hnone.
  destruct (get_tasks_for_farmer_run field_ids (Some [PENDING; IN_PROGRESS])
              None None w) as (tasks & Hget & Hperm).
  rewrite !(filter_all (λ t, in_filter None _)) in Hperm by done.
  unfold get_overdue_tasks. rewrite (bind_ok _ _ w w tasks Hget).
  rewrite (bind_ok _ _ w w (clock w)) by reflexivity.
  cbv zeta. apply overdue_loop. apply Forall_forall. intros t Ht Hlate.
  rewrite Hperm in Ht.
  apply list_elem_of_filter in Ht as [Hst Ht].
  apply list_elem_of_filter in Ht as [Hfield Ht].
  by apply (Hnone t).
Qed.

Lemma get_overdue_tasks_late (field_ids : list string) (w : World)
    (t : FarmerTask) :
  late_active field_ids w t ->
  exists w',
    get_overdue_tasks field_ids w = Raise OperationalError w' /\
    same_store w w'.
Proof.
  intros (Ht & Hfield & Hst & Hlate).
  destruct (get_tasks_for_farmer_run field_ids (Some [PENDING; IN_PROGRESS])
              None None w) as (tasks & Hget & Hperm).
  rewrite !(filter_all (λ t, in_filter None _)) in Hperm by done.
  destruct (proj2 (overdue_loop tasks [] (clock w) w)) as (w' & Hrun & Hsame).
  { apply Exists_exists. exists t. split; [|exact Hlate].
    rewrite Hperm. apply list_elem_of_filter. split; [exact Hst|].
    by apply list_elem_of_filter. }
  exists w'. split; [|exact Hsame].
  unfold get_overdue_tasks. rewrite (bind_ok _ _ w w tasks Hget).
  rewrite (bind_ok _ _ w w (clock w)) by reflexivity.
  exact Hrun.
Qed.

(** Whether it returns or not, [get_overdue_tasks] leaves the tables as
    they are. *)
Lemma get_overdue_tasks_same_store (field_ids : list string) (w : World) :
  same_store w (final (get_overdue_tasks field_ids w)).
Proof.
  destruct (get_tasks_for_farmer_run field_ids (Some [PENDING; IN_PROGRESS])
              None None w) as (tasks & Hget & _).
  assert (Hrun : get_overdue_tasks field_ids w =
                 for_fold tasks [] (λ overdue_tasks task,
                   if (due_date task <? clock w)%Z then
                     update_task_status (id task) OVERDUE None ≫= λ _,
                     let task := set_status OVERDUE task in
                     mret (overdue_tasks ++ [task])
                   else mret overdue_tasks) w).
  { unfold get_overdue_tasks. rewrite (bind_ok _ _ w w tasks Hget).
    by rewrite (bind_ok _ _ w w (clock w)) by reflexivity. }
  rewrite Hrun.
  destruct (decide (Exists (λ t, (due_date t < clock w)%Z) tasks)) as [Hex|Hnot].
  - destruct (proj2 (overdue_loop tasks [] (clock w) w) Hex) as (w' & -> & Hsame).
    exact Hsame.
  - rewrite (proj1 (overdue_loop tasks [] (clock w) w)).
    + apply same_store_refl.
    + apply Forall_forall. intros t Ht Hlate. apply Hnot.
      apply Exists_exists. eauto.
Qed.

(** *** The state machine *)

(** C2. The status of a stored task changes only along the state machine,
    and a completed or cancelled task keeps its status, because no status
    change is ever stored: [update_task_status] does not check the
    transition, but its UPDATE is never committed.  Whatever the id, the
    requested status and the notes, the call raises [OperationalError]
    (database is locked) and leaves every row as it was; so does
    [get_overdue_tasks], the other writer of the status, whether it returns
    or not. *)
Theorem status_follows_state_machine
    (task_id : string) (new_status : TaskStatus) (notes : option string)
    (field_ids : list string) (w : World) :
  (exists w',
     update_task_status task_id new_status notes w = Raise OperationalError w' /\
     farmer_tasks w' = farmer_tasks w) /\
  farmer_tasks (final (get_overdue_tasks field_ids w)) = farmer_tasks w /\
  forall w',
    w' = final (update_task_status task_id new_status notes w) \/
    w' = final (get_overdue_tasks field_ids w) ->
    Forall2 (λ t t',
               id t' = id t /\
               (status t' = status t \/ transition (status t) (status t')) /\
               (terminal (status t) -> status t' = status t))
            (farmer_tasks w) (farmer_tasks w').
Proof.
  destruct (update_task_status_raises task_id new_status notes w)
    as (w1 & Hrun & Hrows & _).
  destruct (get_overdue_tasks_same_store field_ids w) as (Hrows2 & _).
  split; [by exists w1|]. split; [exact Hrows2|].
  intros w' Hw'.
  assert (Hsame : farmer_tasks w' = farmer_tasks w).
  { destruct Hw' as [->| ->]; [by rewrite Hrun|exact Hrows2]. }
  rewrite Hsame. apply Forall2_same_length_lookup. split; [done|].
  intros i t t' Ht Ht'. assert (t' = t) as -> by congruence. auto.
Qed.

(** *** Overdue and upcoming tasks *)

(** C3, as stated, fails for [get_upcoming_tasks]: on a store whose only
    task is pending and past due, the call returns and the stored status is
    not overdue. *)
Lemma upcoming_query_keeps_pending :
  ~ (forall upcoming w',
       get_upcoming_tasks ["f1"] 7 world_late = Ok upcoming w' ->
       forall t, t ∈ farmer_tasks w' -> (due_date t < clock w')%Z ->
                 status t = OVERDUE).
Proof.
  intros H.
  specialize (H _ _ eq_refl (task_of "a" PENDING LOW)).
  assert (E : status (task_of "a" PENDING LOW) = OVERDUE).
  { apply H; [apply list_elem_of_here | reflexivity]. }
  discriminate E.
Qed.

(** C3, amended. Of the two queries only [get_overdue_tasks] re-checks
    due_date < now.  [get_upcoming_tasks] makes no such check and no update:
    it returns pending and in_progress tasks of the fields as they are
    stored, those past due included, and leaves the store unchanged.  When
    no pending or in_progress task of the fields is past due,
    [get_overdue_tasks] returns the empty list and leaves the store
    unchanged. *)
Theorem overdue_recheck_only_in_overdue_query
    (field_ids : list string) (w : World) :
  (forall days_ahead,
     exists upcoming,
       get_upcoming_tasks field_ids days_ahead w = Ok upcoming w /\
       (forall t, t ∈ upcoming ->
                  t ∈ farmer_tasks w /\ status t ∈ [PENDING; IN_PROGRESS]) /\
       (forall t, late_active field_ids w t -> (0 <= days_ahead)%Z ->
                  t ∈ upcoming)) /\
  ((forall t, ~ late_active field_ids w t) ->
   get_overdue_tasks field_ids w = Ok [] w).
Proof.
  split; [|apply get_overdue_tasks_none].
  intros days_ahead.
  destruct (get_tasks_for_farmer_run field_ids (Some [PENDING; IN_PROGRESS])
              None None w) as (tasks & Hget & Hperm).
  rewrite !(filter_all (λ t, in_filter None _)) in Hperm by done.
  eexists. split.
  { unfold get_upcoming_tasks. rewrite (bind_ok _ _ w w tasks Hget).
    reflexivity. }
  split.
  - intros t. rewrite (sort_by_perm upcoming_key_le).
    rewrite list_elem_of_filter, Hperm, !list_elem_of_filter. tauto.
  - intros t (Ht & Hfield & Hst & Hlate) Hdays.
    rewrite (sort_by_perm upcoming_key_le).
    rewrite list_elem_of_filter, Hperm, !list_elem_of_filter.
    split; [|done]. unfold days. lia.
Qed.

Lemma overdue_recheck_only_in_overdue_query_witness :
  (forall days_ahead,
     exists upcoming,
       get_upcoming_tasks ["f1"] days_ahead world_ahead =
         Ok upcoming world_ahead /\
       (forall t, t ∈ upcoming ->
                  t ∈ farmer_tasks world_ahead /\
                  status t ∈ [PENDING; IN_PROGRESS]) /\
       (forall t, late_active ["f1"] world_ahead t -> (0 <= days_ahead)%Z ->
                  t ∈ upcoming)) /\
  get_overdue_tasks ["f1"] world_ahead = Ok [] world_ahead.
Proof.
  destruct (overdue_recheck_only_in_overdue_query ["f1"] world_ahead)
    as [Hup Hover].
  split; [exact Hup|]. apply Hover.
  intros t (Ht & _ & _ & Hlate).
  apply list_elem_of_singleton in Ht as ->. vm_compute in Hlate. discriminate.
Defined.

(** *** The summary *)

(** C10. The summary of fields that hold a late pending or in_progress
    task is not produced: [get_task_summary] fetches the tasks and then
    calls [get_overdue_tasks], whose status update raises
    [OperationalError] (database is locked); no count is returned and the
    task stays as it is stored. *)
Theorem summary_fails_on_late_task
    (field_ids : list string) (w : World) (t : FarmerTask) :
  late_active field_ids w t ->
  exists all_tasks w',
    get_tasks_for_farmer field_ids None None None w = Ok all_tasks w /\
    t ∈ all_tasks /\
    get_task_summary field_ids w = Raise OperationalError w' /\
    farmer_tasks w' = farmer_tasks w.
Proof.
  intros Hlate.
  destruct (get_tasks_for_farmer_run field_ids None None None w)
    as (all_tasks & Hget & Hperm).
  rewrite !(filter_all (λ t, in_filter None _)) in Hperm by done.
  destruct (get_overdue_tasks_late field_ids w t Hlate)
    as (w' & Hrun & Hrows & _).
  exists all_tasks, w'. split; [exact Hget|]. split.
  { rewrite Hperm. destruct Hlate as (Ht & Hfield & _).
    by apply list_elem_of_filter. }
  split; [|exact Hrows].
  unfold get_task_summary. rewrite (bind_ok _ _ w w all_tasks Hget).
  by apply bind_raised.
Qed.

Lemma summary_fails_on_late_task_witness :
  exists all_tasks w',
    get_tasks_for_farmer ["f1"] None None None world_late =
      Ok all_tasks world_late /\
    task_of "a" PENDING LOW ∈ all_tasks /\
    get_task_summary ["f1"] world_late = Raise OperationalError w' /\
    farmer_tasks w' = farmer_tasks world_late.
Proof.
  apply (summary_fails_on_late_task ["f1"] world_late (task_of "a" PENDING LOW)).
  split; [apply list_elem_of_here|]. split; [apply list_elem_of_here|].
  split; [apply list_elem_of_here|]. reflexivity.
Defined.

(** *** Tasks from recommendations *)





(** *** Weather alerts *)

(** C9. On the forecast of the demonstration (wind 45, minimum temperature
    1, precipitation 60) and an empty store, no weather-alert task is
    created: the first check builds the high-wind task, and storing it
    raises [OperationalError] (database is locked); the frost and the rain
    checks are not reached, and the tables stay empty. *)
Theorem weather_alerts_not_created :
  exists w',
    generate_weather_alerts "f1" forecast_storm world_empty =
      Raise OperationalError w' /\
    farmer_tasks w' = [] /\
    task_history w' = [].
Proof. eexists. split; [vm_compute; reflexivity|]. by split. Qed.

End TasksFacts.

(** ** Properties of the alert system *)

Module AlertsFacts.
Import Run Tasks TaskExamples Alerts AlertExamples.

(** The check that gates the urgent, reminder and weather_suitable alerts:
    once an alert is logged for a task and a type, [_alert_sent] finds it. *)
Lemma alert_logged_then_found (task_id alert_type recipient : string) (s : System) :
  clock (task_manager s) ∉ map a_id (sent_alerts (task_manager s)) ->
  exists s',
    _log_alert_sent task_id alert_type recipient s = Ok tt s' /\
    _alert_sent task_id alert_type s' = Ok true s'.
Proof.
  intros Hid. unfold _log_alert_sent, on_task_manager, lift.
  unfold mbind, M_bind, datetime_now, gets, modify.
  rewrite bool_decide_eq_false_2 by exact Hid.
  eexists. split; [reflexivity|].
  unfold _alert_sent, on_task_manager, lift, mbind, M_bind, gets, mret, M_ret.
  cbn [task_manager set_task_manager sent_alerts set_sent_alerts].
  f_equal. apply bool_decide_eq_true.
  rewrite filter_app, length_app.
  rewrite (filter_cons_True _ _ []) by done. cbn. lia.
Qed.

(** The urgent alert of a task is dispatched by the first scan and not by
    the second one. *)
Lemma urgent_alert_not_repeated :
  exists counts1 s1 counts2 s2,
    check_and_send_alerts ["f1"] system_urgent = Ok counts1 s1 /\
    check_and_send_alerts ["f1"] (later 2000 s1) = Ok counts2 s2 /\
    urgent counts1 = 1%nat /\
    urgent counts2 = 0%nat /\
    dispatched s2 = [("b", "urgent")].
Proof.
  eexists _, _, _, _.
  split; [vm_compute; reflexivity|].
  split; [vm_compute; reflexivity|].
  repeat split.
Qed.

(** C1. The overdue alert has no such gate: on a store whose only task "a"
    is pending and past due, a scan at second 1000 and a scan at second 2000
    both return, each dispatches an "overdue" alert for "a", although the
    first one is logged in [sent_alerts]. *)
Theorem overdue_alert_dispatched_again :
  exists counts1 s1 counts2 s2,
    check_and_send_alerts ["f1"] system_late = Ok counts1 s1 /\
    map (λ r, (a_task_id r, a_alert_type r)) (sent_alerts (task_manager s1)) =
      [("a", "overdue")] /\
    check_and_send_alerts ["f1"] (later 2000 s1) = Ok counts2 s2 /\
    overdue counts1 = 1%nat /\
    overdue counts2 = 1%nat /\
    dispatched s2 = [("a", "overdue"); ("a", "overdue")].
Proof.
  eexists _, _, _, _.
  split; [vm_compute; reflexivity|].
  split; [reflexivity|].
  split; [vm_compute; reflexivity|].
  repeat split.
Qed.

End AlertsFacts.

(** ** Further properties of the recommendation engine *)

Module EngineMore.
Import Py PyFacts Engine EngineField EngineExamples.
Local Open Scope Q_scope.

(** *** Stress indicators *)

Lemma min_unit (x : Q) : 0 <= x -> 0 <= min_ x 1 <= 1.
Proof.
  intros Hx. split; [|apply min_le_r].
  unfold min_. destruct (Qlt_bool_spec 1 x); lra.
Qed.

Lemma max_0_nonneg (x : Q) : 0 <= max_ 0 x.
Proof. apply max_ge_l. Qed.

(** X1. Whatever the zone and the forecast, [_calculate_stress_indicators]
    returns the three indicators water_stress, temperature_stress and
    nutrient_stress and nothing else, each within [0, 1]. *)
Theorem stress_indicators_unit_interval
    (zone_data weather_forecast : gmap string Q) :
  exists stress,
    _calculate_stress_indicators zone_data weather_forecast = Some stress /\
    dom stress =
      ({["water_stress"; "temperature_stress"; "nutrient_stress"]} : gset string) /\
    forall name value, stress !! name = Some value -> 0 <= value <= 1.
Proof.
  unfold _calculate_stress_indicators.
  assert (Hn : nutrient_thresholds !! "nitrogen" =
    Some {| severe_deficiency := 25; deficiency := 35; sufficient := 45; excess := 75 |})
    by reflexivity.
  rewrite Hn. cbn [mbind option_bind sufficient].
  eexists. split; [reflexivity|]. split.
  - rewrite !dom_insert_L, dom_empty_L. set_solver.
  - intros name value.
    rewrite !lookup_insert.
    repeat (case_decide; [intros [= <-]; apply min_unit|]).
    + apply max_0_nonneg.
    + destruct (Qlt_bool 30 _); [apply max_0_nonneg|lra].
    + apply Qmult_le_0_compat; apply max_0_nonneg.
    + by rewrite lookup_empty.
Qed.

(** *** Zone health *)

Lemma zone_health_of (zone_data : gmap string Q) :
  _assess_zone_health zone_data =
    let ndvi := Py.get zone_data "NDVI_mean" 0.5 in
    let ndre := Py.get zone_data "NDRE_mean" 0.3 in
    if Qlt_bool 0.7 ndvi && Qlt_bool 0.4 ndre then "excellent"%string
    else if Qlt_bool 0.5 ndvi && Qlt_bool 0.3 ndre then "good"%string
    else if Qlt_bool 0.3 ndvi && Qlt_bool 0.2 ndre then "fair"%string
    else "poor"%string.
Proof. reflexivity. Qed.

(** X2. The health label is monotone in the two vegetation indices: a zone
    whose NDVI and NDRE (0.5 and 0.3 where absent) are both at least those
    of another zone is never labelled worse, in the order poor, fair, good,
    excellent. *)
Theorem zone_health_monotone (zone_data1 zone_data2 : gmap string Q) :
  Py.get zone_data1 "NDVI_mean" 0.5 <= Py.get zone_data2 "NDVI_mean" 0.5 ->
  Py.get zone_data1 "NDRE_mean" 0.3 <= Py.get zone_data2 "NDRE_mean" 0.3 ->
  (Spec.health_rank (_assess_zone_health zone_data1) <=
   Spec.health_rank (_assess_zone_health zone_data2))%nat.
Proof.
  intros Hv He. rewrite !zone_health_of. cbv zeta.
  set (v1 := Py.get zone_data1 "NDVI_mean" 0.5) in *.
  set (e1 := Py.get zone_data1 "NDRE_mean" 0.3) in *.
  set (v2 := Py.get zone_data2 "NDVI_mean" 0.5) in *.
  set (e2 := Py.get zone_data2 "NDRE_mean" 0.3) in *.
  destruct (Qlt_bool_spec 0.7 v1), (Qlt_bool_spec 0.4 e1),
    (Qlt_bool_spec 0.5 v1), (Qlt_bool_spec 0.3 e1),
    (Qlt_bool_spec 0.3 v1), (Qlt_bool_spec 0.2 e1); cbn [andb];
  destruct (Qlt_bool_spec 0.7 v2), (Qlt_bool_spec 0.4 e2),
    (Qlt_bool_spec 0.5 v2), (Qlt_bool_spec 0.3 e2),
    (Qlt_bool_spec 0.3 v2), (Qlt_bool_spec 0.2 e2); cbn [andb];
  try (vm_compute; lia); exfalso; lra.
Qed.

Lemma zone_health_monotone_witness :
  (Spec.health_rank (_assess_zone_health zone_sparse) <=
   Spec.health_rank (_assess_zone_health zone_lush))%nat.
Proof.
  apply (zone_health_monotone zone_sparse zone_lush); vm_compute; discriminate.
Defined.

(** *** Irrigation *)

Lemma water_stress_rain (zone_data weather_forecast : gmap string Q) (precip : Q) :
  weather_forecast !! "precipitation_7day" = Some precip ->
  20 <= precip ->
  exists stress water_stress,
    _calculate_stress_indicators zone_data weather_forecast = Some stress /\
    stress !! "water_stress" = Some water_stress /\
    water_stress == 0.
Proof.
  intros Hp Hrain.
  destruct (EngineFacts.stress_water_stress zone_data weather_forecast)
    as (stress & Hs & Hw).
  rewrite (get_Some _ _ _ _ Hp) in Hw.
  eexists stress, _. split; [exact Hs|]. split; [exact Hw|].
  assert (H0 : max_ 0 ((20 - precip) / 20) == 0).
  { unfold max_. destruct (Qlt_bool_spec 0 ((20 - precip) / 20)) as [H|H];
      [|reflexivity].
    exfalso. assert ((20 - precip) / 20 <= 0); [|lra].
    apply Qle_shift_div_r; lra. }
  rewrite H0. rewrite Qmult_0_r. reflexivity.
Qed.

(** X3. When the forecast announces at least 45 mm of rain over the week,
    the irrigation generator, called with the stress indicators that
    [_calculate_stress_indicators] computes for the same zone and forecast
    (as [_generate_zone_recommendations] calls it), recommends no
    irrigation, whatever the zone and the growth stage (known or not): the
    water stress so computed is 0 and the largest base requirement, 50 mm,
    leaves at most 5 mm to supply.  Indicators given from elsewhere are not
    covered. *)
Theorem no_irrigation_when_rain_covers
    (zone_data weather_forecast : gmap string Q) (growth_stage : string)
    (precip : Q) :
  weather_forecast !! "precipitation_7day" = Some precip ->
  45 <= precip ->
  exists stress,
    _calculate_stress_indicators zone_data weather_forecast = Some stress /\
    _generate_irrigation_recommendations
      zone_data growth_stage weather_forecast stress = Some [].
Proof.
  intros Hp Hrain.
  destruct (water_stress_rain zone_data weather_forecast precip Hp)
    as (stress & ws & Hs & Hw & Hws); [lra|].
  exists stress. split; [exact Hs|].
  unfold _generate_irrigation_recommendations. cbv zeta.
  rewrite (get_Some _ _ _ _ Hw), (get_Some _ _ _ _ Hp).
  set (req := water_requirement_mm _).
  assert (Hreq : req <= 50).
  { unfold req.
    destruct (GrowthStage_of_value growth_stage) as [[]|]; cbn; lra. }
  assert (Hnet : Qlt_bool 5 (max_ 0 (req * (1 + ws * 0.3) - precip)) = false).
  { apply Qlt_bool_false. unfold max_.
    destruct (Qlt_bool_spec 0 (req * (1 + ws * 0.3) - precip)); [|lra].
    rewrite Hws. lra. }
  by rewrite Hnet.
Qed.

Lemma no_irrigation_when_rain_covers_witness :
  exists stress,
    _calculate_stress_indicators zone_dry forecast_wet = Some stress /\
    _generate_irrigation_recommendations
      zone_dry "Tuber_Bulking" forecast_wet stress = Some [].
Proof.
  apply (no_irrigation_when_rain_covers zone_dry forecast_wet "Tuber_Bulking" 45);
    [reflexivity | lra].
Defined.

(** X4. A growth stage that is no value of [GrowthStage] is no error: the
    irrigation generator answers as for "Vegetative_Growth", in every field
    of the action but the text of its expected benefit, which quotes the
    stage. *)
Theorem irrigation_unknown_stage
    (zone_data weather_forecast stress : gmap string Q) (growth_stage : string) :
  GrowthStage_of_value growth_stage = None ->
  map Spec.action_core
    <$> _generate_irrigation_recommendations
          zone_data growth_stage weather_forecast stress =
  map Spec.action_core
    <$> _generate_irrigation_recommendations
          zone_data "Vegetative_Growth" weather_forecast stress.
Proof.
  intros Hstage. unfold _generate_irrigation_recommendations.
  rewrite Hstage.
  change (GrowthStage_of_value "Vegetative_Growth") with (Some VEGETATIVE_GROWTH).
  cbv zeta. destruct (Qlt_bool 5 _); [|reflexivity].
  by destruct (zone_data !! "zone_id").
Qed.

Lemma irrigation_unknown_stage_witness :
  map Spec.action_core
    <$> _generate_irrigation_recommendations zone_dry "Flowering" forecast_no_rain ∅ =
  map Spec.action_core
    <$> _generate_irrigation_recommendations
          zone_dry "Vegetative_Growth" forecast_no_rain ∅.
Proof.
  apply (irrigation_unknown_stage zone_dry forecast_no_rain ∅ "Flowering").
  reflexivity.
Defined.

Lemma irrigation_actions_for_zone
    (zone_data weather_forecast stress : gmap string Q) (growth_stage : string)
    (zone_id : Q) :
  zone_data !! "zone_id" = Some zone_id ->
  exists actions,
    _generate_irrigation_recommendations
      zone_data growth_stage weather_forecast stress = Some actions /\
    (length actions <= 1)%nat /\
    (0 <= Py.get zone_data "area_ha" 1 ->
     Forall (Spec.action_for_zone zone_id) actions).
Proof.
  intros Hid. unfold _generate_irrigation_recommendations. cbv zeta.
  set (net := max_ 0 _). rewrite Hid. cbn [mbind option_bind app].
  destruct (Qlt_bool 5 net).
  2:{ exists []. split; [done|]. split; [cbn; lia|]. by constructor. }
  eexists. split; [reflexivity|]. split; [cbn; lia|].
  intros Harea. constructor; [|constructor].
  unfold Spec.action_for_zone.
  cbn [zone_ids timing priority estimated_cost].
  split; [reflexivity|]. split.
  - destruct (Qlt_bool 0.7 _); cbn; split; intros; done.
  - eexists. split; [reflexivity|].
    assert (0 <= net) by apply max_0_nonneg.
    apply Qmult_le_0_compat; [|done]. apply Qmult_le_0_compat; lra.
Qed.

(** *** Fertilization *)

Lemma fertilizer_price_pos (nutrient : string) (price : Q) :
  fertilizer_prices !! nutrient = Some price -> 0 < price.
Proof.
  unfold fertilizer_prices. intros H. apply elem_of_list_to_map_2 in H.
  repeat (apply elem_of_cons in H as [H|H]; [inversion H; subst; lra|]).
  by apply elem_of_nil in H.
Qed.

Lemma conversion_factor_pos (nutrient : string) :
  0 < Py.get conversion_factors nutrient 2.0.
Proof.
  unfold Py.get. destruct (conversion_factors !! nutrient) as [f|] eqn:H;
    [|cbn; lra].
  unfold conversion_factors in H. apply elem_of_list_to_map_2 in H.
  repeat (apply elem_of_cons in H as [H|H]; [inversion H; subst; cbn; lra|]).
  by apply elem_of_nil in H.
Qed.

Lemma deficient_level (level : Q) (t : Thresholds) :
  Spec.ordered t ->
  status_of_level level t ∈ ["severe_deficiency"; "deficiency"]%string ->
  level < sufficient t.
Proof.
  intros Ho Hin.
  destruct (EngineFacts.status_of_level_cases level t Ho)
    as [[H E]|[[H E]|[[H E]|[[H E]|[H E]]]]];
    destruct Ho as (? & ? & ?); try lra; rewrite E in Hin;
    repeat (apply elem_of_cons in Hin as [Hin|Hin]; [discriminate|]);
    by apply elem_of_nil in Hin.
Qed.

Lemma fertilizer_step_assessed
    (zone_data : gmap string Q) (growth_stage : string)
    (critical_nutrients : list string) (actions : list RecommendationAction)
    (nutrient : string) (t : Thresholds) (zone_id : Q) :
  nutrient ∈ ["nitrogen"; "phosphorus"; "potassium"]%string ->
  nutrient_thresholds !! nutrient = Some t ->
  zone_data !! "zone_id" = Some zone_id ->
  exists new,
    fertilizer_step zone_data growth_stage critical_nutrients actions nutrient
      (status_of_level (Py.get zone_data (nutrient +:+ "_level") 50) t) =
      Some (actions ++ new) /\
    Spec.fertilizer_action_for zone_data zone_id nutrient
      (status_of_level (Py.get zone_data (nutrient +:+ "_level") 50) t) new.
Proof.
  intros Hin Ht Hid.
  set (status := status_of_level _ t).
  pose proof (EngineFacts.nutrient_thresholds_ordered _ _ Ht) as Ho.
  assert (exists price, fertilizer_prices !! nutrient = Some price)
    as [price Hprice].
  { repeat (apply elem_of_cons in Hin as [->|Hin]); [| | |by apply elem_of_nil in Hin];
      eexists; reflexivity. }
  pose proof (fertilizer_price_pos _ _ Hprice) as Hpos.
  pose proof (conversion_factor_pos nutrient) as Hfactor.
  unfold fertilizer_step, Spec.fertilizer_action_for. cbv zeta. fold status.
  destruct (bool_decide (status ∈ _)) eqn:Hdef.
  - apply bool_decide_eq_true in Hdef.
    pose proof (deficient_level _ _ Ho Hdef) as Hlevel.
    rewrite Ht, Hprice, Hid. cbn [mbind option_bind].
    eexists [_]. split; [reflexivity|]. split; [reflexivity|].
    constructor; [|constructor].
    cbn [action_type application_rate description priority timing].
    assert (Hrate :
      0 < (sufficient t - Py.get zone_data (nutrient +:+ "_level") 50) *
          Py.get conversion_factors nutrient 2.0).
    { apply Qmult_lt_0_compat; lra. }
    split; [reflexivity|]. split; [reflexivity|]. split; [|split].
    + intros Harea.
      unfold Spec.action_for_zone. cbn [zone_ids timing priority estimated_cost].
      split; [reflexivity|]. split.
      * destruct (_ || _); split; intros; done.
      * eexists. split; [reflexivity|].
        apply Qmult_le_0_compat; [|lra]. apply Qmult_le_0_compat; lra.
    + eexists. split; [reflexivity|]. exact Hrate.
    + intros E. rewrite E. rewrite bool_decide_eq_true_2 by done.
      cbn [orb]. split; [reflexivity|]. split; [reflexivity|].
      eexists. reflexivity.
  - exists []. rewrite app_nil_r. split; [done|]. split; [done|]. constructor.
Qed.

Lemma assess_items (zone_data : gmap string Q) :
  exists ns tn tp tk,
    _assess_nutrient_status zone_data = Some ns /\
    nutrient_thresholds !! "nitrogen" = Some tn /\
    nutrient_thresholds !! "phosphorus" = Some tp /\
    nutrient_thresholds !! "potassium" = Some tk /\
    nutrient_status_items ns =
      [("nitrogen",
        status_of_level (Py.get zone_data ("nitrogen" +:+ "_level") 50) tn);
       ("phosphorus",
        status_of_level (Py.get zone_data ("phosphorus" +:+ "_level") 50) tp);
       ("potassium",
        status_of_level (Py.get zone_data ("potassium" +:+ "_level") 50) tk)]%string.
Proof.
  destruct (EngineFacts.assess_lookup zone_data "nitrogen")
    as (tn & ns & Htn & Hns & Hn); [repeat constructor|].
  destruct (EngineFacts.assess_lookup zone_data "phosphorus")
    as (tp & ns' & Htp & Hns' & Hp); [repeat constructor|].
  destruct (EngineFacts.assess_lookup zone_data "potassium")
    as (tk & ns'' & Htk & Hns'' & Hk); [repeat constructor|].
  assert (ns' = ns) as -> by congruence. assert (ns'' = ns) as -> by congruence.
  exists ns, tn, tp, tk. repeat (split; [done|]).
  unfold nutrient_status_items. cbn [omap list_omap].
  by rewrite Hn, Hp, Hk.
Qed.

(** The fertilizer generator on the statuses assessed for the same zone:
    the actions of nitrogen, then of phosphorus, then of potassium. *)
Lemma fertilizer_assessed
    (zone_data : gmap string Q) (growth_stage : string) (zone_id : Q) :
  zone_data !! "zone_id" = Some zone_id ->
  exists ns tn tp tk new_n new_p new_k,
    _assess_nutrient_status zone_data = Some ns /\
    nutrient_thresholds !! "nitrogen" = Some tn /\
    nutrient_thresholds !! "phosphorus" = Some tp /\
    nutrient_thresholds !! "potassium" = Some tk /\
    nutrient_status_items ns =
      [("nitrogen",
        status_of_level (Py.get zone_data ("nitrogen" +:+ "_level") 50) tn);
       ("phosphorus",
        status_of_level (Py.get zone_data ("phosphorus" +:+ "_level") 50) tp);
       ("potassium",
        status_of_level (Py.get zone_data ("potassium" +:+ "_level") 50) tk)]%string /\
    _generate_fertilizer_recommendations
      zone_data growth_stage (nutrient_status_items ns) =
      Some (new_n ++ new_p ++ new_k) /\
    Spec.fertilizer_action_for zone_data zone_id "nitrogen"
      (status_of_level (Py.get zone_data ("nitrogen" +:+ "_level") 50) tn) new_n /\
    Spec.fertilizer_action_for zone_data zone_id "phosphorus"
      (status_of_level (Py.get zone_data ("phosphorus" +:+ "_level") 50) tp) new_p /\
    Spec.fertilizer_action_for zone_data zone_id "potassium"
      (status_of_level (Py.get zone_data ("potassium" +:+ "_level") 50) tk) new_k.
Proof.
  intros Hid.
  destruct (assess_items zone_data)
    as (ns & tn & tp & tk & Hns & Htn & Htp & Htk & Hitems).
  exists ns, tn, tp, tk. rewrite Hitems.
  unfold _generate_fertilizer_recommendations. cbv zeta.
  set (crit := critical_nutrients _). cbn [foldl fst snd mbind option_bind].
  destruct (fertilizer_step_assessed zone_data growth_stage crit []
              "nitrogen" tn zone_id) as (new1 & H1 & F1);
    [repeat constructor|done..|].
  rewrite H1. cbn [mbind option_bind app].
  destruct (fertilizer_step_assessed zone_data growth_stage crit new1
              "phosphorus" tp zone_id) as (new2 & H2 & F2);
    [repeat constructor|done..|].
  rewrite H2. cbn [mbind option_bind].
  destruct (fertilizer_step_assessed zone_data growth_stage crit (new1 ++ new2)
              "potassium" tk zone_id) as (new3 & H3 & F3);
    [repeat constructor|done..|].
  rewrite H3.
  exists new1, new2, new3.
  split; [exact Hns|]. do 3 (split; [done|]). split; [reflexivity|].
  split; [by rewrite <- app_assoc|]. done.
Qed.

Lemma fertilizer_action_for_length
    (zone_data : gmap string Q) (zone_id : Q) (nutrient status : string)
    (new : list RecommendationAction) :
  Spec.fertilizer_action_for zone_data zone_id nutrient status new ->
  (length new <= 1)%nat.
Proof. intros [-> _]. destruct (bool_decide _); lia. Qed.

(** X5. Fed the statuses assessed for the same zone, the fertilizer
    generator does not fail on a zone that has a zone_id; it emits one
    action per nutrient whose status is severe_deficiency or deficiency and
    none for the others; and each of them has a positive application rate,
    since a deficient level lies below the sufficiency target. *)
Theorem fertilizer_rates_positive
    (zone_data : gmap string Q) (growth_stage : string) (zone_id : Q) :
  zone_data !! "zone_id" = Some zone_id ->
  exists ns actions,
    _assess_nutrient_status zone_data = Some ns /\
    _generate_fertilizer_recommendations
      zone_data growth_stage (nutrient_status_items ns) = Some actions /\
    length actions =
      length (filter (fun item =>
                        snd item ∈ ["severe_deficiency"; "deficiency"]%string)
                     (nutrient_status_items ns)) /\
    Forall (fun a =>
              action_type a = FERTILIZATION /\
              zone_ids a = [zone_id] /\
              exists rate, application_rate a = Some rate /\ 0 < rate) actions.
Proof.
  intros Hid.
  destruct (fertilizer_assessed zone_data growth_stage zone_id Hid)
    as (ns & tn & tp & tk & new1 & new2 & new3 & Hns & _ & _ & _ & Hitems &
        Hfert & [L1 F1] & [L2 F2] & [L3 F3]).
  exists ns, (new1 ++ new2 ++ new3). split; [exact Hns|]. split; [exact Hfert|].
  split.
  - rewrite Hitems, !length_app, L1, L2, L3.
    rewrite !filter_cons, filter_nil. cbn [snd].
    repeat match goal with
           | |- context [bool_decide ?P] =>
               destruct (decide P);
               [rewrite (bool_decide_eq_true_2 P) by done
               |rewrite (bool_decide_eq_false_2 P) by done]
           end; reflexivity.
  - repeat (apply Forall_app; split);
      (eapply Forall_impl; [eassumption|]); intros a (? & ? & _ & ? & _);
      done.
Qed.

Lemma fertilizer_rates_positive_witness :
  exists ns actions,
    _assess_nutrient_status zone_poor = Some ns /\
    _generate_fertilizer_recommendations
      zone_poor "Vegetative_Growth" (nutrient_status_items ns) = Some actions /\
    length actions =
      length (filter (fun item =>
                        snd item ∈ ["severe_deficiency"; "deficiency"]%string)
                     (nutrient_status_items ns)) /\
    Forall (fun a =>
              action_type a = FERTILIZATION /\
              zone_ids a = [3] /\
              exists rate, application_rate a = Some rate /\ 0 < rate) actions.
Proof.
  apply (fertilizer_rates_positive zone_poor "Vegetative_Growth" 3).
  reflexivity.
Defined.

(** *** Pests *)

Lemma pest_actions_for_zone
    (zone_data weather_forecast : gmap string Q) (growth_stage : string)
    (zone_id : Q) :
  zone_data !! "zone_id" = Some zone_id ->
  exists actions,
    _generate_pest_management_recommendations
      zone_data growth_stage weather_forecast = Some actions /\
    (length actions <= 2)%nat /\
    (0 <= Py.get zone_data "area_ha" 1 ->
     Forall (Spec.action_for_zone zone_id) actions).
Proof.
  intros Hid. unfold _generate_pest_management_recommendations. cbv zeta.
  rewrite Hid.
  assert (Hcost : forall price : Q,
            0 <= price -> 0 <= Py.get zone_data "area_ha" 1 ->
            0 <= price * Py.get zone_data "area_ha" 1).
  { intros. by apply Qmult_le_0_compat. }
  destruct (_ && _ && _); destruct (_ && _);
    cbn [mbind option_bind app]; eexists; (split; [reflexivity|]);
    (split; [cbn; lia|]); intros Harea;
    repeat (constructor;
            [unfold Spec.action_for_zone;
             cbn [zone_ids timing priority estimated_cost];
             split; [reflexivity|]; split; [split; intros; done|];
             eexists; split; [reflexivity|]; apply Hcost; [lra|done]|]);
    constructor.
Qed.

(** X6. Pest actions need warmth: when the forecast week averages 15
    degrees or less, neither the late-blight treatment nor the beetle
    monitoring is recommended, at any growth stage and humidity, also for a
    zone without zone_id. *)
Theorem no_pest_action_when_cold
    (zone_data weather_forecast : gmap string Q) (growth_stage : string)
    (temperature : Q) :
  weather_forecast !! "avg_temperature_7day" = Some temperature ->
  temperature <= 15 ->
  _generate_pest_management_recommendations
    zone_data growth_stage weather_forecast = Some [].
Proof.
  intros Ht Hcold. unfold _generate_pest_management_recommendations. cbv zeta.
  rewrite (get_Some _ _ _ _ Ht).
  assert (Qlt_bool 15 temperature = false) as -> by (apply Qlt_bool_false; lra).
  by rewrite !andb_false_r.
Qed.

Lemma no_pest_action_when_cold_witness :
  _generate_pest_management_recommendations
    zone_dry "Emergence" forecast_cold = Some [].
Proof.
  apply (no_pest_action_when_cold zone_dry forecast_cold "Emergence" 12).
  - reflexivity.
  - vm_compute. discriminate.
Defined.


(** *** Substring search *)

Lemma substring_prefix (s rest : string) :
  substring 0 (String.length s) (s +:+ rest) = s.
Proof. induction s as [|c s IH]; simpl; [by destruct rest|by f_equal]. Qed.

Lemma substring_skip (pre s : string) (m n : nat) :
  substring (String.length pre + m) n (pre +:+ s) = substring m n s.
Proof. induction pre as [|c pre IH]; simpl; [done|exact IH]. Qed.

Lemma contains_substring (sub s : string) (m : nat) :
  sub <> ""%string ->
  substring m (String.length sub) s = sub ->
  contains sub s = true.
Proof.
  intros Hne Hsub. unfold contains.
  destruct (index 0 sub s) eqn:E; [done|].
  exfalso. by apply (index_correct3 0 m sub s E Hne); [lia|].
Qed.

Lemma contains_here (sub rest : string) :
  sub <> ""%string -> contains sub (sub +:+ rest) = true.
Proof.
  intros Hne. apply (contains_substring sub _ 0 Hne), substring_prefix.
Qed.

Lemma contains_skip (sub pre s : string) :
  sub <> ""%string -> contains sub s = true -> contains sub (pre +:+ s) = true.
Proof.
  intros Hne. unfold contains at 1.
  destruct (index 0 sub s) as [m|] eqn:E; [intros _|done].
  apply index_correct1 in E.
  apply (contains_substring sub _ (String.length pre + m) Hne).
  by rewrite substring_skip.
Qed.

(** *** Zone recommendations *)

Lemma sum_nonneg (xs : list Q) : Forall (fun x => 0 <= x) xs -> 0 <= Py.sum xs.
Proof.
  induction 1 as [|x xs Hx _ IH]; [unfold Py.sum; simpl; lra|].
  rewrite sum_cons. lra.
Qed.

Lemma contribution_le_total (a : RecommendationAction)
    (actions : list RecommendationAction) :
  a ∈ actions ->
  Spec.contribution a <= Spec.total (map Spec.contribution actions).
Proof.
  induction 1 as [a actions|a b actions _ IH].
  - pose proof (EngineFacts.total_contribution_nonneg actions) as H.
    unfold Spec.total in *. cbn [map foldr]. lra.
  - pose proof (EngineFacts.contribution_nonneg b).
    unfold Spec.total in *. cbn [map foldr]. lra.
Qed.

(** The parts of which a zone recommendation is made. *)
Lemma zone_recommendations_run
    (zone_data : ZoneData) (weather_forecast : gmap string Q) (zid : Q) :
  columns zone_data !! "zone_id" = Some zid ->
  exists zone_rec ns tn tp tk irrigation new_n new_p new_k pest,
    _generate_zone_recommendations zone_data weather_forecast = Some zone_rec /\
    Engine.zone_id zone_rec = zid /\
    area_ha zone_rec = Py.get (columns zone_data) "area_ha" 1 /\
    health_status zone_rec = _assess_zone_health (columns zone_data) /\
    nutrient_status zone_rec = ns /\
    _assess_nutrient_status (columns zone_data) = Some ns /\
    actions zone_rec = (irrigation ++ new_n ++ new_p ++ new_k) ++ pest /\
    estimated_yield_impact zone_rec =
      _estimate_yield_impact (actions zone_rec) (columns zone_data) /\
    Engine.total_cost zone_rec =
      Py.sum (map (fun a => default 0 (estimated_cost a)) (actions zone_rec)) /\
    (length irrigation <= 1)%nat /\
    (length pest <= 2)%nat /\
    (0 <= Py.get (columns zone_data) "area_ha" 1 ->
     Forall (Spec.action_for_zone zid) irrigation /\
     Forall (Spec.action_for_zone zid) pest) /\
    nutrient_thresholds !! "nitrogen" = Some tn /\
    nutrient_thresholds !! "phosphorus" = Some tp /\
    nutrient_thresholds !! "potassium" = Some tk /\
    Spec.fertilizer_action_for (columns zone_data) zid "nitrogen"
      (status_of_level
         (Py.get (columns zone_data) ("nitrogen" +:+ "_level") 50) tn) new_n /\
    Spec.fertilizer_action_for (columns zone_data) zid "phosphorus"
      (status_of_level
         (Py.get (columns zone_data) ("phosphorus" +:+ "_level") 50) tp) new_p /\
    Spec.fertilizer_action_for (columns zone_data) zid "potassium"
      (status_of_level
         (Py.get (columns zone_data) ("potassium" +:+ "_level") 50) tk) new_k.
Proof.
  intros Hid. unfold _generate_zone_recommendations. cbv zeta.
  rewrite Hid. cbn [mbind option_bind].
  set (stage := default _ _).
  destruct (fertilizer_assessed (columns zone_data) stage zid Hid)
    as (ns & tn & tp & tk & new_n & new_p & new_k & Hns & Htn & Htp & Htk & _ &
        Hfert & Fn & Fp & Fk).
  rewrite Hns. cbn [mbind option_bind].
  destruct (EngineFacts.stress_water_stress (columns zone_data) weather_forecast)
    as (stress & Hstress & _).
  rewrite Hstress. cbn [mbind option_bind].
  destruct (irrigation_actions_for_zone
              (columns zone_data) weather_forecast stress stage zid Hid)
    as (irrigation & Hirr & Lirr & Firr).
  rewrite Hirr. cbn [mbind option_bind]. rewrite Hfert. cbn [mbind option_bind].
  destruct (pest_actions_for_zone
              (columns zone_data) weather_forecast stage zid Hid)
    as (pest & Hpest & Lpest & Fpest).
  rewrite Hpest. cbn [mbind option_bind app].
  eexists. exists ns, tn, tp, tk, irrigation, new_n, new_p, new_k, pest.
  split; [reflexivity|].
  cbn [Engine.zone_id area_ha health_status nutrient_status actions
       estimated_yield_impact Engine.total_cost].
  repeat (split; [done|]). split; [by auto|]. done.
Qed.

Lemma fertilizer_action_for_zone
    (zone_data : gmap string Q) (zid : Q) (nutrient status : string)
    (new : list RecommendationAction) :
  0 <= Py.get zone_data "area_ha" 1 ->
  Spec.fertilizer_action_for zone_data zid nutrient status new ->
  Forall (Spec.action_for_zone zid) new.
Proof.
  intros Harea [_ F]. eapply Forall_impl; [exact F|].
  intros a (_ & _ & H & _). by apply H.
Qed.

(** X7. A row with a zone_id and a non-negative area always gets a
    recommendation (no KeyError), for any forecast and whether or not the
    frame has a growth_stage column.  It carries the zone_id of the row and
    at most six actions (one irrigation, three fertilizations, two pest
    actions); every action names this zone only, is immediate exactly when
    its priority is high, and has a non-negative cost; and the total cost is
    non-negative. *)
Theorem zone_recommendation_invariants
    (zone_data : ZoneData) (weather_forecast : gmap string Q) (zid : Q) :
  columns zone_data !! "zone_id" = Some zid ->
  0 <= Py.get (columns zone_data) "area_ha" 1 ->
  exists zone_rec,
    _generate_zone_recommendations zone_data weather_forecast = Some zone_rec /\
    Engine.zone_id zone_rec = zid /\
    (length (actions zone_rec) <= 6)%nat /\
    Forall (Spec.action_for_zone zid) (actions zone_rec) /\
    0 <= Engine.total_cost zone_rec.
Proof.
  intros Hid Harea.
  destruct (zone_recommendations_run zone_data weather_forecast zid Hid)
    as (zone_rec & ns & tn & tp & tk & irrigation & new_n & new_p & new_k & pest &
        Hrun & Hz & _ & _ & _ & _ & Hactions & _ & Hcost & Lirr & Lpest & Fip &
        _ & _ & _ & Fn & Fp & Fk).
  destruct (Fip Harea) as [Firr Fpest].
  assert (Hall : Forall (Spec.action_for_zone zid) (actions zone_rec)).
  { rewrite Hactions.
    repeat (apply Forall_app; split);
      eauto using fertilizer_action_for_zone. }
  exists zone_rec. split; [exact Hrun|]. split; [exact Hz|]. split; [|split].
  - rewrite Hactions, !length_app.
    apply fertilizer_action_for_length in Fn, Fp, Fk. lia.
  - exact Hall.
  - rewrite Hcost. apply sum_nonneg, Forall_map.
    eapply Forall_impl; [exact Hall|].
    intros a (_ & _ & cost & -> & Hpos). exact Hpos.
Qed.

Lemma zone_recommendation_invariants_witness :
  exists zone_rec,
    _generate_zone_recommendations zone_starved demo_weather_forecast =
      Some zone_rec /\
    Engine.zone_id zone_rec = 6 /\
    (length (actions zone_rec) <= 6)%nat /\
    Forall (Spec.action_for_zone 6) (actions zone_rec) /\
    0 <= Engine.total_cost zone_rec.
Proof.
  apply (zone_recommendation_invariants zone_starved demo_weather_forecast 6).
  - reflexivity.
  - vm_compute. discriminate.
Defined.

Lemma severe_action_contribution (a : RecommendationAction) (nutrient rest : string) :
  action_type a = FERTILIZATION ->
  description a =
    "Apply " +:+ nutrient +:+ " fertilizer to address " +:+
    "severe_deficiency" +:+ rest ->
  Spec.contribution a = 0.20.
Proof.
  intros Ht Hd. unfold Spec.contribution. rewrite Ht, Hd.
  assert (contains "severe_deficiency"
            ("Apply " +:+ nutrient +:+ " fertilizer to address " +:+
             "severe_deficiency" +:+ rest) = true) as ->; [|done].
  do 3 (apply contains_skip; [done|]). by apply contains_here.
Qed.

Lemma yield_impact_at_least (actions : list RecommendationAction)
    (zone_data : gmap string Q) (a : RecommendationAction) (c : Q) :
  a ∈ actions -> c <= Spec.contribution a -> c <= 0.40 ->
  c <= _estimate_yield_impact actions zone_data.
Proof.
  intros Hin Hc Hcap. unfold _estimate_yield_impact. cbv zeta.
  pose proof (EngineFacts.fold_yield_impact actions 0) as Hfold.
  pose proof (contribution_le_total a actions Hin) as Hle.
  unfold min_. destruct (Qlt_bool_spec 0.40 (fold_left yield_impact_step actions 0));
    lra.
Qed.

(** X8. A severely deficient nutrient shows in the recommendation of its
    zone: when the level of nitrogen, phosphorus or potassium is below the
    severe-deficiency threshold, the zone gets a fertilization action of
    priority high, to be applied at once, at any growth stage, and the
    estimated yield impact of the zone is at least 0.20. *)
Theorem severe_deficiency_is_addressed
    (zone_data : ZoneData) (weather_forecast : gmap string Q) (zid : Q)
    (nutrient : string) (t : Thresholds) :
  columns zone_data !! "zone_id" = Some zid ->
  nutrient ∈ ["nitrogen"; "phosphorus"; "potassium"]%string ->
  nutrient_thresholds !! nutrient = Some t ->
  Py.get (columns zone_data) (nutrient +:+ "_level") 50 < severe_deficiency t ->
  exists zone_rec a,
    _generate_zone_recommendations zone_data weather_forecast = Some zone_rec /\
    a ∈ actions zone_rec /\
    action_type a = FERTILIZATION /\
    priority a = "high"%string /\
    timing a = "immediate"%string /\
    0.20 <= estimated_yield_impact zone_rec.
Proof.
  intros Hid Hin Ht Hlevel.
  destruct (zone_recommendations_run zone_data weather_forecast zid Hid)
    as (zone_rec & ns & tn & tp & tk & irrigation & new_n & new_p & new_k & pest &
        Hrun & _ & _ & _ & _ & _ & Hactions & Himpact & _ & _ & _ & _ &
        Htn & Htp & Htk & Fn & Fp & Fk).
  assert (Hstatus :
    status_of_level (Py.get (columns zone_data) (nutrient +:+ "_level") 50) t =
    "severe_deficiency"%string).
  { unfold status_of_level. by rewrite (proj2 (Qlt_bool_iff _ _) Hlevel). }
  assert (exists new,
            Spec.fertilizer_action_for (columns zone_data) zid nutrient
              "severe_deficiency" new /\
            forall a, a ∈ new -> a ∈ actions zone_rec) as (new & [L F] & Hsub).
  { rewrite Hactions.
    repeat (apply elem_of_cons in Hin as [->|Hin]);
      [| | |by apply elem_of_nil in Hin].
    - assert (tn = t) as -> by congruence. rewrite Hstatus in Fn.
      exists new_n. split; [exact Fn|]. intros a Ha.
      rewrite !elem_of_app. auto.
    - assert (tp = t) as -> by congruence. rewrite Hstatus in Fp.
      exists new_p. split; [exact Fp|]. intros a Ha.
      rewrite !elem_of_app. auto.
    - assert (tk = t) as -> by congruence. rewrite Hstatus in Fk.
      exists new_k. split; [exact Fk|]. intros a Ha.
      rewrite !elem_of_app. auto. }
  rewrite bool_decide_eq_true_2 in L by (repeat constructor).
  destruct new as [|a [|? ?]]; try discriminate L.
  apply Forall_cons in F as [(Htype & _ & _ & _ & Hsevere) _].
  destruct (Hsevere eq_refl) as (Hprio & Htiming & rest & Hdesc).
  assert (Ha : a ∈ actions zone_rec) by (apply Hsub; repeat constructor).
  exists zone_rec, a. repeat (split; [done|]).
  rewrite Himpact. apply (yield_impact_at_least _ _ a); [exact Ha| |lra].
  rewrite (severe_action_contribution a nutrient rest Htype Hdesc). lra.
Qed.

Lemma severe_deficiency_is_addressed_witness :
  exists zone_rec a,
    _generate_zone_recommendations zone_starved demo_weather_forecast =
      Some zone_rec /\
    a ∈ actions zone_rec /\
    action_type a = FERTILIZATION /\
    priority a = "high"%string /\
    timing a = "immediate"%string /\
    0.20 <= estimated_yield_impact zone_rec.
Proof.
  apply (severe_deficiency_is_addressed zone_starved demo_weather_forecast 6
           "nitrogen"
           {| severe_deficiency := 25; deficiency := 35; sufficient := 45;
              excess := 75 |}).
  - reflexivity.
  - repeat constructor.
  - reflexivity.
  - vm_compute. reflexivity.
Defined.

(** *** The field summary *)

Lemma health_counts_fold
    (zs : list ZoneRecommendation) (acc : gmap string nat) (h : string) :
  foldl (fun (health_counts : gmap string nat) zone =>
           let health := health_status zone in
           <[health := (Py.get health_counts health 0 + 1)%nat]> health_counts)
        acc zs !! h =
  match length (filter (fun z => health_status z = h) zs), acc !! h with
  | O, c => c
  | S n, c => Some (default 0 c + S n)%nat
  end.
Proof.
  revert acc. induction zs as [|z zs IH]; intros acc; [done|].
  cbn [foldl]. rewrite IH. cbv zeta. rewrite filter_cons.
  destruct (decide (health_status z = h)) as [->|Hne].
  - rewrite lookup_insert_eq. unfold Py.get. cbn [length default].
    destruct (length _); cbv [id]; f_equal; lia.
  - by rewrite lookup_insert_ne.
Qed.

Lemma attention_count (zs : list ZoneRecommendation) :
  length (filter (fun z => health_status z ∈ ["poor"; "fair"]%string) zs) =
  (length (filter (fun z => health_status z = "poor"%string) zs) +
   length (filter (fun z => health_status z = "fair"%string) zs))%nat.
Proof.
  induction zs as [|z zs IH]; [done|].
  rewrite !filter_cons.
  destruct (decide (health_status z ∈ ["poor"; "fair"]%string)) as [Hin|Hnin];
    destruct (decide (health_status z = "poor"%string)) as [Hp|Hp];
    destruct (decide (health_status z = "fair"%string)) as [Hf|Hf];
    cbn [length]; try lia; exfalso.
  - rewrite Hp in Hf. discriminate.
  - set_solver.
  - set_solver.
  - set_solver.
  - set_solver.
Qed.

(** X9. The health distribution of the field summary counts the zones of
    each health status exactly: a status nobody has is not a key, and the
    other keys hold the number of zones with that status.  The zones needing
    attention are the poor and the fair ones together, never more than
    the zones there are. *)
Theorem field_summary_counts (zone_recommendations : list ZoneRecommendation) :
  let s := _calculate_field_summary zone_recommendations in
  (forall h,
     Py.get (health_distribution s) h 0%nat =
     length (filter (fun z => health_status z = h) zone_recommendations)) /\
  (forall h,
     health_distribution s !! h = None <->
     Forall (fun z => health_status z <> h) zone_recommendations) /\
  zones_needing_attention s =
    (Py.get (health_distribution s) "poor" 0 +
     Py.get (health_distribution s) "fair" 0)%nat /\
  (zones_needing_attention s <= total_zones s)%nat.
Proof.
  cbv zeta. unfold _calculate_field_summary. cbv zeta.
  cbn [health_distribution zones_needing_attention total_zones].
  assert (Hget : forall h,
    Py.get (foldl (fun (health_counts : gmap string nat) zone =>
                     let health := health_status zone in
                     <[health := (Py.get health_counts health 0 + 1)%nat]>
                       health_counts) ∅ zone_recommendations) h 0%nat =
    length (filter (fun z => health_status z = h) zone_recommendations)).
  { intros h. unfold Py.get at 1. rewrite health_counts_fold, lookup_empty.
    by destruct (length _). }
  split; [exact Hget|]. split; [|split].
  - intros h. rewrite health_counts_fold, lookup_empty.
    rewrite Forall_forall. split.
    + destruct (length _) eqn:E; [intros _|done].
      apply length_zero_iff_nil in E. intros z Hz Hh.
      assert (z ∈ filter (fun z => health_status z = h) zone_recommendations)
        as Hin by (by apply list_elem_of_filter).
      rewrite E in Hin. by apply elem_of_nil in Hin.
    + intros Hall. destruct (filter _ _) as [|z l] eqn:E; [done|].
      assert (z ∈ filter (fun z => health_status z = h) zone_recommendations)
        as Hin by (rewrite E; constructor).
      apply list_elem_of_filter in Hin as [Hh Hz]. by destruct (Hall z Hz).
  - rewrite !Hget. apply attention_count.
  - apply length_filter.
Qed.

(** *** The field level *)

Lemma field_loop_ok (weather_forecast : gmap string Q)
    (zone_analysis : list ZoneData) (done_ : list ZoneRecommendation) (cost : Q) :
  Forall (fun zone_data => is_Some (columns zone_data !! "zone_id")) zone_analysis ->
  exists recs,
    Forall2 (fun zone_data zone_rec =>
               _generate_zone_recommendations zone_data weather_forecast =
               Some zone_rec) zone_analysis recs /\
    field_loop weather_forecast (Some (done_, cost)) zone_analysis =
      Some (done_ ++ recs, fold_left Qplus (map Engine.total_cost recs) cost).
Proof.
  intros Hall. revert done_ cost.
  induction Hall as [|zone_data rows [zid Hid] _ IH]; intros done_ cost.
  - exists []. split; [constructor|]. by rewrite app_nil_r.
  - destruct (zone_recommendations_run zone_data weather_forecast zid Hid)
      as (zone_rec & ? & ? & ? & ? & ? & ? & ? & ? & ? & Hrun & _).
    unfold field_loop. cbn [foldl mbind option_bind]. rewrite Hrun.
    cbn [mbind option_bind].
    destruct (IH (done_ ++ [zone_rec]) (cost + Engine.total_cost zone_rec))
      as (recs & Hrecs & Hloop).
    exists (zone_rec :: recs). split; [by constructor|].
    unfold field_loop in Hloop. rewrite Hloop. by rewrite <- app_assoc.
Qed.

Lemma field_loop_none (weather_forecast : gmap string Q)
    (zone_analysis : list ZoneData) :
  field_loop weather_forecast None zone_analysis = None.
Proof. by induction zone_analysis. Qed.

Lemma field_loop_key_error (weather_forecast : gmap string Q)
    (zone_analysis : list ZoneData) (acc : option (list ZoneRecommendation * Q)) :
  Exists (fun zone_data => columns zone_data !! "zone_id" = None) zone_analysis ->
  field_loop weather_forecast acc zone_analysis = None.
Proof.
  intros Hex. revert acc.
  induction Hex as [zone_data rows Hnone|zone_data rows _ IH]; intros acc.
  - unfold field_loop. cbn [foldl].
    assert (_generate_zone_recommendations zone_data weather_forecast = None)
      as -> by (unfold _generate_zone_recommendations; by rewrite Hnone).
    destruct acc as [[? ?]|]; cbn [mbind option_bind]; apply field_loop_none.
  - unfold field_loop. cbn [foldl]. apply IH.
Qed.

Lemma estimate_roi_defined
    (zone_recommendations : list ZoneRecommendation) (total_cost : Q) :
  (zone_recommendations = [] -> total_cost == 0) ->
  exists roi,
    _estimate_roi zone_recommendations total_cost = Some roi /\ 0 <= roi.
Proof.
  intros Hempty. unfold _estimate_roi.
  destruct (Qeq_bool total_cost 0) eqn:E; [exists 0; split; [done|lra]|].
  destruct zone_recommendations as [|z zs].
  - apply Qeq_bool_neq in E. by destruct E; apply Hempty.
  - cbn [map]. rewrite EngineFacts.np_mean_cons. cbn [mbind option_bind].
    eexists. split; [reflexivity|].
    unfold max_. match goal with |- context [Qlt_bool ?a ?b] =>
      destruct (Qlt_bool_spec a b) end; lra.
Qed.

(** X10. When every row of the frame has a zone_id and every cell of the
    frame and of the forecast is a number (the columns are rationals here,
    so a frame that holds nan is not covered), the field run returns
    normally: it holds the recommendation of each row, in the order of the
    frame; its total cost is the sum of the zone costs; its expected ROI is
    not negative; and the run appends exactly this record to the history of
    the engine. *)
Theorem field_recommendations_complete
    (zone_analysis : list ZoneData) (weather_forecast : gmap string Q)
    (field_id : string) (engine : EngineState) :
  Forall (fun zone_data => is_Some (columns zone_data !! "zone_id")) zone_analysis ->
  exists fr,
    generate_field_recommendations zone_analysis weather_forecast field_id engine =
      Run.Ok fr {| recommendation_history := recommendation_history engine ++ [fr];
                   now := now engine |} /\
    fr_field_id fr = field_id /\
    Forall2 (fun zone_data zone_rec =>
               _generate_zone_recommendations zone_data weather_forecast =
               Some zone_rec) zone_analysis (zones fr) /\
    fr_total_cost fr == Py.sum (map Engine.total_cost (zones fr)) /\
    summary fr = _calculate_field_summary (zones fr) /\
    exists roi, expected_roi fr = Some roi /\ 0 <= roi.
Proof.
  intros Hall.
  destruct (field_loop_ok weather_forecast zone_analysis [] 0 Hall)
    as (recs & Hrecs & Hloop).
  unfold generate_field_recommendations. rewrite Hloop. cbn [app].
  eexists. split; [reflexivity|].
  cbn [fr_field_id zones fr_total_cost summary expected_roi].
  split; [done|]. split; [exact Hrecs|]. split; [reflexivity|]. split; [done|].
  apply estimate_roi_defined. by intros ->.
Qed.

Lemma field_recommendations_complete_witness :
  exists fr,
    generate_field_recommendations demo_zone_analysis demo_weather_forecast
      "DEMO_FIELD_001" {| recommendation_history := []; now := 0 |} =
      Run.Ok fr {| recommendation_history := [] ++ [fr]; now := 0 |} /\
    fr_field_id fr = "DEMO_FIELD_001"%string /\
    Forall2 (fun zone_data zone_rec =>
               _generate_zone_recommendations zone_data demo_weather_forecast =
               Some zone_rec) demo_zone_analysis (zones fr) /\
    fr_total_cost fr == Py.sum (map Engine.total_cost (zones fr)) /\
    summary fr = _calculate_field_summary (zones fr) /\
    exists roi, expected_roi fr = Some roi /\ 0 <= roi.
Proof.
  apply (field_recommendations_complete demo_zone_analysis demo_weather_forecast
           "DEMO_FIELD_001" {| recommendation_history := []; now := 0 |}).
  repeat constructor; eexists; reflexivity.
Defined.

(** X11. One row without zone_id anywhere in the frame aborts the whole
    field run with a KeyError: no record is returned, whatever the other
    rows are, and the history of the engine is as before. *)
Theorem field_recommendations_key_error
    (zone_analysis : list ZoneData) (weather_forecast : gmap string Q)
    (field_id : string) (engine : EngineState) :
  Exists (fun zone_data => columns zone_data !! "zone_id" = None) zone_analysis ->
  generate_field_recommendations zone_analysis weather_forecast field_id engine =
    Run.Raise Run.KeyError engine.
Proof.
  intros Hex. unfold generate_field_recommendations.
  by rewrite (field_loop_key_error weather_forecast zone_analysis (Some ([], 0)) Hex).
Qed.

Lemma field_recommendations_key_error_witness :
  generate_field_recommendations
    (demo_zone_analysis ++ [zone_unnamed]) demo_weather_forecast "DEMO_FIELD_001"
    {| recommendation_history := []; now := 0 |} =
    Run.Raise Run.KeyError {| recommendation_history := []; now := 0 |}.
Proof.
  apply (field_recommendations_key_error
           (demo_zone_analysis ++ [zone_unnamed]) demo_weather_forecast
           "DEMO_FIELD_001" {| recommendation_history := []; now := 0 |}).
  apply Exists_app. right. constructor. reflexivity.
Defined.

(** X12. An empty frame is not an error: the record has no zone, a total
    cost of 0 and an expected ROI of 0, and its summary counts no zone and
    no area, but the average yield impact of the summary is nan. *)
Theorem field_recommendations_empty
    (weather_forecast : gmap string Q) (field_id : string) (engine : EngineState) :
  exists fr engine',
    generate_field_recommendations [] weather_forecast field_id engine =
      Run.Ok fr engine' /\
    zones fr = [] /\
    fr_total_cost fr = 0 /\
    expected_roi fr = Some 0 /\
    total_zones (summary fr) = 0%nat /\
    total_area_ha (summary fr) = 0 /\
    health_distribution (summary fr) = ∅ /\
    average_yield_impact (summary fr) = None /\
    recommendation_history engine' = recommendation_history engine ++ [fr].
Proof. do 2 eexists. split; [reflexivity|]. by repeat split. Qed.

End EngineMore.

(** ** Further properties of the task manager *)

Module TasksMore.
Import Run Tasks Spec TaskExamples PyFacts TasksFacts.

(** *** The order of a query *)

Lemma priority_text_total (p q : TaskPriority) :
  String.leb (TaskPriority_value p) (TaskPriority_value q) = true \/
  String.leb (TaskPriority_value q) (TaskPriority_value p) = true.
Proof. destruct p, q; vm_compute; auto. Qed.

Lemma priority_text_trans (p q r : TaskPriority) :
  String.leb (TaskPriority_value p) (TaskPriority_value q) = true ->
  String.leb (TaskPriority_value q) (TaskPriority_value r) = true ->
  String.leb (TaskPriority_value p) (TaskPriority_value r) = true.
Proof. destruct p, q, r; vm_compute; congruence. Qed.

Lemma order_by_le_spec (a b : FarmerTask) :
  order_by_le a b = true <->
  (due_date a < due_date b)%Z \/
  (due_date a = due_date b /\
   String.leb (TaskPriority_value (priority b))
              (TaskPriority_value (priority a)) = true).
Proof.
  unfold order_by_le.
  rewrite orb_true_iff, andb_true_iff, Z.ltb_lt, Z.eqb_eq. tauto.
Qed.

Lemma order_by_le_total (a b : FarmerTask) :
  order_by_le a b = false -> order_by_le b a = true.
Proof.
  intros H. apply order_by_le_spec.
  destruct (Z.lt_trichotomy (due_date a) (due_date b)) as [Hlt|[Heq|Hgt]].
  - assert (order_by_le a b = true) by (apply order_by_le_spec; auto). congruence.
  - destruct (priority_text_total (priority a) (priority b)) as [Hp|Hp]; [by auto|].
    assert (order_by_le a b = true) by (apply order_by_le_spec; auto). congruence.
  - auto.
Qed.

Lemma order_by_le_trans (a b c : FarmerTask) :
  order_by_le a b = true -> order_by_le b c = true -> order_by_le a c = true.
Proof.
  rewrite !order_by_le_spec.
  intros [H1|[H1 P1]] [H2|[H2 P2]]; [left; lia..|].
  right. split; [lia|]. by apply (priority_text_trans _ (priority b)).
Qed.

Lemma insert_by_sorted {A} (le : A -> A -> bool) (x : A) (l : list A) :
  (forall a b, le a b = false -> le b a = true) ->
  (forall a b c, le a b = true -> le b c = true -> le a c = true) ->
  sorted_by le l -> sorted_by le (Py.insert_by le x l).
Proof.
  intros Htotal Htrans. induction l as [|y l IH]; intros Hs.
  - cbn. split; [constructor|done].
  - destruct Hs as [Hy Hs]. cbn [Py.insert_by].
    destruct (le x y) eqn:E.
    + cbn [sorted_by]. split; [|done]. constructor; [done|].
      eapply Forall_impl; [exact Hy|]. intros z Hz. by apply (Htrans _ y).
    + cbn [sorted_by]. split; [|by apply IH].
      rewrite (insert_by_perm le x l). constructor; [by apply Htotal|done].
Qed.

Lemma sort_by_sorted {A} (le : A -> A -> bool) (l : list A) :
  (forall a b, le a b = false -> le b a = true) ->
  (forall a b c, le a b = true -> le b c = true -> le a c = true) ->
  sorted_by le (Py.sort_by le l).
Proof.
  intros Htotal Htrans. induction l as [|x l IH]; [done|].
  cbn. by apply insert_by_sorted.
Qed.

Lemma sorted_by_later {A} (le : A -> A -> bool) (l1 l2 : list A) (a b : A) :
  sorted_by le (l1 ++ a :: l2) -> b ∈ l2 -> le a b = true.
Proof.
  induction l1 as [|x l1 IH]; cbn.
  - intros [H _] Hb. by apply (proj1 (Forall_forall _ _) H).
  - intros [_ H]. by apply IH.
Qed.

(** X13. A query returns the stored tasks of the given fields that pass
    the filters, each as often as it is stored, and does not change the
    store.  They come by due date, earliest first; tasks due at the same
    time come by the text of their priority, descending, so that a task of
    priority high is listed after every task of another priority due at
    that time. *)
Theorem tasks_query_order
    (field_ids : list string) (status_filter : option (list TaskStatus))
    (category_filter : option (list TaskCategory))
    (priority_filter : option (list TaskPriority)) (w : World) :
  exists tasks,
    get_tasks_for_farmer field_ids status_filter category_filter
      priority_filter w = Ok tasks w /\
    tasks ≡ₚ
      filter (λ t, in_filter priority_filter (priority t))
        (filter (λ t, in_filter category_filter (category t))
           (filter (λ t, in_filter status_filter (status t))
              (filter (λ t, field_id t ∈ field_ids) (farmer_tasks w)))) /\
    sorted_by order_by_le tasks /\
    forall l1 a l2 b,
      tasks = l1 ++ a :: l2 -> b ∈ l2 ->
      (due_date a <= due_date b)%Z /\
      (due_date a = due_date b -> priority a = HIGH -> priority b = HIGH).
Proof.
  destruct (get_tasks_for_farmer_run field_ids status_filter category_filter
              priority_filter w) as (tasks & Hrun & Hperm).
  exists tasks. split; [exact Hrun|]. split; [exact Hperm|].
  assert (Hsorted : sorted_by order_by_le tasks).
  { unfold get_tasks_for_farmer, mbind, M_bind, gets, mret, M_ret in Hrun.
    injection Hrun as <-.
    apply sort_by_sorted; [apply order_by_le_total|apply order_by_le_trans]. }
  split; [exact Hsorted|].
  intros l1 a l2 b -> Hb.
  pose proof (sorted_by_later _ _ _ _ _ Hsorted Hb) as Hle.
  apply order_by_le_spec in Hle. split; [lia|].
  intros Hdue Ha. destruct Hle as [Hlt|[_ Hp]]; [lia|].
  rewrite Ha in Hp. by destruct (priority b).
Qed.

(** *** Creating a task *)

(** X14. No task is ever stored by [create_task].  Under an id that is
    stored it raises the integrity error of the primary key; under any
    other id it raises [OperationalError] (database is locked), because the
    creation is logged on a second connection before the INSERT is
    committed.  In both cases the tasks and the history are left as they
    were. *)
Theorem create_task_never_stores (task : FarmerTask) (w : World) :
  exists e w',
    create_task task w = Raise e w' /\
    (id task ∈ map id (farmer_tasks w) -> e = IntegrityError) /\
    (id task ∉ map id (farmer_tasks w) -> e = OperationalError) /\
    farmer_tasks w' = farmer_tasks w /\
    task_history w' = task_history w.
Proof.
  destruct (create_task_raises task w) as (w' & Hrun & Hrows & Hhist & _).
  eexists _, w'. split; [exact Hrun|].
  split; [|split; [|by split]].
  - intros Hin. by rewrite bool_decide_eq_true_2.
  - intros Hnin. by rewrite bool_decide_eq_false_2.
Qed.

(** *** Overdue and upcoming tasks *)

(** X18. With a late pending or in_progress task in the fields,
    [get_overdue_tasks] does not return: the status update of the first
    late task raises [OperationalError] (database is locked), so that no
    task is stored as overdue and no status change is logged. *)
Theorem overdue_query_fails_on_late_task
    (field_ids : list string) (w : World) (t : FarmerTask) :
  late_active field_ids w t ->
  exists w',
    get_overdue_tasks field_ids w = Raise OperationalError w' /\
    farmer_tasks w' = farmer_tasks w /\
    task_history w' = task_history w.
Proof.
  intros Hlate.
  destruct (get_overdue_tasks_late field_ids w t Hlate)
    as (w' & Hrun & Hrows & Hhist & _).
  by exists w'.
Qed.

Lemma overdue_query_fails_on_late_task_witness :
  exists w',
    get_overdue_tasks ["f1"] world_late = Raise OperationalError w' /\
    farmer_tasks w' = farmer_tasks world_late /\
    task_history w' = task_history world_late.
Proof.
  apply (overdue_query_fails_on_late_task ["f1"] world_late
           (task_of "a" PENDING LOW)).
  split; [apply list_elem_of_here|]. split; [apply list_elem_of_here|].
  split; [apply list_elem_of_here|]. reflexivity.
Defined.

Lemma upcoming_key_le_total (a b : FarmerTask) :
  upcoming_key_le a b = false -> upcoming_key_le b a = true.
Proof.
  unfold upcoming_key_le. intros H.
  apply orb_false_iff in H as [H1 H2].
  apply Z.ltb_ge in H1.
  destruct (Z.eqb_spec (due_date a) (due_date b)) as [E|E].
  - cbn in H2. rewrite E, Z.eqb_refl. cbn [andb].
    destruct (priority_text_total (priority a) (priority b)) as [Hp|Hp];
      [congruence|]. rewrite Hp. apply orb_true_r.
  - apply orb_true_iff. left. apply Z.ltb_lt. lia.
Qed.

Lemma upcoming_key_le_trans (a b c : FarmerTask) :
  upcoming_key_le a b = true -> upcoming_key_le b c = true ->
  upcoming_key_le a c = true.
Proof.
  unfold upcoming_key_le.
  rewrite !orb_true_iff, !andb_true_iff, !Z.ltb_lt, !Z.eqb_eq.
  intros [H1|[H1 P1]] [H2|[H2 P2]]; [left; lia..|].
  right. split; [lia|]. by apply (priority_text_trans _ (priority b)).
Qed.

(** X19. The upcoming tasks are exactly the stored pending and in-progress
    tasks of the given fields that are due by the end of the window; there
    is no lower bound, so a task that is already past due is among them.
    They come by due date and then by the text of the priority, ascending,
    and the query changes nothing. *)
Theorem upcoming_tasks_window
    (field_ids : list string) (days_ahead : Z) (w : World) :
  exists upcoming,
    get_upcoming_tasks field_ids days_ahead w = Ok upcoming w /\
    (forall t,
       t ∈ upcoming <->
       t ∈ farmer_tasks w /\ field_id t ∈ field_ids /\
       status t ∈ [PENDING; IN_PROGRESS] /\
       (due_date t <= clock w + days days_ahead)%Z) /\
    sorted_by upcoming_key_le upcoming.
Proof.
  destruct (get_tasks_for_farmer_run field_ids (Some [PENDING; IN_PROGRESS])
              None None w) as (tasks & Hget & Hperm).
  rewrite !(filter_all (λ t, in_filter None _)) in Hperm by done.
  eexists. split.
  { unfold get_upcoming_tasks. rewrite (bind_ok _ _ w w tasks Hget).
    reflexivity. }
  split.
  - intros t. rewrite (sort_by_perm upcoming_key_le).
    rewrite list_elem_of_filter, Hperm, !list_elem_of_filter. cbn. tauto.
  - apply sort_by_sorted; [apply upcoming_key_le_total|apply upcoming_key_le_trans].
Qed.

(** *** Tasks of a growth stage *)

Lemma stage_tasks_stages (growth_stage : string) :
  stage_tasks !! growth_stage = None <->
  growth_stage ∉ ["Emergence"; "Vegetative_Growth"; "Tuber_Initiation";
                  "Tuber_Bulking"; "Maturation"]%string.
Proof.
  unfold stage_tasks. rewrite <- not_elem_of_list_to_map. cbn [fmap list_fmap fst].
  done.
Qed.

Lemma stage_tasks_nonempty (growth_stage : string) (entries : list StageTask) :
  stage_tasks !! growth_stage = Some entries -> entries <> [].
Proof.
  unfold stage_tasks. intros H. apply elem_of_list_to_map_2 in H.
  repeat (apply elem_of_cons in H as [H|H]; [inversion H; subst; discriminate|]).
  by apply elem_of_nil in H.
Qed.

(** X20. [generate_growth_stage_tasks] stores no task.  For a stage other
    than Emergence, Vegetative_Growth, Tuber_Initiation, Tuber_Bulking and
    Maturation (Planting and Harvest are such stages) it returns the empty
    list and changes nothing; for these five it builds the first task of
    the stage and is left by the exception of [create_task], which is
    [OperationalError] (database is locked) unless the identifier drawn is
    the id of a stored task; the tasks and the history are as before. *)
Theorem growth_stage_tasks_not_stored
    (field_id growth_stage : string) (field_health : Q) (w : World) :
  (growth_stage ∉ ["Emergence"; "Vegetative_Growth"; "Tuber_Initiation";
                   "Tuber_Bulking"; "Maturation"]%string ->
   generate_growth_stage_tasks field_id growth_stage field_health w = Ok [] w) /\
  (growth_stage ∈ ["Emergence"; "Vegetative_Growth"; "Tuber_Initiation";
                   "Tuber_Bulking"; "Maturation"]%string ->
   exists e w',
     generate_growth_stage_tasks field_id growth_stage field_health w =
       Raise e w' /\
     (uuid_text (uuid_draws w) ∉ map id (farmer_tasks w) ->
      e = OperationalError) /\
     farmer_tasks w' = farmer_tasks w /\
     task_history w' = task_history w).
Proof.
  unfold generate_growth_stage_tasks. cbv zeta. split.
  - intros Hnot. apply stage_tasks_stages in Hnot. by rewrite Hnot.
  - intros Hin.
    destruct (stage_tasks !! growth_stage) as [entries|] eqn:E.
    2:{ apply stage_tasks_stages in E. done. }
    pose proof (stage_tasks_nonempty _ _ E) as Hne.
    destruct entries as [|task_data entries]; [done|].
    cbn [for_fold].
    set (task := growth_stage_task field_id (uuid_text (uuid_draws w)) task_data
                   (adjust_priority field_health (st_priority task_data))
                   (clock w) (clock w)).
    set (w1 := {| farmer_tasks := farmer_tasks w; task_history := task_history w;
                  sent_alerts := sent_alerts w; clock := clock w;
                  uuid_draws := S (uuid_draws w) |}).
    destruct (create_task_raises task w1) as (w' & Hrun & Hrows & Hhist & _).
    eexists _, w'. split; [|split; [|by split]].
    + apply bind_raised.
      unfold mbind at 1, M_bind at 1. cbn [uuid4].
      unfold mbind at 1, M_bind at 1, datetime_now, gets. cbn [clock].
      unfold mbind at 1, M_bind at 1.
      fold w1. fold task. apply bind_raised. exact Hrun.
    + intros Hfresh. by rewrite bool_decide_eq_false_2.
Qed.

Lemma growth_stage_tasks_not_stored_witness :
  generate_growth_stage_tasks "f1" "Harvest" 60 world_late = Ok [] world_late /\
  exists e w',
    generate_growth_stage_tasks "f1" "Vegetative_Growth" 60 world_late =
      Raise e w' /\
    e = OperationalError /\
    farmer_tasks w' = farmer_tasks world_late /\
    task_history w' = task_history world_late.
Proof.
  split.
  - apply (growth_stage_tasks_not_stored "f1" "Harvest" 60 world_late).
    intros H. repeat (apply elem_of_cons in H as [H|H]; [discriminate|]).
    by apply elem_of_nil in H.
  - destruct (proj2 (growth_stage_tasks_not_stored
                       "f1" "Vegetative_Growth" 60 world_late))
      as (e & w' & Hrun & He & Hrest).
    + apply list_elem_of_further, list_elem_of_here.
    + exists e, w'. split; [exact Hrun|]. split; [|exact Hrest].
      apply He. cbn. intros H.
      apply list_elem_of_singleton in H. discriminate.
Defined.

(** *** The category breakdown *)

Lemma breakdown_fold (tasks : list FarmerTask) (acc : gmap string CategoryCount)
    (k : string) :
  foldl (λ (categories : gmap string CategoryCount) task,
           let category := TaskCategory_value (Tasks.category task) in
           let entry :=
             default {| count := 0; pending := 0; completed := 0 |}
                     (categories !! category) in
           let entry :=
             {| count := S (count entry); pending := pending entry;
                completed := completed entry |} in
           let entry :=
             if decide (status task = PENDING) then
               {| count := count entry; pending := S (pending entry);
                  completed := completed entry |}
             else if decide (status task = COMPLETED) then
               {| count := count entry; pending := pending entry;
                  completed := S (completed entry) |}
             else entry in
           <[category := entry]> categories)
        acc tasks !! k =
  match filter (λ t, TaskCategory_value (category t) = k) tasks with
  | [] => acc !! k
  | here =>
      Some (tally (default {| count := 0; pending := 0; completed := 0 |}
                           (acc !! k)) here)
  end.
Proof.
  revert acc. induction tasks as [|t tasks IH]; intros acc; [done|].
  cbn [foldl]. rewrite IH. cbv zeta. rewrite filter_cons.
  destruct (decide (TaskCategory_value (category t) = k)) as [<-|Hne].
  - rewrite lookup_insert_eq.
    set (e0 := default _ (acc !! _)).
    set (here := filter _ tasks).
    assert (forall e, default {| count := 0; pending := 0; completed := 0 |}
                              (Some e) = e) as Hd by done.
    unfold tally.
    destruct (decide (status t = PENDING)) as [Hp|Hp];
      [|destruct (decide (status t = COMPLETED)) as [Hc|Hc]];
      destruct here as [|t' here']; rewrite ?Hd;
      rewrite ?filter_cons, ?filter_nil;
      repeat match goal with
             | |- context [decide (status t = ?s)] =>
                 first [rewrite (decide_True (P := status t = s)) by done
                       |rewrite (decide_False (P := status t = s)) by congruence]
             end;
      cbn [count pending completed length]; f_equal; f_equal; lia.
  - by rewrite lookup_insert_ne.
Qed.

Lemma TaskCategory_value_inj (c d : TaskCategory) :
  TaskCategory_value c = TaskCategory_value d -> c = d.
Proof. by destruct c, d. Qed.

(** X21. The category breakdown of a summary counts, under the name of
    each category, the tasks of that category, those of them that are
    pending and those that are completed; a category without task has no
    entry.  Pending and completed together never exceed the count. *)
Theorem category_breakdown_counts (tasks : list FarmerTask) (c : TaskCategory) :
  let here := filter (λ t, category t = c) tasks in
  let entry := _get_category_breakdown tasks !! TaskCategory_value c in
  (here = [] -> entry = None) /\
  (here <> [] ->
   exists e,
     entry = Some e /\
     count e = length here /\
     pending e = length (filter (λ t, status t = PENDING) here) /\
     completed e = length (filter (λ t, status t = COMPLETED) here) /\
     (pending e + completed e <= count e)%nat).
Proof.
  cbv zeta. unfold _get_category_breakdown. rewrite breakdown_fold.
  assert (Hsame :
    filter (λ t, TaskCategory_value (category t) = TaskCategory_value c) tasks =
    filter (λ t, category t = c) tasks).
  { induction tasks as [|t tasks IH]; [done|]. rewrite !filter_cons, IH.
    destruct (decide (category t = c)) as [->|Hne].
    - by rewrite decide_True.
    - rewrite decide_False; [done|]. intros H. by apply TaskCategory_value_inj in H. }
  rewrite Hsame. set (here := filter (λ t, category t = c) tasks).
  split.
  - intros ->. by rewrite lookup_empty.
  - intros Hne. destruct here as [|t here'] eqn:E; [done|]. rewrite <- E.
    eexists. split; [reflexivity|]. rewrite lookup_empty.
    cbn [tally default count pending completed].
    repeat split; try lia.
    assert (Hdisjoint : forall l : list FarmerTask,
      (length (filter (λ t, status t = PENDING) l) +
       length (filter (λ t, status t = COMPLETED) l) <= length l)%nat).
    { induction l as [|x l IH]; [done|]. rewrite !filter_cons.
      destruct (decide (status x = PENDING)) as [Hp|Hp];
        destruct (decide (status x = COMPLETED)) as [Hc|Hc];
        cbn [length]; try lia. congruence. }
    specialize (Hdisjoint here). cbn. lia.
Qed.

(** *** Tasks from recommendations *)

(** The loop over the actions of a zone is left at its first action. *)
Lemma actions_loop (field_id zone_id : string) (zone : ZoneDict)
    (actions : list ActionDict) (ids : list string) (w : World) :
  (actions = [] ->
   for_fold actions ids (λ created_task_ids action,
     task ← _create_task_from_action field_id zone_id zone action;
     task_id ← create_task task;
     mret (created_task_ids ++ [task_id])) w = Ok ids w) /\
  (actions <> [] ->
   exists e w',
     for_fold actions ids (λ created_task_ids action,
       task ← _create_task_from_action field_id zone_id zone action;
       task_id ← create_task task;
       mret (created_task_ids ++ [task_id])) w = Raise e w' /\
     e <> KeyError /\
     same_store w w').
Proof.
  split; [by intros ->|].
  destruct actions as [|action actions]; [done|]. intros _.
  cbn [for_fold].
  set (w1 := {| farmer_tasks := farmer_tasks w; task_history := task_history w;
                sent_alerts := sent_alerts w; clock := clock w;
                uuid_draws := S (uuid_draws w) |}).
  set (task := task_from_action field_id zone_id zone action
                 (uuid_text (uuid_draws w)) (clock w) (clock w)).
  destruct (create_task_raises task w1) as (w' & Hrun & Hsame).
  eexists _, w'. split; [|split; [|exact Hsame]].
  - apply bind_raised.
    rewrite (bind_ok _ _ w w1 task) by reflexivity.
    apply bind_raised. exact Hrun.
  - by destruct (bool_decide _).
Qed.

Lemma zones_loop (field_id : string) (zones : list ZoneDict)
    (ids : list string) (w : World) :
  same_store w
    (final (for_fold zones ids (λ created_task_ids zone,
       match zone_id_ zone with
       | None => raise KeyError
       | Some zone_id =>
           for_fold (default [] (actions_ zone)) created_task_ids
             (λ created_task_ids action,
                task ← _create_task_from_action field_id zone_id zone action;
                task_id ← create_task task;
                mret (created_task_ids ++ [task_id]))
       end) w)) /\
  forall created w',
    for_fold zones ids (λ created_task_ids zone,
      match zone_id_ zone with
      | None => raise KeyError
      | Some zone_id =>
          for_fold (default [] (actions_ zone)) created_task_ids
            (λ created_task_ids action,
               task ← _create_task_from_action field_id zone_id zone action;
               task_id ← create_task task;
               mret (created_task_ids ++ [task_id]))
      end) w = Ok created w' ->
    created = ids /\ w' = w /\
    Forall (λ zone, is_Some (zone_id_ zone) /\ default [] (actions_ zone) = [])
           zones.
Proof.
  induction zones as [|zone zones [IH1 IH2]]; cbn [for_fold].
  - split; [apply same_store_refl|]. intros created w' [= <- <-]. by repeat split.
  - destruct (zone_id_ zone) as [zone_id|] eqn:Hzone.
    2:{ split; [apply same_store_refl|]. intros created w' Hrun. discriminate Hrun. }
    destruct (default [] (actions_ zone)) as [|action actions] eqn:Hactions.
    + rewrite (bind_ok _ _ w w ids) by reflexivity. split; [exact IH1|].
      intros created w' Hrun. destruct (IH2 created w' Hrun) as (-> & -> & Hall).
      split; [done|]. split; [done|]. constructor; [|exact Hall].
      split; [by eexists|done].
    + destruct (proj2 (actions_loop field_id zone_id zone (action :: actions)
                         ids w)) as (e & w1 & Hrun & _ & Hsame); [done|].
      rewrite (bind_raised _ _ w w1 e Hrun). split; [exact Hsame|].
      intros created w' H. discriminate H.
Qed.

(** X22. [generate_ai_tasks_from_recommendations] stores no task: however
    it is left, the tasks and the history are as before.  It returns only
    when the recommendations hold no action at all (no 'zones' key, or
    zones that each have a zone_id and no action), and then it returns the
    empty list; a zone without zone_id that comes before the first action
    raises KeyError, and the first action otherwise ends the call by the
    exception of [create_task]. *)
Theorem ai_tasks_never_stored
    (field_id : string) (recommendations : RecommendationsDict) (w : World) :
  farmer_tasks (final (generate_ai_tasks_from_recommendations
                         field_id recommendations w)) = farmer_tasks w /\
  task_history (final (generate_ai_tasks_from_recommendations
                         field_id recommendations w)) = task_history w /\
  forall created w',
    generate_ai_tasks_from_recommendations field_id recommendations w =
      Ok created w' ->
    created = [] /\ w' = w /\
    Forall (λ zone, is_Some (zone_id_ zone) /\ default [] (actions_ zone) = [])
           (default [] (zones_ recommendations)).
Proof.
  unfold generate_ai_tasks_from_recommendations. cbv zeta.
  destruct (zones_ recommendations) as [zones|].
  - destruct (zones_loop field_id zones [] w) as [(Hrows & Hhist & _) Hok].
    split; [exact Hrows|]. split; [exact Hhist|]. exact Hok.
  - split; [done|]. split; [done|]. intros created w' [= <- <-].
    by repeat split.
Qed.

(** X23. The materials of a task are read off the rate text alone when the
    action has one of the types the category mapping knows (irrigation,
    fertilization, pest_control, monitoring) or none: none of these names
    contains "fertilizer" or "pesticide", so a fertilization action needs
    nitrogen fertilizer only if its rate mentions nitrogen, and a pest
    control action needs pesticide only if its rate mentions spray. *)
Theorem materials_from_rate_only (action : ActionDict) :
  default "monitoring"%string (type_ action) ∈ dom category_mapping ->
  _extract_materials_from_action action =
    (if Py.contains "nitrogen" (Py.lower (default ""%string (rate_ action)))
     then ["nitrogen_fertilizer"%string] else []) ++
    (if Py.contains "spray" (Py.lower (default ""%string (rate_ action)))
     then ["pesticide"%string] else []).
Proof.
  intros Hin. unfold category_mapping in Hin.
  rewrite dom_list_to_map_L in Hin. cbn [fmap list_fmap fst] in Hin.
  rewrite elem_of_list_to_set in Hin.
  unfold _extract_materials_from_action. cbv zeta.
  assert (Htype :
    Py.contains "fertilizer" (default ""%string (type_ action)) = false /\
    Py.contains "pesticide" (default ""%string (type_ action)) = false).
  { destruct (type_ action) as [ty|]; [|by split]. cbn [default] in *.
    repeat (apply elem_of_cons in Hin as [->|Hin]; [by split|]).
    by apply elem_of_nil in Hin. }
  destruct Htype as [-> ->]. cbn [orb].
  by destruct (Py.contains "nitrogen" _), (Py.contains "spray" _).
Qed.

Lemma materials_from_rate_only_witness :
  _extract_materials_from_action
    {| type_ := Some "fertilization"%string; priority_ := Some "medium"%string;
       description_ := Some "Apply nitrogen fertilizer"%string;
       timing_ := Some "within_week"%string; cost_ := Some 400%Q;
       rate_ := Some "50kg/ha"%string |} =
    (if Py.contains "nitrogen" (Py.lower "50kg/ha") then ["nitrogen_fertilizer"%string]
     else []) ++
    (if Py.contains "spray" (Py.lower "50kg/ha") then ["pesticide"%string] else []).
Proof.
  apply (materials_from_rate_only
           {| type_ := Some "fertilization"%string; priority_ := Some "medium"%string;
              description_ := Some "Apply nitrogen fertilizer"%string;
              timing_ := Some "within_week"%string; cost_ := Some 400%Q;
              rate_ := Some "50kg/ha"%string |}).
  vm_compute. reflexivity.
Defined.

End TasksMore.

(** ** Further properties of the alert system *)

Module AlertsMore.
Import Run Tasks TaskExamples Alerts AlertExamples AlertSpec PyFacts.

(** *** Weather *)

(** X24. No weather is at once suitable and unsuitable for a task: the two
    checks are never both true, for any task and any weather. *)
Theorem weather_checks_exclusive (task : FarmerTask) (weather : Weather) :
  _is_weather_suitable task weather && _is_weather_unsuitable task weather = false.
Proof.
  unfold _is_weather_suitable, _is_weather_unsuitable. cbv zeta.
  destruct (category task); cbn [TaskCategory_value];
    match goal with
    | |- Py.get ?m1 ?k _ && Py.get ?m2 ?k _ = false =>
        let v1 := eval cbn in (m1 !! k) in
        let v2 := eval cbn in (m2 !! k) in
        change (Py.get m1 k true) with (default true v1);
        change (Py.get m2 k false) with (default false v2)
    end; cbn [default]; try reflexivity;
    repeat match goal with
           | |- context [Py.Qlt_bool ?a ?b] => destruct (Qlt_bool_spec a b)
           end; cbn; try reflexivity; lra.
Qed.

(** *** Sending and logging *)

Lemma alert_sent_run (task_id alert_type : string) (s : System) :
  _alert_sent task_id alert_type s =
    Ok (bool_decide (0 < length (filter
          (λ r, a_task_id r = task_id ∧ a_alert_type r = alert_type ∧
                a_status r = "sent"%string) (sent_alerts (task_manager s)))))%nat
       (set_task_manager (task_manager s) s).
Proof. reflexivity. Qed.

Lemma alert_sent_logged (task_id alert_type : string) (rows : list SentAlert) :
  bool_decide (0 < length (filter
     (λ r, a_task_id r = task_id ∧ a_alert_type r = alert_type ∧
           a_status r = "sent"%string) rows))%nat = true <->
  logged rows task_id alert_type.
Proof.
  rewrite bool_decide_eq_true. unfold logged. split.
  - intros Hlen. destruct (filter _ rows) as [|r l] eqn:E; [cbn in Hlen; lia|].
    assert (Hr : r ∈ filter (λ r, a_task_id r = task_id ∧
                                  a_alert_type r = alert_type ∧
                                  a_status r = "sent"%string) rows)
      by (rewrite E; apply list_elem_of_here).
    apply list_elem_of_filter in Hr as [(? & ? & ?) Hr]. by exists r.
  - intros (r & Hr & H1 & H2 & H3).
    assert (Hin : r ∈ filter (λ r, a_task_id r = task_id ∧
                                   a_alert_type r = alert_type ∧
                                   a_status r = "sent"%string) rows)
      by (by apply list_elem_of_filter).
    destruct (filter _ rows); [by apply elem_of_nil in Hin|cbn; lia].
Qed.

Lemma set_task_manager_same (s : System) :
  set_task_manager (task_manager s) s = s.
Proof. by destruct s. Qed.

Lemma log_alert_sent_ok (task_id alert_type recipient : string) (s : System) :
  clock (task_manager s) ∉ map a_id (sent_alerts (task_manager s)) ->
  _log_alert_sent task_id alert_type recipient s =
    Ok tt (set_task_manager
             (set_sent_alerts
                (sent_alerts (task_manager s) ++
                 [alert_row (clock (task_manager s)) task_id alert_type recipient])
                (task_manager s)) s).
Proof.
  intros Hid. unfold _log_alert_sent, on_task_manager, lift.
  unfold mbind, M_bind, datetime_now, gets, modify.
  by rewrite bool_decide_eq_false_2 by exact Hid.
Qed.

Lemma log_alert_sent_taken (task_id alert_type recipient : string) (s : System) :
  clock (task_manager s) ∈ map a_id (sent_alerts (task_manager s)) ->
  _log_alert_sent task_id alert_type recipient s = Raise IntegrityError s.
Proof.
  intros Hid. unfold _log_alert_sent, on_task_manager, lift.
  unfold mbind, M_bind, datetime_now, gets, modify, raise.
  rewrite bool_decide_eq_true_2 by exact Hid.
  by rewrite set_task_manager_same.
Qed.

(** X25. Logging and looking up an alert: once an alert is logged for a
    task and a type, the check finds it, also at any later time; and the
    answer of the check for any other task or type is what it was before. *)
Theorem alert_log_then_lookup
    (task_id alert_type recipient : string) (later : Z) (s : System) :
  clock (task_manager s) ∉ map a_id (sent_alerts (task_manager s)) ->
  exists s',
    _log_alert_sent task_id alert_type recipient s = Ok tt s' /\
    (exists s'',
       _alert_sent task_id alert_type
         (set_task_manager (set_clock later (task_manager s')) s') = Ok true s'') /\
    forall other_id other_type,
      (other_id, other_type) <> (task_id, alert_type) ->
      exists found s1 s2,
        _alert_sent other_id other_type s = Ok found s1 /\
        _alert_sent other_id other_type s' = Ok found s2.
Proof.
  intros Hid. eexists. split; [by apply log_alert_sent_ok|]. split.
  - eexists. rewrite alert_sent_run. f_equal.
    apply alert_sent_logged. eexists. split.
    + cbn. apply elem_of_app. right. apply list_elem_of_here.
    + done.
  - intros other_id other_type Hother. eexists _, _, _.
    rewrite !alert_sent_run. split; [reflexivity|]. f_equal.
    cbn [task_manager set_task_manager sent_alerts set_sent_alerts].
    rewrite filter_app, length_app.
    rewrite (filter_cons_False _ _ []); [cbn; by rewrite Nat.add_0_r|].
    cbn. intros (-> & -> & _). by apply Hother.
Qed.

Lemma alert_log_then_lookup_witness :
  exists s',
    _log_alert_sent "a" "urgent" "farmer@example.com" system_late = Ok tt s' /\
    (exists s'',
       _alert_sent "a" "urgent"
         (set_task_manager (set_clock 5000 (task_manager s')) s') = Ok true s'') /\
    forall other_id other_type,
      (other_id, other_type) <> ("a"%string, "urgent"%string) ->
      exists found s1 s2,
        _alert_sent other_id other_type system_late = Ok found s1 /\
        _alert_sent other_id other_type s' = Ok found s2.
Proof.
  apply (alert_log_then_lookup "a" "urgent" "farmer@example.com" 5000 system_late).
  cbn. apply not_elem_of_nil.
Defined.

(** X26. The log holds one alert per second: when two alerts are logged
    while the clock shows the same second, the first is stored and the
    second raises the integrity error of the primary key, whatever its task
    and type, and is not stored. *)
Theorem alert_log_same_second
    (task_id alert_type recipient task_id' alert_type' recipient' : string)
    (s : System) :
  clock (task_manager s) ∉ map a_id (sent_alerts (task_manager s)) ->
  exists s',
    _log_alert_sent task_id alert_type recipient s = Ok tt s' /\
    _log_alert_sent task_id' alert_type' recipient' s' = Raise IntegrityError s' /\
    sent_alerts (task_manager s') =
      sent_alerts (task_manager s) ++
      [alert_row (clock (task_manager s)) task_id alert_type recipient].
Proof.
  intros Hid. eexists. split; [by apply log_alert_sent_ok|]. split; [|reflexivity].
  apply log_alert_sent_taken. cbn. rewrite map_app.
  apply elem_of_app. right. apply list_elem_of_here.
Qed.

Lemma alert_log_same_second_witness :
  exists s',
    _log_alert_sent "a" "urgent" "farmer@example.com" system_late = Ok tt s' /\
    _log_alert_sent "b" "overdue" "farmer@example.com" s' =
      Raise IntegrityError s' /\
    sent_alerts (task_manager s') =
      sent_alerts (task_manager system_late) ++
      [alert_row (clock (task_manager system_late)) "a" "urgent"
         "farmer@example.com"].
Proof.
  apply (alert_log_same_second "a" "urgent" "farmer@example.com"
           "b" "overdue" "farmer@example.com" system_late).
  cbn. apply not_elem_of_nil.
Defined.

(** *** A scan *)

Lemma send_notification_run (message : Message) (alert_type : string) (s : System) :
  exists s',
    _send_notification message alert_type s = Ok tt s' /\
    task_manager s' = task_manager s /\
    config s' = config s /\
    dispatched s' = dispatched s ++ [(m_task_id message, alert_type)] /\
    outbox s' =
      outbox s ++
      (if email_enabled (config s) then [("email"%string, message)] else []) ++
      (if whatsapp_enabled (config s) then [("whatsapp"%string, message)] else []) ++
      (if push_notifications (config s) then [("push"%string, message)] else []) /\
    active_alerts s' =
      <[(clock (task_manager s), String.substring 0 8 (m_task_id message)) :=
          {| n_title := m_title message; n_type := alert_type;
             n_priority := m_priority message; n_task_id := m_task_id message;
             n_field_id := m_field_id message;
             n_timestamp := clock (task_manager s); n_read := false |}]>
        (active_alerts s).
Proof.
  unfold _send_notification, _send_email_notification,
    _send_whatsapp_notification, _send_push_notification,
    _store_notification_for_dashboard, on_task_manager, lift.
  unfold mbind, M_bind, gets, modify, mret, M_ret, datetime_now.
  cbn [config set_dispatched].
  destruct (email_enabled (config s)), (whatsapp_enabled (config s)),
    (push_notifications (config s));
    eexists; (split; [reflexivity|]); cbn; rewrite ?app_nil_r, <- ?app_assoc;
    by repeat split.
Qed.

Lemma scan_step_refl (s : System) : scan_step s 0 s.
Proof. unfold scan_step. cbv zeta. repeat split. left. by repeat split. Qed.

Lemma scan_step_trans (s s1 s2 : System) (n1 n2 : nat) :
  scan_step s n1 s1 -> scan_step s1 n2 s2 -> scan_step s (n1 + n2) s2.
Proof.
  unfold scan_step. cbv zeta.
  intros (Hc1 & Ht1 & Hg1 & H1) (Hc2 & Ht2 & Hg2 & H2).
  split; [congruence|]. split; [congruence|]. split; [congruence|].
  destruct H1 as [(-> & Hd1 & Hs1)|(-> & Hfree1 & tid1 & ty1 & r1 & Hd1 & Hs1 & Hn1)].
  - rewrite Hc1, Hd1, Hs1 in H2. exact H2.
  - destruct H2 as [(-> & Hd2 & Hs2)|(-> & Hfree2 & _)].
    + right. split; [done|]. split; [done|].
      exists tid1, ty1, r1. rewrite Hd2, Hs2. done.
    + exfalso. apply Hfree2. rewrite Hs1, Hc1, map_app.
      apply elem_of_app. right. apply list_elem_of_here.
Qed.

Lemma send_and_log_ok (message : Message) (alert_type recipient : string)
    (s s' : System) :
  (_send_notification message alert_type ≫= λ _,
   _log_alert_sent (m_task_id message) alert_type recipient) s = Ok tt s' ->
  alert_type = "overdue"%string \/
  ~ logged (sent_alerts (task_manager s)) (m_task_id message) alert_type ->
  scan_step s 1 s'.
Proof.
  destruct (send_notification_run message alert_type s)
    as (s1 & Hsend & Htm & Hcfg & Hd & _).
  rewrite (TasksFacts.bind_ok _ _ _ _ _ Hsend).
  destruct (decide (clock (task_manager s1) ∈
                    map a_id (sent_alerts (task_manager s1)))) as [Hin|Hnin].
  - by rewrite log_alert_sent_taken.
  - rewrite log_alert_sent_ok by done. intros [= <-] Hnew.
    unfold scan_step. cbv zeta.
    cbn [task_manager set_task_manager clock farmer_tasks sent_alerts
         set_sent_alerts config dispatched].
    rewrite Htm in *. split; [done|]. split; [done|]. split; [done|].
    right. split; [done|]. split; [done|].
    exists (m_task_id message), alert_type, recipient. by rewrite Hd.
Qed.

Lemma bind_inv {S A B} (m : Run.M S A) (f : A -> Run.M S B) (s s' : S) (b : B) :
  (m ≫= f) s = Ok b s' ->
  exists a s1, m s = Ok a s1 /\ f a s1 = Ok b s'.
Proof.
  unfold mbind, M_bind. destruct (m s) as [a s1|e s1]; [|done]. eauto.
Qed.

Lemma bind_raise {S A B} (m : Run.M S A) (f : A -> Run.M S B) (s s' : S)
    (e : exn) :
  m s = Raise e s' -> (m ≫= f) s = Raise e s'.
Proof. intros H. unfold mbind, M_bind. by rewrite H. Qed.

Lemma not_logged (task_id alert_type : string) (rows : list SentAlert) :
  bool_decide (0 < length (filter
     (λ r, a_task_id r = task_id ∧ a_alert_type r = alert_type ∧
           a_status r = "sent"%string) rows))%nat = false ->
  ~ logged rows task_id alert_type.
Proof.
  intros E H. apply alert_sent_logged in H. congruence.
Qed.

(** A guarded alert: sent unless it is logged. *)
Lemma guarded_send_ok (message : Message) (alert_type recipient : string)
    (s s' : System) (logged_ : bool) (s0 : System) :
  _alert_sent (m_task_id message) alert_type s = Ok logged_ s0 ->
  (_send_notification message alert_type ≫= λ _,
   _log_alert_sent (m_task_id message) alert_type recipient) s0 = Ok tt s' ->
  logged_ = false ->
  scan_step s 1 s'.
Proof.
  rewrite alert_sent_run, set_task_manager_same. intros [= <- <-] Hrun E.
  apply (send_and_log_ok _ _ _ _ _ Hrun). right. by apply not_logged.
Qed.

Lemma reminder_body_ok (task : FarmerTask) (current_time : Z)
    (alerts_sent : nat) (hours_before : Z) (s s' : System) (a : nat) :
  (let reminder_time := (due_date task - hours hours_before)%Z in
   if (reminder_time <=? current_time)%Z &&
      (current_time <? reminder_time + 30 * 60)%Z then
     logged ← _alert_sent (id task) (reminder_type hours_before);
     if negb logged then
       _send_reminder_alert task hours_before ≫= λ _,
       mret (alerts_sent + 1)%nat
     else mret alerts_sent
   else mret alerts_sent) s = Ok a s' ->
  exists n, a = (alerts_sent + n)%nat /\ scan_step s n s'.
Proof.
  cbv zeta. destruct (_ && _).
  - intros (logged_ & s0 & Hsent & Hrest)%bind_inv.
    destruct logged_; cbn [negb] in Hrest.
    + injection Hrest as <- <-. exists 0%nat. split; [lia|].
      rewrite alert_sent_run, set_task_manager_same in Hsent.
      injection Hsent as _ <-. apply scan_step_refl.
    + apply bind_inv in Hrest as ([] & s1 & Hsend & Hret).
      injection Hret as <- <-. exists 1%nat. split; [done|].
      unfold _send_reminder_alert in Hsend. cbv zeta in Hsend.
      eapply guarded_send_ok; [|exact Hsend|reflexivity]. exact Hsent.
  - intros [= <- <-]. exists 0%nat. split; [lia|]. apply scan_step_refl.
Qed.

Lemma reminder_loop_ok (task : FarmerTask) (current_time : Z)
    (hs : list Z) (acc : nat) (s s' : System) (acc' : nat) :
  for_fold hs acc (λ alerts_sent hours_before,
    let reminder_time := (due_date task - hours hours_before)%Z in
    if (reminder_time <=? current_time)%Z &&
       (current_time <? reminder_time + 30 * 60)%Z then
      logged ← _alert_sent (id task) (reminder_type hours_before);
      if negb logged then
        _send_reminder_alert task hours_before ≫= λ _,
        mret (alerts_sent + 1)%nat
      else mret alerts_sent
    else mret alerts_sent) s = Ok acc' s' ->
  exists n, acc' = (acc + n)%nat /\ scan_step s n s'.
Proof.
  revert acc s. induction hs as [|h hs IH]; intros acc s.
  - intros [= <- <-]. exists 0%nat. split; [lia|]. apply scan_step_refl.
  - cbn [for_fold]. intros (a & s1 & Hbody & Hrest)%bind_inv.
    apply reminder_body_ok in Hbody as (n1 & -> & H1).
    apply IH in Hrest as (n2 & -> & H2).
    exists (n1 + n2)%nat. split; [lia|]. by apply (scan_step_trans _ s1).
Qed.

Lemma check_reminder_alerts_ok (task : FarmerTask) (current_time : Z)
    (s s' : System) (n : nat) :
  _check_reminder_alerts task current_time s = Ok n s' -> scan_step s n s'.
Proof.
  unfold _check_reminder_alerts. cbv zeta.
  intros (cfg & s0 & [= <- <-] & Hloop)%bind_inv.
  apply reminder_loop_ok in Hloop as (m & -> & Hstep). exact Hstep.
Qed.

Lemma simulated_weather_not_unsuitable (task : FarmerTask) :
  _is_weather_unsuitable task simulated_weather = false.
Proof. unfold _is_weather_unsuitable. by destruct (category task). Qed.

Lemma simulated_weather_suitable (task : FarmerTask) :
  _is_weather_suitable task simulated_weather =
  bool_decide (category task ∉ [FERTILIZATION; PEST_CONTROL; HARVESTING]).
Proof.
  unfold _is_weather_suitable.
  destruct (category task); vm_compute; reflexivity.
Qed.

Lemma check_weather_alerts_ok (task : FarmerTask) (s s' : System) (n : nat) :
  _check_weather_alerts task s = Ok n s' -> scan_step s n s'.
Proof.
  unfold _check_weather_alerts. cbv zeta.
  intros (unsent & s0 & Hguard & Hrest)%bind_inv.
  unfold and_then in Hguard.
  destruct (weather_dependent task).
  - apply bind_inv in Hguard as (logged_ & s1 & Hsent & [= <- <-]).
    destruct logged_; cbn [negb] in Hrest.
    + injection Hrest as <- <-.
      rewrite alert_sent_run, set_task_manager_same in Hsent.
      injection Hsent as _ <-. apply scan_step_refl.
    + destruct (_is_weather_suitable task simulated_weather).
      * apply bind_inv in Hrest as ([] & s2 & Hsend & [= <- <-]).
        unfold _send_weather_suitable_alert in Hsend. cbv zeta in Hsend.
        eapply guarded_send_ok; [|exact Hsend|reflexivity]. exact Hsent.
      * rewrite simulated_weather_not_unsuitable in Hrest.
        injection Hrest as <- <-.
        rewrite alert_sent_run, set_task_manager_same in Hsent.
        injection Hsent as _ <-. apply scan_step_refl.
  - injection Hguard as <- <-. injection Hrest as <- <-. apply scan_step_refl.
Qed.

Lemma scan_body_ok (current_time : Z) (alerts_sent : AlertsSent)
    (task : FarmerTask) (s s' : System) (a : AlertsSent) :
  (alerts_sent ←
     (if (due_date task <? current_time)%Z &&
         bool_decide (status task ≠ OVERDUE) then
        _send_overdue_alert task ≫= λ _,
        mret {| overdue := overdue alerts_sent + 1; urgent := urgent alerts_sent;
                reminders := reminders alerts_sent;
                weather := weather alerts_sent; total := total alerts_sent |}
      else
        urgent_unsent ← (and_then (bool_decide (priority task = URGENT))
          (logged ← _alert_sent (id task) "urgent";
           mret (negb logged)) : MA bool);
        if (urgent_unsent : bool) then
          _send_urgent_alert task ≫= λ _,
          mret {| overdue := overdue alerts_sent;
                  urgent := urgent alerts_sent + 1;
                  reminders := reminders alerts_sent;
                  weather := weather alerts_sent; total := total alerts_sent |}
        else
          reminder_alerts ← _check_reminder_alerts task current_time;
          mret {| overdue := overdue alerts_sent; urgent := urgent alerts_sent;
                  reminders := reminders alerts_sent + reminder_alerts;
                  weather := weather alerts_sent; total := total alerts_sent |});
   if weather_dependent task then
     weather_alerts ← _check_weather_alerts task;
     mret {| overdue := overdue alerts_sent; urgent := urgent alerts_sent;
             reminders := reminders alerts_sent;
             weather := weather alerts_sent + weather_alerts;
             total := total alerts_sent |}
   else mret alerts_sent) s = Ok a s' ->
  exists n,
    counted a = (counted alerts_sent + n)%nat /\
    overdue a =
      (overdue alerts_sent +
       if (due_date task <? current_time)%Z && bool_decide (status task ≠ OVERDUE)
       then 1 else 0)%nat /\
    total a = total alerts_sent /\
    scan_step s n s'.
Proof.
  intros (a1 & s1 & Hfirst & Hsecond)%bind_inv.
  assert (exists n1,
            counted a1 = (counted alerts_sent + n1)%nat /\
            overdue a1 =
              (overdue alerts_sent +
               if (due_date task <? current_time)%Z &&
                  bool_decide (status task ≠ OVERDUE)
               then 1 else 0)%nat /\
            total a1 = total alerts_sent /\
            scan_step s n1 s1) as (n1 & Hc1 & Ho1 & Ht1 & H1).
  { destruct (_ && _).
    - apply bind_inv in Hfirst as ([] & s0 & Hsend & [= <- <-]).
      exists 1%nat. unfold counted. cbn. split; [lia|]. split; [lia|].
      split; [done|].
      unfold _send_overdue_alert in Hsend. cbv zeta in Hsend.
      apply (send_and_log_ok _ _ _ _ _ Hsend). by left.
    - apply bind_inv in Hfirst as (unsent & s0 & Hguard & Hrest).
      unfold and_then in Hguard.
      assert (Hreminders : forall s0,
        (reminder_alerts ← _check_reminder_alerts task current_time;
         mret {| overdue := overdue alerts_sent; urgent := urgent alerts_sent;
                 reminders := reminders alerts_sent + reminder_alerts;
                 weather := weather alerts_sent; total := total alerts_sent |})
          s0 = Ok a1 s1 ->
        exists n1,
          counted a1 = (counted alerts_sent + n1)%nat /\
          overdue a1 = (overdue alerts_sent + 0)%nat /\
          total a1 = total alerts_sent /\
          scan_step s0 n1 s1).
      { intros s2 (n & s3 & Hrem & [= <- <-])%bind_inv.
        exists n. unfold counted. cbn. split; [lia|]. split; [lia|].
        split; [done|]. by apply (check_reminder_alerts_ok task current_time). }
      destruct (bool_decide (priority task = URGENT)).
      + apply bind_inv in Hguard as (logged_ & s2 & Hsent & [= <- <-]).
        destruct logged_; cbn [negb] in Hrest.
        * rewrite alert_sent_run, set_task_manager_same in Hsent.
          injection Hsent as _ <-. by apply Hreminders.
        * apply bind_inv in Hrest as ([] & s3 & Hsend & [= <- <-]).
          exists 1%nat. unfold counted. cbn. split; [lia|]. split; [lia|].
          split; [done|].
          unfold _send_urgent_alert in Hsend. cbv zeta in Hsend.
          eapply guarded_send_ok; [|exact Hsend|reflexivity]. exact Hsent.
      + injection Hguard as <- <-. by apply Hreminders. }
  destruct (weather_dependent task).
  - apply bind_inv in Hsecond as (n2 & s2 & Hweather & [= <- <-]).
    apply check_weather_alerts_ok in Hweather.
    exists (n1 + n2)%nat. unfold counted in *. cbn.
    split; [lia|]. split; [done|]. split; [done|].
    by apply (scan_step_trans _ s1).
  - injection Hsecond as <- <-. exists n1. done.
Qed.

Lemma scan_loop_ok (current_time : Z) (tasks : list FarmerTask)
    (alerts_sent : AlertsSent) (s s' : System) (a : AlertsSent) :
  for_fold tasks alerts_sent (λ alerts_sent task,
    alerts_sent ←
      (if (due_date task <? current_time)%Z &&
          bool_decide (status task ≠ OVERDUE) then
         _send_overdue_alert task ≫= λ _,
         mret {| overdue := overdue alerts_sent + 1; urgent := urgent alerts_sent;
                 reminders := reminders alerts_sent;
                 weather := weather alerts_sent; total := total alerts_sent |}
       else
         urgent_unsent ← (and_then (bool_decide (priority task = URGENT))
           (logged ← _alert_sent (id task) "urgent";
            mret (negb logged)) : MA bool);
         if (urgent_unsent : bool) then
           _send_urgent_alert task ≫= λ _,
           mret {| overdue := overdue alerts_sent;
                   urgent := urgent alerts_sent + 1;
                   reminders := reminders alerts_sent;
                   weather := weather alerts_sent; total := total alerts_sent |}
         else
           reminder_alerts ← _check_reminder_alerts task current_time;
           mret {| overdue := overdue alerts_sent; urgent := urgent alerts_sent;
                   reminders := reminders alerts_sent + reminder_alerts;
                   weather := weather alerts_sent; total := total alerts_sent |});
    if weather_dependent task then
      weather_alerts ← _check_weather_alerts task;
      mret {| overdue := overdue alerts_sent; urgent := urgent alerts_sent;
              reminders := reminders alerts_sent;
              weather := weather alerts_sent + weather_alerts;
              total := total alerts_sent |}
    else mret alerts_sent) s = Ok a s' ->
  exists n,
    counted a = (counted alerts_sent + n)%nat /\
    overdue a =
      (overdue alerts_sent +
       length (filter (λ task, (due_date task < current_time)%Z ∧
                               status task ≠ OVERDUE) tasks))%nat /\
    total a = total alerts_sent /\
    scan_step s n s'.
Proof.
  revert alerts_sent s. induction tasks as [|task tasks IH]; intros alerts_sent s.
  - intros [= <- <-]. exists 0%nat. rewrite filter_nil. cbn [length].
    split; [lia|]. split; [lia|]. split; [done|]. apply scan_step_refl.
  - cbn [for_fold]. intros (a1 & s1 & Hbody & Hrest)%bind_inv.
    apply scan_body_ok in Hbody as (n1 & Hc1 & Ho1 & Ht1 & H1).
    apply IH in Hrest as (n2 & Hc2 & Ho2 & Ht2 & H2).
    exists (n1 + n2)%nat. split; [lia|]. split; [|split; [congruence|]].
    + rewrite Ho2, Ho1, filter_cons.
      destruct (Z.ltb_spec (due_date task) current_time) as [Hlate|Hnot];
        destruct (bool_decide_reflect (status task ≠ OVERDUE)) as [Hst|Hst];
        cbn [andb].
      * rewrite decide_True by done. cbn [length]. lia.
      * rewrite decide_False by tauto. lia.
      * rewrite decide_False by (intros [? _]; lia). lia.
      * rewrite decide_False by (intros [? _]; lia). lia.
    + by apply (scan_step_trans _ s1).
Qed.

(** What a scan that returns normally has done. *)
Lemma scan_ok (field_ids : list string) (s s' : System) (counts : AlertsSent) :
  check_and_send_alerts field_ids s = Ok counts s' ->
  total counts = counted counts /\
  overdue counts =
    length (filter (λ task, (due_date task < clock (task_manager s))%Z)
              (filter (λ task, status task ∈ [PENDING; IN_PROGRESS])
                 (filter (λ task, field_id task ∈ field_ids)
                    (farmer_tasks (task_manager s))))) /\
  scan_step s (total counts) s'.
Proof.
  unfold check_and_send_alerts. cbv zeta.
  intros (tasks & s0 & Hget & Hrest)%bind_inv.
  destruct (TasksFacts.get_tasks_for_farmer_run field_ids
              (Some [PENDING; IN_PROGRESS]) None None (task_manager s))
    as (tasks' & Hrun & Hperm).
  rewrite !(TasksFacts.filter_all (λ t, in_filter None _)) in Hperm by done.
  unfold on_task_manager, lift in Hget. rewrite Hrun in Hget.
  rewrite set_task_manager_same in Hget. injection Hget as <- <-.
  apply bind_inv in Hrest as (now & s1 & Hnow & Hrest).
  unfold on_task_manager, lift, datetime_now, gets in Hnow.
  rewrite set_task_manager_same in Hnow. injection Hnow as <- <-.
  apply bind_inv in Hrest as (a & s2 & Hloop & [= <- <-]).
  apply scan_loop_ok in Hloop as (n & Hc & Ho & Ht & Hstep).
  unfold counted in *. cbn in *.
  assert (Hn : (overdue a + urgent a + reminders a + weather a + total a -
                total a)%nat = n) by lia.
  rewrite Hn. split; [lia|]. split; [|exact Hstep].
  rewrite Ho. cbn [overdue Nat.add].
  assert (Hall : Forall (λ task, status task ∈ [PENDING; IN_PROGRESS]) tasks').
  { apply Forall_forall. intros t Hin. rewrite Hperm in Hin.
    by apply list_elem_of_filter in Hin as [? _]. }
  assert (Hsame :
    filter (λ task, (due_date task < clock (task_manager s))%Z ∧
                    status task ≠ OVERDUE) tasks' =
    filter (λ task, (due_date task < clock (task_manager s))%Z) tasks').
  { clear -Hall. induction Hall as [|t l Hst _ IH]; [done|].
    rewrite !filter_cons, IH.
    assert (status t ≠ OVERDUE).
    { intros E. rewrite E in Hst.
      repeat (apply elem_of_cons in Hst as [Hst|Hst]; [discriminate|]).
      by apply elem_of_nil in Hst. }
    destruct (decide (due_date t < clock (task_manager s))%Z).
    - by rewrite decide_True.
    - rewrite decide_False; [done|]. tauto. }
  rewrite Hsame. apply Permutation_length. by rewrite Hperm.
Qed.

(** X27. While the clock shows the same second, a scan that returns
    normally has sent at most one alert.  Its total is the sum of its four
    counters and the number of alerts it has dispatched; the alert is
    logged, and unless it is an overdue alert no alert of its type was
    logged for its task before.  The overdue counter is the number of late
    pending and in-progress tasks of the fields. *)
Theorem scan_sends_at_most_one
    (field_ids : list string) (s s' : System) (counts : AlertsSent) :
  check_and_send_alerts field_ids s = Ok counts s' ->
  total counts =
    (overdue counts + urgent counts + reminders counts + weather counts)%nat /\
  (total counts <= 1)%nat /\
  overdue counts =
    length (filter (λ task, (due_date task < clock (task_manager s))%Z)
              (filter (λ task, status task ∈ [PENDING; IN_PROGRESS])
                 (filter (λ task, field_id task ∈ field_ids)
                    (farmer_tasks (task_manager s))))) /\
  exists new,
    dispatched s' = dispatched s ++ new /\
    length new = total counts /\
    forall task_id alert_type,
      (task_id, alert_type) ∈ new ->
      logged (sent_alerts (task_manager s')) task_id alert_type /\
      (alert_type = "overdue"%string \/
       ~ logged (sent_alerts (task_manager s)) task_id alert_type).
Proof.
  intros Hrun. apply scan_ok in Hrun as (Htotal & Hoverdue & Hstep).
  split; [exact Htotal|].
  destruct Hstep as (_ & _ & _ & [(Hn & Hd & _)|(Hn & _ & tid & ty & r & Hd & Hs & Hnew)]).
  - split; [lia|]. split; [exact Hoverdue|].
    exists []. rewrite app_nil_r. split; [done|]. split; [by rewrite Hn|].
    intros ? ? []%elem_of_nil.
  - split; [lia|]. split; [exact Hoverdue|].
    exists [(tid, ty)]. split; [done|]. split; [by rewrite Hn|].
    intros tid' ty' [[= -> ->]|[]%elem_of_nil]%elem_of_cons.
    split; [|exact Hnew].
    eexists. split; [rewrite Hs; apply elem_of_app; right; apply list_elem_of_here|].
    done.
Qed.

Lemma scan_sends_at_most_one_witness :
  exists counts s',
    check_and_send_alerts ["f1"%string] system_late = Ok counts s' /\
    total counts =
      (overdue counts + urgent counts + reminders counts + weather counts)%nat /\
    (total counts <= 1)%nat /\
    overdue counts =
      length (filter (λ task, (due_date task < clock (task_manager system_late))%Z)
                (filter (λ task, status task ∈ [PENDING; IN_PROGRESS])
                   (filter (λ task, field_id task ∈ ["f1"%string])
                      (farmer_tasks (task_manager system_late))))) /\
    exists new,
      dispatched s' = dispatched system_late ++ new /\
      length new = total counts /\
      forall task_id alert_type,
        (task_id, alert_type) ∈ new ->
        logged (sent_alerts (task_manager s')) task_id alert_type /\
        (alert_type = "overdue"%string \/
         ~ logged (sent_alerts (task_manager system_late)) task_id alert_type).
Proof.
  eexists _, _. split.
  - vm_compute. reflexivity.
  - apply (scan_sends_at_most_one ["f1"%string] system_late).
    vm_compute. reflexivity.
Defined.

(** X28. While the clock shows the same second, a scan over fields that
    hold two or more late pending or in-progress tasks does not return: it
    ends in an exception, since the log takes one alert per second. *)
Theorem scan_fails_on_two_late_tasks (field_ids : list string) (s : System) :
  (2 <= length (filter (λ task, (due_date task < clock (task_manager s))%Z)
                  (filter (λ task, status task ∈ [PENDING; IN_PROGRESS])
                     (filter (λ task, field_id task ∈ field_ids)
                        (farmer_tasks (task_manager s))))))%nat ->
  exists e s', check_and_send_alerts field_ids s = Raise e s'.
Proof.
  intros Htwo.
  destruct (check_and_send_alerts field_ids s) as [counts s'|e s'] eqn:Hrun;
    [|by eauto].
  apply scan_ok in Hrun as (Htotal & Hoverdue & Hstep).
  unfold counted in Htotal.
  destruct Hstep as (_ & _ & _ & [(Hn & _)|(Hn & _)]); lia.
Qed.

Lemma scan_fails_on_two_late_tasks_witness :
  exists e s', check_and_send_alerts ["f1"%string] system_two_late = Raise e s'.
Proof.
  apply (scan_fails_on_two_late_tasks ["f1"%string] system_two_late).
  vm_compute. lia.
Defined.

(** X29. With the weather that the check simulates, a task gets a
    "weather_suitable" alert exactly when it is weather dependent, is not a
    fertilization, pest control or harvesting task, and has no such alert
    logged; a task never gets a weather warning.  The alert is dispatched
    also when logging it then fails. *)
Theorem simulated_weather_alerts (task : FarmerTask) (s : System) :
  exists new s',
    (_check_weather_alerts task s = Ok (length new) s' \/
     _check_weather_alerts task s = Raise IntegrityError s') /\
    dispatched s' = dispatched s ++ new /\
    (new = [] \/ new = [(id task, "weather_suitable"%string)]) /\
    (new <> [] <->
     weather_dependent task = true /\
     (category task ∉ [FERTILIZATION; PEST_CONTROL; HARVESTING]) /\
     ~ logged (sent_alerts (task_manager s)) (id task) "weather_suitable").
Proof.
  unfold _check_weather_alerts. cbv zeta.
  destruct (weather_dependent task) eqn:Hwd.
  - cbn [and_then].
    set (b := bool_decide (0 < length (filter
       (λ r, a_task_id r = id task ∧ a_alert_type r = "weather_suitable"%string ∧
             a_status r = "sent"%string) (sent_alerts (task_manager s))))%nat).
    assert (Hguard :
      (logged ← _alert_sent (id task) "weather_suitable"; mret (negb logged)) s =
      Ok (negb b) s).
    { rewrite (TasksFacts.bind_ok _ _ s s b); [done|].
      by rewrite alert_sent_run, set_task_manager_same. }
    rewrite (TasksFacts.bind_ok _ _ s s (negb b) Hguard).
    destruct b eqn:Hb; cbn [negb].
    + exists [], s. rewrite app_nil_r. split; [by left|]. split; [done|].
      split; [by left|]. split; [done|].
      intros (_ & _ & Hnot). destruct Hnot. by apply alert_sent_logged.
    + apply not_logged in Hb.
      rewrite simulated_weather_suitable, simulated_weather_not_unsuitable.
      destruct (bool_decide_reflect
                  (category task ∉ [FERTILIZATION; PEST_CONTROL; HARVESTING]))
        as [Hcat|Hcat].
      * unfold _send_weather_suitable_alert. cbv zeta.
        set (message := {| m_title := _; m_priority := _; m_task_id := id task;
                           m_field_id := _ |}).
        destruct (send_notification_run message "weather_suitable" s)
          as (s1 & Hsend & Htm & _ & Hd & _).
        assert (Hnew : [(id task, "weather_suitable"%string)] <> [] <->
                       true = true /\
                       (category task ∉ [FERTILIZATION; PEST_CONTROL; HARVESTING]) /\
                       ~ logged (sent_alerts (task_manager s)) (id task)
                           "weather_suitable") by (split; [done|discriminate]).
        destruct (decide (clock (task_manager s1) ∈
                          map a_id (sent_alerts (task_manager s1)))) as [Hin|Hnin].
        -- exists [(id task, "weather_suitable"%string)], s1. split.
           { right. apply bind_raise.
             rewrite (TasksFacts.bind_ok _ _ s s1 tt Hsend).
             by apply log_alert_sent_taken. }
           split; [exact Hd|]. split; [by right|]. exact Hnew.
        -- pose proof (log_alert_sent_ok (id task) "weather_suitable"
                         "farmer@example.com" s1 Hnin) as Hlog.
           set (s2 := set_task_manager _ s1) in Hlog.
           exists [(id task, "weather_suitable"%string)], s2. split.
           { left. rewrite (TasksFacts.bind_ok _ _ s s2 tt).
             - reflexivity.
             - by rewrite (TasksFacts.bind_ok _ _ s s1 tt Hsend). }
           split; [exact Hd|]. split; [by right|]. exact Hnew.
      * exists [], s. rewrite app_nil_r. split; [by left|]. split; [done|].
        split; [by left|]. split; [done|]. intros (_ & ? & _). done.
  - exists [], s. rewrite app_nil_r. split; [by left|]. split; [done|].
    split; [by left|]. split; [done|]. intros (? & _). done.
Qed.

(** *** The dashboard *)

Lemma foldl_delete_lookup {V} (ks : list (Z * string)) (m : gmap (Z * string) V)
    (k : Z * string) :
  foldl (λ m k, delete k m) m ks !! k =
  if decide (k ∈ ks) then None else m !! k.
Proof.
  revert m. induction ks as [|k' ks IH]; intros m; cbn [foldl].
  - by rewrite decide_False by apply not_elem_of_nil.
  - rewrite IH. destruct (decide (k ∈ ks)) as [Hin|Hnin].
    + by rewrite decide_True by (by apply list_elem_of_further).
    + destruct (decide (k = k')) as [->|Hne].
      * rewrite lookup_delete_eq.
        by rewrite decide_True by apply list_elem_of_here.
      * rewrite lookup_delete_ne by done.
        rewrite decide_False; [done|].
        intros [?|?]%elem_of_cons; done.
Qed.

Lemma clear_old_alerts_run (hours_old : Z) (s : System) :
  exists s',
    clear_old_alerts hours_old s = Ok tt s' /\
    task_manager s' = task_manager s /\
    dispatched s' = dispatched s /\
    forall k a,
      active_alerts s' !! k = Some a <->
      active_alerts s !! k = Some a /\
      (clock (task_manager s) - hours hours_old <= n_timestamp a)%Z.
Proof.
  unfold clear_old_alerts, on_task_manager, lift.
  unfold mbind, M_bind, datetime_now, gets, modify. cbv zeta.
  eexists. split; [reflexivity|].
  cbn [task_manager set_task_manager set_active_alerts dispatched active_alerts].
  split; [done|]. split; [done|].
  intros k a. rewrite foldl_delete_lookup.
  set (cutoff := (clock (task_manager s) - hours hours_old)%Z).
  destruct (decide (k ∈ _)) as [Hin|Hnin].
  - apply list_elem_of_fmap in Hin as ([k' a'] & -> & Hin).
    apply list_elem_of_filter in Hin as [Hold Hin]. cbn in Hold.
    apply elem_of_map_to_list in Hin. cbn. split; [done|].
    intros [Hk Hnew]. rewrite Hin in Hk. injection Hk as ->. lia.
  - split; [|tauto]. intros Hk. split; [exact Hk|].
    destruct (Z.le_gt_cases cutoff (n_timestamp a)) as [|Hold]; [done|].
    destruct Hnin. apply list_elem_of_fmap. exists (k, a). split; [done|].
    apply list_elem_of_filter. split; [cbn; lia|].
    by apply elem_of_map_to_list.
Qed.

(** X30. The life of a dashboard alert: a stored notification is unread;
    marking it read succeeds and changes its read flag only; clearing the
    alerts older than a number of hours that is not negative, at that time,
    keeps it, and keeps in general exactly the alerts that are not older
    than the cutoff; and marking an alert that is not on the dashboard
    reports failure and changes nothing. *)
Theorem dashboard_alert_lifecycle
    (message : Message) (alert_type : string) (hours_old : Z) (s : System) :
  (0 <= hours_old)%Z ->
  let key := (clock (task_manager s), String.substring 0 8 (m_task_id message)) in
  exists s1 s2 s3 n,
    _store_notification_for_dashboard message alert_type s = Ok tt s1 /\
    active_alerts s1 = <[key := n]> (active_alerts s) /\
    n_read n = false /\
    n_task_id n = m_task_id message /\
    n_type n = alert_type /\
    mark_alert_read key s1 = Ok true s2 /\
    active_alerts s2 = <[key := set_read n]> (active_alerts s1) /\
    clear_old_alerts hours_old s2 = Ok tt s3 /\
    active_alerts s3 !! key = Some (set_read n) /\
    (forall k a,
       active_alerts s3 !! k = Some a <->
       active_alerts s2 !! k = Some a /\
       (clock (task_manager s) - hours hours_old <= n_timestamp a)%Z) /\
    (forall k, active_alerts s3 !! k = None -> mark_alert_read k s3 = Ok false s3).
Proof.
  intros Hh key.
  set (n := {| n_title := m_title message; n_type := alert_type;
               n_priority := m_priority message; n_task_id := m_task_id message;
               n_field_id := m_field_id message;
               n_timestamp := clock (task_manager s); n_read := false |}).
  set (s1 := set_active_alerts (<[key := n]> (active_alerts s))
               (set_task_manager (task_manager s) s)).
  set (s2 := set_active_alerts (<[key := set_read n]> (active_alerts s1)) s1).
  destruct (clear_old_alerts_run hours_old s2) as (s3 & Hclear & Htm & _ & Hkeep).
  exists s1, s2, s3, n.
  split; [reflexivity|]. split; [reflexivity|]. split; [reflexivity|].
  split; [reflexivity|]. split; [reflexivity|]. split.
  { unfold mark_alert_read.
    unfold mbind at 1, M_bind at 1, gets.
    replace (active_alerts s1 !! key) with (Some n)
      by (symmetry; apply lookup_insert_eq).
    reflexivity. }
  split; [reflexivity|]. split; [exact Hclear|]. split; [|split].
  - apply Hkeep. split; [apply lookup_insert_eq|].
    cbn. unfold hours. lia.
  - exact Hkeep.
  - intros k Hk. unfold mark_alert_read, mbind, M_bind, gets. by rewrite Hk.
Qed.

Lemma dashboard_alert_lifecycle_witness :
  let message :=
    {| m_title := "Urgent Task"; m_priority := "urgent";
       m_task_id := "task-0001-a"; m_field_id := "f1" |} in
  let key := (clock (task_manager system_late),
              String.substring 0 8 (m_task_id message)) in
  exists s1 s2 s3 n,
    _store_notification_for_dashboard message "urgent" system_late = Ok tt s1 /\
    active_alerts s1 = <[key := n]> (active_alerts system_late) /\
    n_read n = false /\
    n_task_id n = m_task_id message /\
    n_type n = "urgent"%string /\
    mark_alert_read key s1 = Ok true s2 /\
    active_alerts s2 = <[key := set_read n]> (active_alerts s1) /\
    clear_old_alerts 24 s2 = Ok tt s3 /\
    active_alerts s3 !! key = Some (set_read n) /\
    (forall k a,
       active_alerts s3 !! k = Some a <->
       active_alerts s2 !! k = Some a /\
       (clock (task_manager system_late) - hours 24 <= n_timestamp a)%Z) /\
    (forall k, active_alerts s3 !! k = None -> mark_alert_read k s3 = Ok false s3).
Proof.
  apply (dashboard_alert_lifecycle
           {| m_title := "Urgent Task"; m_priority := "urgent";
              m_task_id := "task-0001-a"; m_field_id := "f1" |}
           "urgent" 24 system_late).
  lia.
Defined.

End AlertsMore.
